(** * Painel de Analise de Dados: the upload pipeline of [app.py]

    A shallow embedding of [clean_numeric], [process_data],
    [generate_charts] and [upload_file], followed by the properties of the
    pipeline.

    Python values are modelled as the code observes them:
    - a [str] is a sequence of Unicode code points;
    - a [float] is an IEEE-754 binary64 number, [spec_float] with
      precision 53 and maximal exponent 1024;
    - an exception is a value of [exn], carried by [result];
    - [print] appends to an explicit output log;
    - a DataFrame is its column labels and its rows of cells, a row of
      [df.iterrows()] is a Series, and [row[i]] is the lookup of pandas:
      by label, or by position where pandas falls back to it.

    What the source takes from its libraries and does not contain is a
    parameter: the Unicode database ([Unicode]), the summation of the
    interpreter ([Interpreter]), the dtypes of pandas ([Pandas]), the
    plotting library ([Plotter]), the readers and the JSON encoder
    ([Libraries]). *)

From Stdlib Require Import Ascii String DecimalString.
From Stdlib Require Import List ZArith NArith PArith Bool Lia.
From Stdlib Require Import Permutation.
From Stdlib Require Import SpecFloat.
Import ListNotations.

Set Implicit Arguments.

(* ================================================================== *)
(** * Python strings *)

(** A code point. *)
Definition char := N.

(** A Python [str]. *)
Definition str := list char.

(** The [str] written by an ASCII literal of the source. *)
Definition lit (s : string) : str :=
  map N_of_ascii (list_ascii_of_string s).

Definition char_eqb : char -> char -> bool := N.eqb.

Fixpoint str_eqb (a b : str) : bool :=
  match a, b with
  | [], [] => true
  | x :: a', y :: b' => char_eqb x y && str_eqb a' b'
  | _, _ => false
  end.

(** [prefixb p s]: [s.startswith(p)]. *)
Fixpoint prefixb (p s : str) : bool :=
  match p, s with
  | [], _ => true
  | x :: p', y :: s' => char_eqb x y && prefixb p' s'
  | _ :: _, [] => false
  end.

(** [contains p s]: the Python test [p in s] on two strings. *)
Fixpoint contains (p s : str) : bool :=
  prefixb p s ||
  match s with
  | [] => false
  | _ :: s' => contains p s'
  end.

(** [p] occurs in [s], as a proposition. *)
Definition occurs (p s : str) : Prop := exists a b, s = a ++ p ++ b.

Definition is_ascii (c : char) : bool := (c <? 128)%N.

Definition ascii_isdigit (c : char) : bool := ((48 <=? c) && (c <=? 57))%N.

Definition ascii_lower (c : char) : char :=
  if ((65 <=? c) && (c <=? 90))%N then (c + 32)%N else c.

(** The part of the Unicode character database that [str.isdigit],
    [str.lower] and [float] consult.  The source does not contain the
    database; the three functions are fixed on ASCII text and left open on
    the rest. *)
Class Unicode : Type := {
  (** [c.isdigit()] on a one-character string. *)
  isdigit : char -> bool;
  (** The decimal value of a code point of category Nd, as [float] uses it. *)
  todecimal : char -> option N;
  (** [s.lower()]. *)
  lower : str -> str;
  isdigit_ascii : forall c, is_ascii c = true -> isdigit c = ascii_isdigit c;
  todecimal_ascii : forall c, is_ascii c = true ->
    todecimal c = if ascii_isdigit c then Some (c - 48)%N else None;
  todecimal_digit : forall c d, todecimal c = Some d -> (d < 10)%N;
  lower_ascii : forall s, forallb is_ascii s = true -> lower s = map ascii_lower s
}.

(* ================================================================== *)
(** * Python numbers *)

Definition prec : Z := 53.
Definition emax : Z := 1024.

(** A binary64 float. *)
Definition float := spec_float.

Definition fadd : float -> float -> float := SFadd prec emax.
Definition fdiv : float -> float -> float := SFdiv prec emax.
Definition fabs : float -> float := SFabs.

(** [float(n)] for an integer [n]: the nearest float, ties to even. *)
Definition float_of_Z (n : Z) : float := binary_normalize prec emax n 0 false.

(** The float nearest to [m / 10^k], ties to even, with sign [neg]: the
    value [float] gives to a decimal literal with digits [m] of which [k]
    follow the point. *)
Definition float_of_decimal (neg : bool) (m : N) (k : nat) : float :=
  match m with
  | N0 => S754_zero neg
  | Npos p =>
      let '(q, e, l) :=
        SFdiv_core_binary prec emax (Zpos p) 0 (Z.pow 10 (Z.of_nat k)) 0 in
      binary_round_aux prec emax neg q e l
  end.

(** The numbers the pipeline handles: the [int] literal [0] of the source
    and floats. *)
Inductive number :=
| IntZero
| Float (f : float).

Definition to_float (x : number) : float :=
  match x with
  | IntZero => S754_zero false
  | Float f => f
  end.

Definition is_nan (f : float) : bool :=
  match f with S754_nan => true | _ => false end.

Definition is_finite (f : float) : bool :=
  match f with S754_zero _ | S754_finite _ _ _ => true | _ => false end.

(** [math.isfinite(x)]. *)
Definition isfinite (x : number) : bool := is_finite (to_float x).

(** [x != x], true of NaN only. *)
Definition isnan (x : number) : bool := is_nan (to_float x).

(** [x == y] *)
Definition num_eqb (x y : number) : bool := SFeqb (to_float x) (to_float y).

(** [x > y] *)
Definition num_gtb (x y : number) : bool := SFltb (to_float y) (to_float x).

(** [abs(x)] *)
Definition py_abs (x : number) : number :=
  match x with
  | IntZero => IntZero
  | Float f => Float (fabs f)
  end.

(** [x + y] *)
Definition py_add (x y : number) : number :=
  match x, y with
  | IntZero, IntZero => IntZero
  | _, _ => Float (fadd (to_float x) (to_float y))
  end.

(** -12.5, that is -(25 * 2^48) * 2^-49. *)
Definition minus_12_5 : float := S754_finite true (25 * 2 ^ 48) (-49).

(** The least magnitude that rounds to infinity is 2^1024 - 2^970; below
    [2^1024 - 2^971], the largest float, nothing does. *)
Definition overflow_threshold : Z := (2 ^ 1024 - 2 ^ 971)%Z.

(** ** The order of the floats that are not NaN *)

(** A float that is not NaN, placed among the triples of integers in
    lexicographic order: the class (infinities, signs, zero), then exponent
    and mantissa. *)
Definition rank (f : float) : Z * Z * Z :=
  match f with
  | S754_infinity true => (-2, 0, 0)
  | S754_finite true m e => (-1, - e, Zneg m)
  | S754_zero _ => (0, 0, 0)
  | S754_nan => (0, 0, 0)
  | S754_finite false m e => (1, e, Zpos m)
  | S754_infinity false => (2, 0, 0)
  end%Z.

(** The lexicographic comparison of two triples. *)
Definition lex (a b : Z * Z * Z) : comparison :=
  let '(a1, a2, a3) := a in
  let '(b1, b2, b3) := b in
  match (a1 ?= b1)%Z with
  | Eq => match (a2 ?= b2)%Z with
          | Eq => (a3 ?= b3)%Z
          | c => c
          end
  | c => c
  end.

(** The strict lexicographic order, as a proposition. *)
Definition lt3 (a b : Z * Z * Z) : Prop :=
  let '(a1, a2, a3) := a in
  let '(b1, b2, b3) := b in
  (a1 < b1 \/ (a1 = b1 /\ (a2 < b2 \/ (a2 = b2 /\ a3 < b3))))%Z.

(** The rank of a number. *)
Definition rk (x : number) : Z * Z * Z := rank (to_float x).

(** [r] is a greatest element of [l]. *)
Definition greatest (r : number) (l : list number) : Prop :=
  In r l /\ forall y, In y l -> ~ lt3 (rk r) (rk y).

(* ================================================================== *)
(** * Exceptions *)

Inductive exn :=
| ValueError (msg : str)
| KeyError (key : nat)
| IndexError (key size : nat)
| ZeroDivisionError
| OtherError (msg : str).

(** The decimal rendering of a natural number. *)
Definition str_of_nat (n : nat) : str :=
  lit (NilZero.string_of_uint (Nat.to_uint n)).

Inductive result (A : Type) :=
| Ok (a : A)
| Raise (e : exn).

Arguments Ok {A} a.
Arguments Raise {A} e.

Definition bind {A B} (m : result A) (k : A -> result B) : result B :=
  match m with
  | Ok a => k a
  | Raise e => Raise e
  end.

(** [try: m  except: h] *)
Definition try_except {A} (m : result A) (h : exn -> A) : A :=
  match m with
  | Ok a => a
  | Raise e => h e
  end.

Notation "x <- m ;; k" := (bind m (fun x => k))
  (at level 61, m at next level, right associativity).

(** [str(e)] for the exceptions above. *)
Definition exn_str (e : exn) : str :=
  match e with
  | ValueError msg => msg
  | KeyError k => str_of_nat k
  | IndexError k n =>
      lit "index " ++ str_of_nat k ++
      lit " is out of bounds for axis 0 with size " ++ str_of_nat n
  | ZeroDivisionError => lit "division by zero"
  | OtherError msg => msg
  end.

(* ================================================================== *)
(** * Cells of the DataFrame *)

(** The missing values, those [pd.isna] accepts. *)
Inductive missing := NaN | PyNone | NaT.

(** A cell: a missing value, a [str], or any other scalar (integer, float,
    boolean, date), which the pipeline observes only through [str()]. *)
Inductive cell :=
| Missing (m : missing)
| Text (s : str)
| Scalar (rendering : str).

Definition isna (c : cell) : bool :=
  match c with Missing _ => true | _ => false end.

Definition notna (c : cell) : bool := negb (isna c).

(** [str(c)] *)
Definition str_of (c : cell) : str :=
  match c with
  | Missing NaN => lit "nan"
  | Missing PyNone => lit "None"
  | Missing NaT => lit "NaT"
  | Text s => s
  | Scalar r => r
  end.

(* ================================================================== *)
(** * [float(s)] on a string *)

Section Float.
Context {U : Unicode}.

(** The leading decimal digits of [s], accumulated into [acc]; returns the
    value, the number of digits read and the rest. *)
Fixpoint read_digits (s : str) (acc : N) (n : nat) : N * nat * str :=
  match s with
  | [] => (acc, n, [])
  | c :: s' =>
      match todecimal c with
      | Some d => read_digits s' (10 * acc + d)%N (S n)
      | None => (acc, n, s)
      end
  end.

(** An optional sign. *)
Definition read_sign (s : str) : bool * str :=
  match s with
  | c :: r =>
      if char_eqb c 45%N then (true, r)
      else if char_eqb c 43%N then (false, r)
      else (false, s)
  | [] => (false, s)
  end.

(** An optional point followed by digits; [m] and [n] are the value and
    the count of the digits before the point.  Returns the value of all
    the digits, the count of those after the point and the rest. *)
Definition read_fraction (s : str) (m : N) (n : nat) : N * nat * str :=
  match s with
  | c :: r =>
      if char_eqb c 46%N
      then let '(m', n', r') := read_digits r m n in (m', (n' - n)%nat, r')
      else (m, 0%nat, s)
  | [] => (m, 0%nat, s)
  end.

(** [float(s)] for a string without white space, letters, underscores or
    exponent, the only strings [clean_numeric] hands it: an optional sign,
    then decimal digits around an optional point, at least one digit,
    nothing left over.  [ValueError] otherwise. *)
Definition py_float (s : str) : result float :=
  let '(neg, s1) := read_sign s in
  let '(ip, ni, s2) := read_digits s1 0%N 0 in
  let '(m, nf, s3) := read_fraction s2 ip ni in
  match s3, (ni + nf)%nat with
  | [], S _ => Ok (float_of_decimal neg m nf)
  | _, _ => Raise (ValueError (lit "could not convert string to float"))
  end.

(* ================================================================== *)
(** * [clean_numeric] *)

(** The filter of the generator expression: [c.isdigit() or c in '.-']. *)
Definition keep (c : char) : bool :=
  isdigit c || contains [c] (lit ".-").

Definition clean_numeric (value : cell) : result number :=
  if isna value then Ok IntZero
  else
    Ok (try_except
          (let cleaned := filter keep (str_of value) in
           match cleaned with
           | [] => Ok IntZero
           | _ => f <- py_float cleaned ;; Ok (Float f)
           end)
          (fun _ => IntZero)).

(** The algorithm as the specification words it: missing gives 0.0; only
    ASCII digits, the point and the minus sign are retained; an empty
    retained text gives 0.0; a text that does not parse gives 0.0. *)
Definition spec_retained (c : char) : bool :=
  ascii_isdigit c || char_eqb c 46%N || char_eqb c 45%N.

Definition spec_clean_numeric (value : cell) : number :=
  if isna value then Float (S754_zero false)
  else
    match filter spec_retained (str_of value) with
    | [] => Float (S754_zero false)
    | retained =>
        match py_float retained with
        | Ok f => Float f
        | Raise _ => Float (S754_zero false)
        end
    end.

End Float.

(** An instance of the database: ASCII, the Arabic-Indic digits
    U+0660..U+0669 (category Nd) and the superscript digits U+00B2, U+00B3,
    U+00B9 (digits without a decimal value). *)
Definition frag_isdigit (c : char) : bool :=
  (ascii_isdigit c || ((1632 <=? c) && (c <=? 1641))
   || (c =? 178) || (c =? 179) || (c =? 185))%N.

Definition frag_todecimal (c : char) : option N :=
  if ascii_isdigit c then Some (c - 48)%N
  else if ((1632 <=? c) && (c <=? 1641))%N then Some (c - 1632)%N
  else None.

Definition frag_lower (s : str) : str := map ascii_lower s.

Definition fragment : Unicode.
Proof.
  refine {| isdigit := frag_isdigit; todecimal := frag_todecimal;
            lower := frag_lower |}.
  - intros c H. unfold frag_isdigit, is_ascii, ascii_isdigit in *.
    apply N.ltb_lt in H.
    destruct (48 <=? c)%N eqn:E1, (c <=? 57)%N eqn:E2; simpl; try reflexivity;
    repeat match goal with
    | |- context [(?a <=? ?b)%N] => destruct (N.leb_spec a b)
    | |- context [(?a =? ?b)%N] => destruct (N.eqb_spec a b)
    end; simpl; try reflexivity; lia.
  - intros c H. unfold frag_todecimal.
    destruct (ascii_isdigit c) eqn:E; [reflexivity|].
    unfold is_ascii in H. apply N.ltb_lt in H.
    destruct (N.leb_spec 1632 c); simpl; [lia | reflexivity].
  - intros c d. unfold frag_todecimal, ascii_isdigit.
    destruct (N.leb_spec 48 c), (N.leb_spec c 57); simpl;
      try (intros E; injection E as <-; lia);
      destruct (N.leb_spec 1632 c), (N.leb_spec c 1641); simpl;
      try discriminate; intros E; injection E as <-; lia.
  - reflexivity.
Defined.

(* ================================================================== *)
(** * The DataFrame and the Series *)

(** A column label: a position when the file is read without a header row,
    a header cell otherwise, a text or an integer. *)
Inductive label :=
| LInt (n : nat)
| LStr (s : str).

Definition label_eqb (a b : label) : bool :=
  match a, b with
  | LInt n, LInt m => Nat.eqb n m
  | LStr s, LStr t => str_eqb s t
  | _, _ => false
  end.

Definition is_int_label (l : label) : bool :=
  match l with LInt _ => true | LStr _ => false end.

(** A DataFrame: the column labels and the cells as they are stored, row
    by row. *)
Record DataFrame := {
  columns : list label;
  rows : list (list cell)
}.

(** Every row of a DataFrame has one cell per column. *)
Definition rectangular (df : DataFrame) : Prop :=
  Forall (fun row => length row = length (columns df)) (rows df).

(** A Series: values under an index of labels. *)
Record Series := {
  index : list label;
  values : list cell
}.

(** What [series[key]] gives: the cell under the label, or, when several
    entries carry the label, the Series of these entries. *)
Inductive selection :=
| One (c : cell)
| Several (s : Series).

Definition is_text (c : cell) : bool :=
  match c with Text _ => true | _ => false end.

(** Some cell of the rows is a [str]. *)
Definition holds_text (rs : list (list cell)) : bool :=
  existsb (existsb is_text) rs.

(** What the pipeline takes from pandas and the source does not contain.

    [df.iterrows()] builds each row from [df.values], the cells in the
    common dtype of the columns: in a table of integer and float columns
    the integers are floats there, and [str()] of them differs from that of
    the stored cells.  This upcast is left open, but for two facts: it
    neither makes nor removes a missing value, and a table that holds a
    [str] has dtype [object], where the values are the stored cells.

    [series[i]] with an integer [i] looks [i] up among the labels.  Before
    pandas 3.0, on an index that holds no number, it takes [i] for a
    position instead. *)
Class Pandas : Type := {
  positional_fallback : bool;
  (** [df.values], row by row. *)
  frame_values : DataFrame -> list (list cell);
  (** [str(s)] on a Series. *)
  series_str : Series -> str;
  frame_values_isna : forall df,
    map (map isna) (frame_values df) = map (map isna) (rows df);
  frame_values_text : forall df,
    holds_text (rows df) = true -> frame_values df = rows df
}.

Section Lookup.
Context {Pd : Pandas}.

(** The rows [df.iterrows()] yields: the values of each row under the
    column labels. *)
Definition iterrows (df : DataFrame) : list Series :=
  map (fun v => {| index := columns df; values := v |}) (frame_values df).

(** The entries of a Series under a label. *)
Definition entries_under (k : label) (s : Series) : list (label * cell) :=
  filter (fun kv => label_eqb k (fst kv)) (combine (index s) (values s)).

(** [s[key]] for an integer [key]. *)
Definition getitem (s : Series) (key : nat) : result selection :=
  if positional_fallback && negb (existsb is_int_label (index s))
  then
    match nth_error (values s) key with
    | Some c => Ok (One c)
    | None => Raise (IndexError key (length (values s)))
    end
  else
    match entries_under (LInt key) s with
    | [] => Raise (KeyError key)
    | [(_, c)] => Ok (One c)
    | kvs => Ok (Several {| index := map fst kvs; values := map snd kvs |})
    end.

(** [str(x)] on what a lookup gave. *)
Definition str_of_selection (x : selection) : str :=
  match x with
  | One c => str_of c
  | Several s => series_str s
  end.

End Lookup.

(** The error of [if x:] on a Series. *)
Definition ambiguous : exn :=
  ValueError (lit "The truth value of a Series is ambiguous. Use a.empty, a.bool(), a.item(), a.any() or a.all().").

(** [pd.notna(x)] taken as a condition: on a Series it is a Series, which
    has no truth value. *)
Definition notna_test (x : selection) : result bool :=
  match x with
  | One c => Ok (notna c)
  | Several _ => Raise ambiguous
  end.

(** A Python dict, in insertion order. *)
Definition dict (V : Type) := list (label * V).

Fixpoint dict_set {V} (k : label) (v : V) (d : dict V) : dict V :=
  match d with
  | [] => [(k, v)]
  | (k', v') :: d' =>
      if label_eqb k k' then (k, v) :: d' else (k', v') :: dict_set k v d'
  end.

Fixpoint dict_get {V} (d : dict V) (k : label) : option V :=
  match d with
  | [] => None
  | (k', v) :: d' => if label_eqb k k' then Some v else dict_get d' k
  end.

(* ================================================================== *)
(** * [process_data] *)

(** The dict built for a row. *)
Record item := {
  localidade : str;
  dimensao : str;
  indicador : str;
  valor : number
}.

(** What [print] wrote: the row and the error of the loop of
    [process_data], or the error of [generate_charts]. *)
Inductive log_entry :=
| RowErrorLog (row : Series) (e : exn)
| ChartErrorLog (e : exn).

Section Pipeline.
Context {U : Unicode} {Pd : Pandas}.

(** [clean_numeric(x)] on what [row[3]] gave: on a Series the test
    [if pd.isna(value)], which stands before the [try], raises. *)
Definition clean_numeric_of (x : selection) : result number :=
  match x with
  | One c => clean_numeric c
  | Several _ => Raise ambiguous
  end.

(** The body of the [try] of the loop. *)
Definition process_row (row : Series) : result item :=
  x3 <- getitem row 3 ;;
  valor <- clean_numeric_of x3 ;;
  x0 <- getitem row 0 ;;
  n0 <- notna_test x0 ;;
  x1 <- getitem row 1 ;;
  x2 <- getitem row 2 ;;
  n2 <- notna_test x2 ;;
  Ok {| localidade := if n0 then str_of_selection x0 else lit "N/A";
        dimensao := if contains (lit "neg") (lower (str_of_selection x1))
                    then lit "Negativo" else lit "Positivo";
        indicador := if n2 then str_of_selection x2 else lit "N/A";
        valor := valor |}.

(** The loop [for _, row in df.iterrows()], with the list [processed] and
    the output written so far. *)
Fixpoint for_rows (rs : list Series) (processed : list item)
    (out : list log_entry) : list item * list log_entry :=
  match rs with
  | [] => (processed, out)
  | row :: rs' =>
      match process_row row with
      | Ok it => for_rows rs' (processed ++ [it]) out
      | Raise e => for_rows rs' processed (out ++ [RowErrorLog row e])
      end
  end.

Definition schema_message : str :=
  lit "O arquivo deve conter pelo menos 4 colunas".

Definition process_data (df : DataFrame) : result (list item) * list log_entry :=
  if length (columns df) <? 4 then (Raise (ValueError schema_message), [])
  else let '(processed, out) := for_rows (iterrows df) [] [] in
       (Ok processed, out).

(** The items of the rows that give one, in order. *)
Definition normalized (rs : list Series) : list item :=
  flat_map (fun row => match process_row row with
                       | Ok it => [it]
                       | Raise _ => []
                       end) rs.

(** The output of the rows that raise, in order. *)
Definition skipped (rs : list Series) : list log_entry :=
  flat_map (fun row => match process_row row with
                       | Ok _ => []
                       | Raise e => [RowErrorLog row e]
                       end) rs.

End Pipeline.

(* ================================================================== *)
(** * [generate_charts] *)

Definition fsub : float -> float -> float := SFsub prec emax.

(** How the interpreter sums floats: CPython adds each term to the running
    sum up to version 3.11, and keeps a compensation beside it (Neumaier's
    algorithm) from 3.12 on. *)
Class Interpreter : Type := {
  compensated_sum : bool
}.

(** [sum(l)] up to CPython 3.11. *)
Definition sum_plain (l : list number) : number := fold_left py_add l IntZero.

(** The float loop of [sum] from CPython 3.12 on, with the running sum [f]
    and the compensation [c]; an [int] is added to the running sum. *)
Fixpoint sum_floats (l : list number) (f c : float) : float :=
  match l with
  | [] =>
      if negb (SFeqb c (S754_zero false)) && is_finite c then fadd f c else f
  | Float x :: l' =>
      let t := fadd f x in
      let c' :=
        if SFleb (fabs x) (fabs f)
        then fadd c (fadd (fsub f t) x)
        else fadd c (fadd (fsub x t) f) in
      sum_floats l' t c'
  | IntZero :: l' => sum_floats l' (fadd f (S754_zero false)) c
  end.

(** [sum(l)] from CPython 3.12 on: the integers are summed as integers up
    to the first float, which is added to their sum and starts the float
    loop. *)
Fixpoint sum_compensated (l : list number) : number :=
  match l with
  | [] => IntZero
  | IntZero :: l' => sum_compensated l'
  | Float x :: l' =>
      Float (sum_floats l' (fadd (S754_zero false) x) (S754_zero false))
  end.

(** [x / n] for a length [n] *)
Definition py_truediv (x : number) (n : nat) : result number :=
  match n with
  | O => Raise ZeroDivisionError
  | S _ => Ok (Float (fdiv (to_float x) (float_of_Z (Z.of_nat n))))
  end.

(** [max(l)] *)
Definition py_max (l : list number) : result number :=
  match l with
  | [] => Raise (ValueError (lit "max() arg is an empty sequence"))
  | x :: l' => Ok (fold_left (fun m y => if num_gtb y m then y else m) l' x)
  end.

(** [Counter(l)[k]] *)
Definition Counter (l : list str) (k : str) : nat :=
  length (filter (str_eqb k) l).

Definition dimension_counts (data : list item) : str -> nat :=
  Counter (map dimensao data).

Definition positive_values (data : list item) : list number :=
  map valor (filter (fun it => str_eqb (dimensao it) (lit "Positivo")) data).

Definition negative_values (data : list item) : list number :=
  map (fun it => py_abs (valor it))
      (filter (fun it => str_eqb (dimensao it) (lit "Negativo")) data).

(** [max(values) if values else 0] *)
Definition maximum (values : list number) : result number :=
  match values with
  | [] => Ok IntZero
  | _ => py_max values
  end.

Definition max_values (data : list item) : result (list number) :=
  p <- maximum (positive_values data) ;;
  n <- maximum (negative_values data) ;;
  Ok [p; n].

Section Averages.
Context {Py : Interpreter}.

(** [sum(l)] *)
Definition py_sum (l : list number) : number :=
  if compensated_sum then sum_compensated l else sum_plain l.

(** [sum(values) / len(values) if values else 0] *)
Definition average (values : list number) : result number :=
  match values with
  | [] => Ok IntZero
  | _ => py_truediv (py_sum values) (length values)
  end.

Definition avg_values (data : list item) : result (list number) :=
  p <- average (positive_values data) ;;
  n <- average (negative_values data) ;;
  Ok [p; n].

End Averages.

(** The plotting library: what the drawing, [savefig] and the base64
    encoding of each figure give, an image or an exception. *)
Class Plotter : Type := {
  (** the pie over [[positivo, negativo]] *)
  pie_png : list nat -> result str;
  (** the bars over [avg_values] and [max_values] *)
  bar_png : list number -> list number -> result str
}.

Definition dimension_chart : label := LStr (lit "dimension_chart").
Definition value_chart : label := LStr (lit "value_chart").

(** The charts of the [except] branch. *)
Definition blank_charts : dict str :=
  [(dimension_chart, []); (value_chart, [])].

Section Charts.
Context {Py : Interpreter} {P : Plotter}.

(** The body of the [try]. *)
Definition draw_charts (data : list item) : result (dict str) :=
  let charts := [] in
  let counts := dimension_counts data in
  png <- pie_png [counts (lit "Positivo"); counts (lit "Negativo")] ;;
  let charts := dict_set dimension_chart png charts in
  avg <- avg_values data ;;
  mx <- max_values data ;;
  png <- bar_png avg mx ;;
  let charts := dict_set value_chart png charts in
  Ok charts.

Definition generate_charts (data : list item) : dict str * list log_entry :=
  match draw_charts data with
  | Ok charts => (charts, [])
  | Raise e =>
      ([(dimension_chart, []); (value_chart, [])], [ChartErrorLog e])
  end.

End Charts.

(* ================================================================== *)
(** * [upload_file], from the parsed DataFrame on *)

(** A value of the preview or of an item, as [json.dumps] receives it. *)
Inductive pyval :=
| OfCell (c : cell)
| OfNumber (x : number).

(** [replace({np.nan: None})] on a cell: NaN and NaT become None. *)
Definition nan_to_none (c : cell) : cell :=
  match c with
  | Missing NaN => Missing PyNone
  | Missing NaT => Missing PyNone
  | _ => c
  end.

(** One record of [to_dict(orient='records')]. *)
Definition to_record (cols : list label) (row : list cell) : dict pyval :=
  fold_left (fun d kv => dict_set (fst kv) (OfCell (snd kv)) d) (combine cols row) [].

(** [df.head(5).replace({np.nan: None}).to_dict(orient='records')] *)
Definition preview_of (df : DataFrame) : list (dict pyval) :=
  map (fun row => to_record (columns df) (map nan_to_none row))
      (firstn 5 (rows df)).

(** An item as the dict the source writes. *)
Definition item_dict (it : item) : dict pyval :=
  [ (LStr (lit "localidade"), OfCell (Text (localidade it)));
    (LStr (lit "dimensao"), OfCell (Text (dimensao it)));
    (LStr (lit "indicador"), OfCell (Text (indicador it)));
    (LStr (lit "valor"), OfNumber (valor it)) ].

Record response_data := {
  preview : list (dict pyval);
  total_records : nat;
  analysis : list item;
  charts : dict str
}.

Inductive response :=
| Response200 (body : response_data)
| Response500 (error : str).

Section Upload.
Context {U : Unicode} {Pd : Pandas} {Py : Interpreter} {P : Plotter}.

Definition upload_file (df : DataFrame) : response * list log_entry :=
  match process_data df with
  | (Raise e, out) =>
      (Response500 (lit "Erro ao processar arquivo: " ++ exn_str e), out)
  | (Ok processed_data, out) =>
      let '(charts, out') := generate_charts processed_data in
      (Response200 {| preview := preview_of df;
                      total_records := length (rows df);
                      analysis := processed_data;
                      charts := charts |},
       out ++ out')
  end.

End Upload.

(* ================================================================== *)
(** * The route [/upload] *)

(** [s.endswith(suffix)] *)
Definition endswith (s suffix : str) : bool := prefixb (rev suffix) (rev s).

(** The uploaded file: its name and its bytes. *)
Record FileStorage := {
  filename : str;
  stream : list N
}.

(** What the route reads of the request: [request.files], which holds the
    key ['file'] or not, and [request.form.get('hasHeaders')]. *)
Record Request := {
  files : option FileStorage;
  hasHeaders : option str
}.

(** The libraries the route calls: the two pandas readers, given the bytes
    and the [header] argument, and [json.dumps] with the custom encoder. *)
Class Libraries : Type := {
  read_csv : list N -> option nat -> result DataFrame;
  read_excel : list N -> option nat -> result DataFrame;
  dumps : response_data -> result str
}.

(** The body of an answer: [jsonify({'error': ...})] or the dumped payload. *)
Inductive body :=
| ErrorJson (error : str)
| Dumped (text : str).

(** "Tipo de arquivo nao suportado", with U+00E3 for the a with tilde. *)
Definition unsupported_message : str :=
  lit "Tipo de arquivo n" ++ [227%N] ++ lit "o suportado".

Section Route.
Context {U : Unicode} {Pd : Pandas} {Py : Interpreter} {P : Plotter}
        {L : Libraries}.

(** The [except] clause of the route. *)
Definition processing_error (e : exn) : body * nat :=
  (ErrorJson (lit "Erro ao processar arquivo: " ++ exn_str e), 500).

(** The route from the reading of the file on: the DataFrame is processed,
    the charts are drawn, the payload is dumped; an exception of any of
    these gives the answer 500. *)
Definition respond (read : result DataFrame) : (body * nat) * list log_entry :=
  match read with
  | Raise e => (processing_error e, [])
  | Ok df =>
      match upload_file df with
      | (Response500 error, out) => ((ErrorJson error, 500), out)
      | (Response200 response_data, out) =>
          match dumps response_data with
          | Ok text => ((Dumped text, 200), out)
          | Raise e => (processing_error e, out)
          end
      end
  end.

(** The whole of [upload_file]: the body, the status and the output. *)
Definition upload (request : Request) : (body * nat) * list log_entry :=
  match files request with
  | None => ((ErrorJson (lit "Nenhum arquivo enviado"), 400), [])
  | Some file =>
      if str_eqb (filename file) []
      then ((ErrorJson (lit "Nenhum arquivo selecionado"), 400), [])
      else
        let name := lower (filename file) in
        let has_headers :=
          match hasHeaders request with
          | Some v => str_eqb v (lit "true")
          | None => false
          end in
        let header := if has_headers then Some 0 else None in
        if endswith name (lit ".csv")
        then respond (read_csv (stream file) header)
        else if endswith name (lit ".xls") || endswith name (lit ".xlsx")
        then respond (read_excel (stream file) header)
        else ((ErrorJson unsupported_message, 400), [])
  end.

End Route.

(* ================================================================== *)
(** * Notions used to state the properties *)

(** [-x] *)
Definition py_neg (x : number) : number :=
  match x with
  | IntZero => IntZero
  | Float f => Float (SFopp f)
  end.

(** The text of a sign and the text of a point, present or not. *)
Definition sign_text (neg : bool) : str := if neg then [45%N] else [].
Definition point_text (pt : bool) : str := if pt then [46%N] else [].

Section Digits.
Context {U : Unicode}.

(** A character with a decimal value. *)
Definition is_decimal (c : char) : bool :=
  match todecimal c with Some _ => true | None => false end.

(** The number written by a sequence of decimal characters. *)
Definition digits_value (ds : str) : N :=
  fold_left (fun acc c => (10 * acc + match todecimal c with
                                      | Some d => d
                                      | None => 0
                                      end)%N) ds 0%N.

(** The characters the amended algorithm retains: those [str.isdigit]
    accepts, the point and the minus sign. *)
Definition retained (c : char) : bool :=
  isdigit c || char_eqb c 46%N || char_eqb c 45%N.

End Digits.

(** The cells of a Series are accessed positionally: [s[i]] is the cell at
    position [i], for the four positions the pipeline reads. *)
Definition accessed_positionally {Pd : Pandas} (idx : list label) : Prop :=
  forall (vals : list cell) (i : nat) (c : cell),
    length vals = length idx -> i < 4 ->
    nth_error vals i = Some c ->
    getitem {| index := idx; values := vals |} i = Ok (One c).

(** How many labels of an index equal a label. *)
Definition occurrences (k : label) (idx : list label) : nat :=
  length (filter (label_eqb k) idx).

(** The error of [s[key]] over an index, when there is one value per
    label: none, the error of the lookup, or, where a cell is needed and
    several entries carry the label, the error of taking the truth value
    of a Series. *)
Definition lookup_fault {Pd : Pandas} (idx : list label) (key : nat)
    (cell_needed : bool) : option exn :=
  if positional_fallback && negb (existsb is_int_label idx)
  then if key <? length idx then None
       else Some (IndexError key (length idx))
  else match occurrences (LInt key) idx with
       | 0 => Some (KeyError key)
       | 1 => None
       | _ => if cell_needed then Some ambiguous else None
       end.

(** The error of a row over an index: that of the first lookup that fails,
    in the order in which the loop makes them. *)
Definition row_fault {Pd : Pandas} (idx : list label) : option exn :=
  match lookup_fault idx 3 true with
  | Some e => Some e
  | None =>
      match lookup_fault idx 0 true with
      | Some e => Some e
      | None =>
          match lookup_fault idx 1 false with
          | Some e => Some e
          | None => lookup_fault idx 2 true
          end
      end
  end.

(** A missing cell as the preview shows it. *)
Definition shown (c : cell) : pyval :=
  OfCell (if isna c then Missing PyNone else c).

(** The value paired with the last occurrence of a label. *)
Fixpoint lookup_last {V} (k : label) (kvs : list (label * V)) : option V :=
  match kvs with
  | [] => None
  | (k', v) :: rest =>
      match lookup_last k rest with
      | Some w => Some w
      | None => if label_eqb k k' then Some v else None
      end
  end.

(** The [header] argument the route passes to the readers. *)
Definition header_of (request : Request) : option nat :=
  match hasHeaders request with
  | Some v => if str_eqb v (lit "true") then Some 0 else None
  | None => None
  end.

(* ================================================================== *)
(** * Tables, records and libraries used as examples *)

(** pandas before 3.0 and pandas 3.0 on tables of dtype [object], where
    the values are the stored cells; the text of a Series is left empty. *)
Definition pandas_2 : Pandas :=
  {| positional_fallback := true;
     frame_values := rows;
     series_str := fun _ => [];
     frame_values_isna := fun _ => eq_refl;
     frame_values_text := fun _ _ => eq_refl |}.

Definition pandas_3 : Pandas :=
  {| positional_fallback := false;
     frame_values := rows;
     series_str := fun _ => [];
     frame_values_isna := fun _ => eq_refl;
     frame_values_text := fun _ _ => eq_refl |}.

(** CPython up to 3.11 and from 3.12 on. *)
Definition cpython_311 : Interpreter := {| compensated_sum := false |}.
Definition cpython_312 : Interpreter := {| compensated_sum := true |}.

(** The text [1000...0kg] with [n] zeros. *)
Definition one_and_zeros_kg (n : nat) : str :=
  lit "1" ++ repeat 48%N n ++ lit "kg".

(** A table of one row and three columns. *)
Definition three_columns : DataFrame :=
  {| columns := [LInt 0; LInt 1; LInt 2];
     rows := [[Text (lit "SP"); Text (lit "Negativo"); Text (lit "IDH")]] |}.

(** The two rows of the end-to-end example, read without a header row. *)
Definition four_columns : DataFrame :=
  {| columns := [LInt 0; LInt 1; LInt 2; LInt 3];
     rows := [[Text (lit "SP"); Text (lit "Negativo"); Text (lit "IDH");
               Text (lit "-12.5")];
              [Text (lit "RJ"); Text (lit "Positivo"); Text (lit "PIB");
               Text (lit "30.0")]] |}.

(** The same two rows under a header row of texts. *)
Definition headed : DataFrame :=
  {| columns := [LStr (lit "uf"); LStr (lit "tipo"); LStr (lit "indicador");
                 LStr (lit "valor")];
     rows := rows four_columns |}.

(** One row under a header row of the integers 5, 6, 7 and 8. *)
Definition numbered_from_5 : DataFrame :=
  {| columns := [LInt 5; LInt 6; LInt 7; LInt 8];
     rows := [[Text (lit "SP"); Text (lit "Negativo"); Text (lit "IDH");
               Text (lit "-12.5")]] |}.

(** The Series of the first example row. *)
Definition first_row : Series :=
  {| index := [LInt 0; LInt 1; LInt 2; LInt 3];
     values := [Text (lit "SP"); Text (lit "Negativo"); Text (lit "IDH");
                Text (lit "-12.5")] |}.

(** A record of the category "Positivo". *)
Definition positivo (v : number) : item :=
  {| localidade := lit "SP"; dimensao := lit "Positivo";
     indicador := lit "PIB"; valor := v |}.

(** A record of the category "Negativo". *)
Definition negativo (v : number) : item :=
  {| localidade := lit "SP"; dimensao := lit "Negativo";
     indicador := lit "IDH"; valor := v |}.

(** A row of the category "Positivo" with the given text in cell 3. *)
Definition entry (v : str) : list cell :=
  [Text (lit "SP"); Text (lit "Positivo"); Text (lit "PIB"); Text v].

(** Five rows with the values 1e40, 1e20, 1, -1e20 and -1e40, each
    written with its unit. *)
Definition ledger : DataFrame :=
  {| columns := [LInt 0; LInt 1; LInt 2; LInt 3];
     rows := [entry (one_and_zeros_kg 40);
              entry (one_and_zeros_kg 20);
              entry (one_and_zeros_kg 0);
              entry (lit "-" ++ one_and_zeros_kg 20);
              entry (lit "-" ++ one_and_zeros_kg 40)] |}.

(** The same rows in another order: 1e40, -1e40, 1e20, -1e20, 1. *)
Definition ledger_reordered : DataFrame :=
  {| columns := [LInt 0; LInt 1; LInt 2; LInt 3];
     rows := [entry (one_and_zeros_kg 40);
              entry (lit "-" ++ one_and_zeros_kg 40);
              entry (one_and_zeros_kg 20);
              entry (lit "-" ++ one_and_zeros_kg 20);
              entry (one_and_zeros_kg 0)] |}.

(** The records of the two ledgers. *)
Definition ledger_records : list item :=
  normalized (U := fragment) (Pd := pandas_3) (iterrows (Pd := pandas_3) ledger).

Definition ledger_reordered_records : list item :=
  normalized (U := fragment) (Pd := pandas_3)
    (iterrows (Pd := pandas_3) ledger_reordered).

(** A plotting library that draws the pie and fails on the bars. *)
Definition bars_fail : Plotter :=
  {| pie_png := fun _ => Ok (lit "iVBORw0KGgo=");
     bar_png := fun _ _ => Raise (OtherError (lit "savefig failed")) |}.

(** A plotting library that draws both charts. *)
Definition both_drawn : Plotter :=
  {| pie_png := fun _ => Ok (lit "iVBORw0KGgo=");
     bar_png := fun _ _ => Ok (lit "iVBORw0KGgoA") |}.

(** Libraries whose CSV reader returns the two example rows, under the
    header row when it is told of one, whose Excel reader raises and whose
    [dumps] returns a fixed text. *)
Definition csv_only : Libraries :=
  {| read_csv := fun _ header =>
       Ok (match header with Some _ => headed | None => four_columns end);
     read_excel := fun _ _ => Raise (OtherError (lit "not an Excel file"));
     dumps := fun _ => Ok (lit "{}") |}.

(** Libraries of which every call raises. *)
Definition all_fail : Libraries :=
  {| read_csv := fun _ _ => Raise (OtherError (lit "no reader"));
     read_excel := fun _ _ => Raise (OtherError (lit "no reader"));
     dumps := fun _ => Raise (OtherError (lit "no encoder")) |}.

(** A request with a CSV file named in capitals and the header box ticked. *)
Definition csv_request : Request :=
  {| files := Some {| filename := lit "Dados.CSV"; stream := [] |};
     hasHeaders := Some (lit "true") |}.

(** A request with a PDF file. *)
Definition pdf_request : Request :=
  {| files := Some {| filename := lit "dados.pdf"; stream := [] |};
     hasHeaders := None |}.

(* ================================================================== *)
(** * Strings: the boolean tests decide equality and occurrence *)

Lemma str_eqb_eq (a b : str) : str_eqb a b = true <-> a = b.
Proof.
  revert b. induction a as [|x a IH]; intros [|y b]; simpl;
    try (split; [discriminate | discriminate]); try tauto.
  rewrite andb_true_iff, IH. unfold char_eqb. rewrite N.eqb_eq.
  split; [intros [-> ->]; reflexivity | intros H; inversion H; auto].
Qed.

Lemma str_eqb_refl (a : str) : str_eqb a a = true.
Proof. apply str_eqb_eq. reflexivity. Qed.

Lemma str_eqb_sym (a b : str) : str_eqb a b = str_eqb b a.
Proof.
  destruct (str_eqb a b) eqn:E.
  - apply str_eqb_eq in E. subst. symmetry. apply str_eqb_refl.
  - destruct (str_eqb b a) eqn:E'; [|reflexivity].
    apply str_eqb_eq in E'. subst. rewrite str_eqb_refl in E. discriminate.
Qed.

Lemma prefixb_spec (p s : str) : prefixb p s = true <-> exists b, s = p ++ b.
Proof.
  revert s. induction p as [|x p IH]; intros s; simpl.
  - split; [intros _; exists s; reflexivity | reflexivity].
  - destruct s as [|y s].
    + split; [discriminate | intros [b H]; discriminate].
    + rewrite andb_true_iff, IH. unfold char_eqb. rewrite N.eqb_eq. split.
      * intros [-> [b ->]]. exists b. reflexivity.
      * intros [b H]. inversion H. split; [reflexivity | exists b; reflexivity].
Qed.

Lemma contains_spec (p s : str) : contains p s = true <-> occurs p s.
Proof.
  induction s as [|y s IH].
  - simpl. rewrite orb_false_r, prefixb_spec. split.
    + intros [b H]. exists [], b. exact H.
    + intros [a [b H]]. destruct a as [|z a]; [exists b; exact H | discriminate].
  - cbn [contains]. rewrite orb_true_iff, prefixb_spec, IH. split.
    + intros [[b H] | [a [b H]]].
      * exists [], b. exact H.
      * exists (y :: a), b. rewrite H. reflexivity.
    + intros [a [b H]]. destruct a as [|z a].
      * left. exists b. exact H.
      * right. inversion H. exists a, b. reflexivity.
Qed.

(* ================================================================== *)
(** * Floats: parsing a decimal never gives NaN *)

Lemma shr_1_nonneg (mrs : shr_record) :
  (0 <= shr_m mrs)%Z -> (0 <= shr_m (shr_1 mrs))%Z.
Proof.
  destruct mrs as [m r s]. destruct m as [|p|p]; simpl; intros H;
    try destruct p; simpl; lia.
Qed.

Lemma iter_shr_1_nonneg (p : positive) (mrs : shr_record) :
  (0 <= shr_m mrs)%Z -> (0 <= shr_m (iter_pos shr_1 p mrs))%Z.
Proof.
  revert mrs. induction p as [p IH | p IH |]; intros mrs H; simpl.
  - apply IH, IH, shr_1_nonneg, H.
  - apply IH, IH, H.
  - apply shr_1_nonneg, H.
Qed.

Lemma shr_fexp_nonneg (m e : Z) (l : location) :
  (0 <= m)%Z -> (0 <= shr_m (fst (shr_fexp prec emax m e l)))%Z.
Proof.
  intros H. unfold shr_fexp, shr.
  assert (H0 : (0 <= shr_m (shr_record_of_loc m l))%Z).
  { destruct l as [|[]]; simpl; exact H. }
  destruct (fexp prec emax (Zdigits2 m + e) - e)%Z; simpl; auto.
  apply iter_shr_1_nonneg, H0.
Qed.

Lemma round_nearest_even_nonneg (m : Z) (l : location) :
  (0 <= m)%Z -> (0 <= round_nearest_even m l)%Z.
Proof.
  intros H. destruct l as [|[]]; simpl; try lia.
  destruct (Z.even m); lia.
Qed.

Lemma binary_round_aux_not_nan (sx : bool) (mx ex : Z) (lx : location) :
  (0 <= mx)%Z -> is_nan (binary_round_aux prec emax sx mx ex lx) = false.
Proof.
  intros H. unfold binary_round_aux.
  pose proof (shr_fexp_nonneg ex lx H) as H1.
  destruct (shr_fexp prec emax mx ex lx) as [mrs' e'].
  simpl in H1.
  pose proof (round_nearest_even_nonneg (loc_of_shr_record mrs') H1) as H2.
  pose proof (shr_fexp_nonneg e' loc_Exact H2) as H3.
  destruct (shr_fexp prec emax _ e' loc_Exact) as [mrs'' e''].
  simpl in H3.
  destruct (shr_m mrs'') as [|m|m]; simpl.
  - reflexivity.
  - destruct (_ <=? _)%Z; reflexivity.
  - lia.
Qed.

Lemma float_of_decimal_not_nan (neg : bool) (m : N) (k : nat) :
  is_nan (float_of_decimal neg m k) = false.
Proof.
  unfold float_of_decimal. destruct m as [|p]; [reflexivity|].
  unfold SFdiv_core_binary.
  set (m' := match _ with Zpos _ => _ | Z0 => _ | Zneg _ => _ end).
  assert (Hm : (0 <= m')%Z).
  { subst m'. destruct (_ - _ - _)%Z; try lia.
    apply Z.shiftl_nonneg. lia. }
  assert (Hd : (0 < 10 ^ Z.of_nat k)%Z) by (apply Z.pow_pos_nonneg; lia).
  pose proof (Z.div_pos m' _ Hm Hd) as Hq.
  unfold Z.div in Hq.
  destruct (Z.div_eucl m' (10 ^ Z.of_nat k)) as [q r]. simpl in Hq.
  apply binary_round_aux_not_nan, Hq.
Qed.

Lemma digits2_pos_size (p : positive) : digits2_pos p = Pos.size p.
Proof. induction p; simpl; congruence. Qed.

Lemma Zdigits2_bounds (m : Z) :
  (0 < m)%Z -> (2 ^ (Zdigits2 m - 1) <= m < 2 ^ Zdigits2 m)%Z.
Proof.
  destruct m as [|p|p]; try lia. intros _. unfold Zdigits2.
  rewrite digits2_pos_size.
  pose proof (Pos.size_gt p) as G. pose proof (Pos.size_le p) as L.
  apply Pos2Z.pos_lt_pos in G. apply Pos2Z.pos_le_pos in L.
  rewrite Pos2Z.inj_pow in G, L.
  replace (Z.pos (Pos.size p)) with (Z.succ (Z.pos (Pos.size p) - 1)) in L at 1 by lia.
  rewrite Z.pow_succ_r in L by lia.
  change (Z.pos p~0) with (2 * Z.pos p)%Z in L. lia.
Qed.

Lemma shr_1_le (mrs : shr_record) :
  (0 <= shr_m mrs)%Z -> (2 * shr_m (shr_1 mrs) <= shr_m mrs)%Z.
Proof.
  destruct mrs as [m r s]. destruct m as [|p|p]; simpl; intros H;
    try destruct p; simpl; lia.
Qed.

Lemma pow2_double (p : positive) :
  (2 ^ Z.pos p~0 = 2 ^ Z.pos p * 2 ^ Z.pos p)%Z.
Proof.
  change (Z.pos p~0) with (2 * Z.pos p)%Z.
  rewrite <- Z.pow_add_r by lia. f_equal. lia.
Qed.

Lemma pow2_double_succ (p : positive) :
  (2 ^ Z.pos p~1 = 2 * (2 ^ Z.pos p * 2 ^ Z.pos p))%Z.
Proof.
  change (Z.pos p~1) with (Z.succ (Z.pos p~0)).
  rewrite Z.pow_succ_r, pow2_double by lia. reflexivity.
Qed.

Lemma iter_shr_1_le (p : positive) (mrs : shr_record) :
  (0 <= shr_m mrs)%Z ->
  (shr_m (iter_pos shr_1 p mrs) * 2 ^ Zpos p <= shr_m mrs)%Z.
Proof.
  revert mrs. induction p as [p IH | p IH |]; intros mrs H; simpl iter_pos.
  - pose proof (shr_1_nonneg mrs H) as H1.
    pose proof (shr_1_le mrs H) as L1.
    pose proof (iter_shr_1_nonneg p _ H1) as H2.
    pose proof (IH _ H1) as L2.
    pose proof (IH _ H2) as L3.
    pose proof (iter_shr_1_nonneg p _ H2) as H3.
    rewrite pow2_double_succ.
    assert (P : (0 < 2 ^ Z.pos p)%Z) by (apply Z.pow_pos_nonneg; lia).
    nia.
  - pose proof (iter_shr_1_nonneg p _ H) as H2.
    pose proof (IH _ H) as L2.
    pose proof (IH _ H2) as L3.
    pose proof (iter_shr_1_nonneg p _ H2) as H3.
    rewrite pow2_double.
    assert (P : (0 < 2 ^ Z.pos p)%Z) by (apply Z.pow_pos_nonneg; lia).
    nia.
  - pose proof (shr_1_le mrs H). change (2 ^ 1)%Z with 2%Z. lia.
Qed.

Lemma shr_fexp_spec (m e : Z) (l : location) :
  (0 <= m)%Z ->
  let r := shr_fexp prec emax m e l in
  (0 <= shr_m (fst r))%Z /\
  snd r = Z.max e (fexp prec emax (Zdigits2 m + e)) /\
  (shr_m (fst r) * 2 ^ (snd r - e) <= m)%Z.
Proof.
  intros H. unfold shr_fexp, shr.
  assert (H0 : shr_m (shr_record_of_loc m l) = m) by (destruct l as [|[]]; reflexivity).
  destruct (fexp prec emax (Zdigits2 m + e) - e)%Z as [|p|p] eqn:E; simpl.
  - rewrite H0, Z.sub_diag. simpl. lia.
  - split; [apply iter_shr_1_nonneg; lia|]. split; [lia|].
    replace (e + Z.pos p - e)%Z with (Z.pos p) by lia.
    rewrite <- H0 at 2. apply iter_shr_1_le. lia.
  - rewrite H0, Z.sub_diag. simpl. lia.
Qed.

Lemma round_nearest_even_le (m : Z) (l : location) :
  (round_nearest_even m l <= m + 1)%Z.
Proof.
  destruct l as [|[]]; simpl; try lia. destruct (Z.even m); lia.
Qed.

Lemma fexp_le (d : Z) : (d <= 1024 -> fexp prec emax d <= 971)%Z.
Proof. unfold fexp, SpecFloat.emin, prec, emax. lia. Qed.

Lemma Zdigits2_le (m k : Z) :
  (0 <= k)%Z -> (0 <= m < 2 ^ k)%Z -> (Zdigits2 m <= k)%Z.
Proof.
  intros Hk [H0 H]. destruct (Z.eq_dec m 0) as [->|N]; [simpl; lia|].
  destruct (@Zdigits2_bounds m ltac:(lia)) as [L _].
  destruct (Z_le_gt_dec (Zdigits2 m) k) as [|G]; [assumption|].
  exfalso. assert (2 ^ k <= 2 ^ (Zdigits2 m - 1))%Z by (apply Z.pow_le_mono_r; lia).
  lia.
Qed.

Lemma binary_round_aux_finite (sx : bool) (mx ex : Z) (lx : location) :
  (0 <= mx)%Z -> (ex <= 0)%Z ->
  (mx < overflow_threshold * 2 ^ (- ex))%Z ->
  is_finite (binary_round_aux prec emax sx mx ex lx) = true.
Proof.
  intros H0 Hex Hb. unfold binary_round_aux.
  destruct (@shr_fexp_spec mx ex lx H0) as [P1 [E1 L1]].
  destruct (shr_fexp prec emax mx ex lx) as [mrs' e1]. simpl in P1, E1, L1.
  set (m1 := shr_m mrs') in *.
  set (mr := round_nearest_even m1 (loc_of_shr_record mrs')).
  assert (Pr : (0 <= mr)%Z) by (apply round_nearest_even_nonneg; exact P1).
  assert (Lr : (mr <= m1 + 1)%Z) by apply round_nearest_even_le.
  destruct (@shr_fexp_spec mr e1 loc_Exact Pr) as [P2 [E2 _]].
  destruct (shr_fexp prec emax mr e1 loc_Exact) as [mrs'' e2]. simpl in P2, E2.
  assert (X : (0 < 2 ^ (- ex))%Z) by (apply Z.pow_pos_nonneg; lia).
  assert (T : (overflow_threshold < 2 ^ 1024)%Z) by (vm_compute; reflexivity).
  assert (B1 : (mx < 2 ^ (1024 - ex))%Z).
  { replace (1024 - ex)%Z with (1024 + - ex)%Z by lia.
    rewrite Z.pow_add_r by lia. nia. }
  assert (D1 : (Zdigits2 mx + ex <= 1024)%Z).
  { pose proof (@Zdigits2_le mx (1024 - ex) ltac:(lia) ltac:(lia)). lia. }
  assert (G1 : (e1 <= 971)%Z).
  { rewrite E1. pose proof (@fexp_le _ D1). lia. }
  assert (Ge1 : (ex <= e1)%Z) by (rewrite E1; lia).
  assert (D2 : (Zdigits2 mr + e1 <= 1024)%Z).
  { destruct (Z_le_gt_dec (Zdigits2 mr + e1) 1024) as [|G]; [assumption|].
    exfalso.
    assert (Nr : (0 < mr)%Z).
    { destruct (Z.eq_dec mr 0) as [Z0|]; [|lia]. rewrite Z0 in G. simpl in G. lia. }
    destruct (@Zdigits2_bounds mr Nr) as [Lo _].
    assert (Q : (2 ^ (1024 - e1) <= 2 ^ (Zdigits2 mr - 1))%Z)
      by (apply Z.pow_le_mono_r; lia).
    assert (Y : (0 < 2 ^ (e1 - ex))%Z) by (apply Z.pow_pos_nonneg; lia).
    assert (S1 : (2 ^ (1024 - e1) * 2 ^ (e1 - ex) = 2 ^ 1024 * 2 ^ (- ex))%Z).
    { rewrite <- !Z.pow_add_r by lia. f_equal. lia. }
    assert (S2 : (2 ^ (e1 - ex) <= 2 ^ 971 * 2 ^ (- ex))%Z).
    { rewrite <- Z.pow_add_r by lia. apply Z.pow_le_mono_r; lia. }
    unfold overflow_threshold in Hb. nia. }
  assert (G2 : (e2 <= 971)%Z).
  { rewrite E2. pose proof (@fexp_le _ D2). lia. }
  destruct (shr_m mrs'') as [|m|m]; simpl.
  - reflexivity.
  - destruct (_ <=? _)%Z eqn:Le; [reflexivity|].
    apply Z.leb_gt in Le. lia.
  - lia.
Qed.

Lemma scaled_bound (p x k c b m : Z) :
  (0 < x)%Z -> (0 < k)%Z -> (p < c * k)%Z -> (c < b)%Z -> (m <= p * x)%Z ->
  (m < k * (b * x))%Z.
Proof.
  intros Hx Hk Hp Hc Hm.
  assert (H1 : (p < b * k)%Z) by nia.
  assert (H2 : (p * x < b * k * x)%Z) by nia.
  nia.
Qed.

Lemma float_of_decimal_finite (neg : bool) (m : N) (k : nat) :
  (Z.of_N m < 10 ^ 308 * 10 ^ Z.of_nat k)%Z ->
  is_finite (float_of_decimal neg m k) = true.
Proof.
  intros H. unfold float_of_decimal. destruct m as [|p]; [reflexivity|].
  unfold SFdiv_core_binary.
  set (e' := Z.min _ _).
  assert (He : (e' <= 0)%Z) by (subst e'; apply Z.le_min_r).
  set (s := (0 - 0 - e')%Z).
  set (m' := match s with Zpos _ => _ | Z0 => _ | Zneg _ => _ end).
  assert (Hd : (0 < 10 ^ Z.of_nat k)%Z) by (apply Z.pow_pos_nonneg; lia).
  assert (X : (0 < 2 ^ (- e'))%Z) by (apply Z.pow_pos_nonneg; lia).
  assert (Hm : (0 <= m' <= Z.pos p * 2 ^ (- e'))%Z).
  { subst m'. destruct s as [|q|q] eqn:Es.
    - replace (- e')%Z with 0%Z by lia. simpl. lia.
    - rewrite Z.shiftl_mul_pow2 by lia.
      replace (- e')%Z with (Z.pos q) by lia. lia.
    - nia. }
  assert (T : (10 ^ 308 < overflow_threshold)%Z) by (vm_compute; reflexivity).
  assert (Hq : (0 <= m' / 10 ^ Z.of_nat k < overflow_threshold * 2 ^ (- e'))%Z).
  { split; [apply Z.div_pos; lia|].
    apply Z.div_lt_upper_bound; [exact Hd|].
    change (Z.of_N (N.pos p)) with (Z.pos p) in H.
    exact (scaled_bound X Hd H T (proj2 Hm)). }
  unfold Z.div in Hq.
  destruct (Z.div_eucl m' (10 ^ Z.of_nat k)) as [q r]. simpl in Hq.
  apply binary_round_aux_finite; [apply Hq | exact He | apply Hq].
Qed.

Lemma SFcompare_refl (f : float) : is_nan f = false -> SFcompare f f = Some Eq.
Proof.
  destruct f as [s|s| |s m e]; simpl; try discriminate; intros _.
  - reflexivity.
  - destruct s; reflexivity.
  - rewrite Z.compare_refl, Pos.compare_cont_refl. destruct s; reflexivity.
Qed.

Lemma num_eqb_refl (x : number) : isnan x = false -> num_eqb x x = true.
Proof.
  unfold isnan, num_eqb, SFeqb. intros H. rewrite SFcompare_refl by exact H.
  reflexivity.
Qed.

(* ================================================================== *)
(** * [clean_numeric] *)

Section CleanNumeric.
Context {U : Unicode}.

Lemma py_float_not_nan (s : str) (f : float) :
  py_float s = Ok f -> is_nan f = false.
Proof.
  unfold py_float. destruct (read_sign s) as [neg s1].
  destruct (read_digits s1 0 0) as [[ip ni] s2].
  destruct (read_fraction s2 ip ni) as [[m nf] s3].
  destruct s3; [|discriminate]. destruct (ni + nf)%nat; [discriminate|].
  intros H. injection H as <-. apply float_of_decimal_not_nan.
Qed.

Lemma read_digits_bound (s : str) (acc : N) (n : nat) (m : N) (n' : nat)
    (rest : str) :
  read_digits s acc n = (m, n', rest) ->
  (Z.of_N acc < 10 ^ Z.of_nat n)%Z ->
  (Z.of_N m < 10 ^ Z.of_nat n')%Z /\ n' + length rest = n + length s.
Proof.
  revert acc n. induction s as [|c s IH]; intros acc n R H;
    cbn [read_digits] in R.
  - injection R as <- <- <-. split; [exact H | reflexivity].
  - destruct (todecimal c) as [d|] eqn:E.
    + pose proof (todecimal_digit c E) as Hd.
      destruct (IH _ _ R) as [B L].
      { rewrite N2Z.inj_add, N2Z.inj_mul, Nat2Z.inj_succ, Z.pow_succ_r by lia.
        change (Z.of_N 10) with 10%Z.
        remember (10 ^ Z.of_nat n)%Z as t eqn:Et. clear Et. lia. }
      split; [exact B|]. rewrite L. simpl. lia.
    + injection R as <- <- <-. split; [exact H | reflexivity].
Qed.

Lemma read_sign_length (s : str) : length (snd (read_sign s)) <= length s.
Proof.
  unfold read_sign. destruct s as [|c r]; simpl; [lia|].
  destruct (char_eqb c 45%N); simpl; [lia|].
  destruct (char_eqb c 43%N); simpl; lia.
Qed.

Lemma decimal_below (m : N) (n k : nat) :
  (Z.of_N m < 10 ^ Z.of_nat n)%Z -> n <= 308 ->
  (Z.of_N m < 10 ^ 308 * 10 ^ Z.of_nat k)%Z.
Proof.
  intros H L.
  assert (H1 : (10 ^ Z.of_nat n <= 10 ^ 308)%Z) by (apply Z.pow_le_mono_r; lia).
  assert (H2 : (0 < 10 ^ Z.of_nat k)%Z) by (apply Z.pow_pos_nonneg; lia).
  assert (H3 : (0 < 10 ^ 308)%Z) by (apply Z.pow_pos_nonneg; lia).
  generalize dependent (10 ^ 308)%Z. intros. nia.
Qed.

(** A text of at most 308 characters parses to a finite float. *)
Lemma py_float_finite (s : str) (f : float) :
  py_float s = Ok f -> length s <= 308 -> is_finite f = true.
Proof.
  unfold py_float. pose proof (read_sign_length s) as L1.
  destruct (read_sign s) as [neg s1]. simpl in L1.
  destruct (read_digits s1 0%N 0%nat) as [[ip ni] s2] eqn:R2.
  destruct (read_digits_bound _ _ _ R2) as [B2 L2]; [simpl; lia|].
  unfold read_fraction.
  destruct s2 as [|c r].
  - simpl. destruct ni; [discriminate|].
    intros E L. injection E as <-. apply float_of_decimal_finite.
    apply decimal_below with (n := S ni); [exact B2 | simpl in L2; lia].
  - destruct (char_eqb c 46%N).
    + destruct (read_digits r ip ni) as [[m n'] r'] eqn:R3.
      destruct (read_digits_bound _ _ _ R3 B2) as [B3 L3].
      destruct r'; [|discriminate].
      destruct (ni + (n' - ni)) eqn:En; [discriminate|].
      intros E L. injection E as <-. apply float_of_decimal_finite.
      apply decimal_below with (n := n'); [exact B3 | simpl in L2, L3; lia].
    + discriminate.
Qed.

Lemma clean_numeric_cases (v : cell) :
  clean_numeric v = Ok IntZero \/
  exists f, clean_numeric v = Ok (Float f) /\
            py_float (filter keep (str_of v)) = Ok f.
Proof.
  unfold clean_numeric. destruct (isna v); [left; reflexivity|].
  destruct (filter keep (str_of v)) as [|c r] eqn:E; [left; reflexivity|].
  destruct (py_float (c :: r)) as [f|e] eqn:F; simpl.
  - right. exists f. split; reflexivity.
  - left. reflexivity.
Qed.

Lemma clean_numeric_returns (v : cell) :
  exists x, clean_numeric v = Ok x /\ isnan x = false.
Proof.
  destruct (clean_numeric_cases v) as [E | [f [E F]]].
  - exists IntZero. split; [exact E | reflexivity].
  - exists (Float f). split; [exact E|].
    unfold isnan. simpl. exact (py_float_not_nan _ F).
Qed.

Lemma keep_ascii (c : char) : is_ascii c = true -> keep c = spec_retained c.
Proof.
  intros H. unfold keep, spec_retained. rewrite (isdigit_ascii c H).
  cbn. unfold char_eqb.
  destruct (ascii_isdigit c), (c =? 46)%N, (c =? 45)%N; reflexivity.
Qed.

Lemma filter_keep_ascii (s : str) :
  forallb is_ascii s = true -> filter keep s = filter spec_retained s.
Proof.
  induction s as [|c s IH]; simpl; [reflexivity|].
  rewrite andb_true_iff. intros [Hc Hs].
  rewrite (keep_ascii c Hc), (IH Hs). reflexivity.
Qed.

End CleanNumeric.

(** On ASCII text nothing depends on the rest of the database. *)
Section AsciiText.
Variables U1 U2 : Unicode.

Lemma read_digits_ascii (s : str) (acc : N) (n : nat) :
  forallb is_ascii s = true ->
  @read_digits U1 s acc n = @read_digits U2 s acc n /\
  forallb is_ascii (snd (@read_digits U1 s acc n)) = true.
Proof.
  revert acc n. induction s as [|c s IH]; intros acc n; simpl.
  - intros _. split; reflexivity.
  - rewrite andb_true_iff. intros [Hc Hs].
    rewrite (@todecimal_ascii U1 c Hc), (@todecimal_ascii U2 c Hc).
    destruct (ascii_isdigit c).
    + apply IH, Hs.
    + split; [reflexivity|]. simpl. rewrite Hc, Hs. reflexivity.
Qed.

Lemma py_float_ascii (s : str) :
  forallb is_ascii s = true -> @py_float U1 s = @py_float U2 s.
Proof.
  intros H. unfold py_float.
  assert (H1 : forallb is_ascii (snd (read_sign s)) = true).
  { unfold read_sign. destruct s as [|c r]; [reflexivity|].
    simpl in H. apply andb_true_iff in H as [Hc Hr].
    destruct (char_eqb c 45%N); [exact Hr|].
    destruct (char_eqb c 43%N); [exact Hr|].
    simpl. rewrite Hc, Hr. reflexivity. }
  destruct (read_sign s) as [neg s1]. simpl in H1.
  destruct (read_digits_ascii s1 0%N 0%nat H1) as [E2 H2].
  rewrite <- E2.
  destruct (@read_digits U1 s1 0%N 0%nat) as [[ip ni] s2]. simpl in H2.
  assert (E3 : @read_fraction U1 s2 ip ni = @read_fraction U2 s2 ip ni).
  { unfold read_fraction. destruct s2 as [|c r]; [reflexivity|].
    simpl in H2. apply andb_true_iff in H2 as [_ Hr].
    destruct (read_digits_ascii r ip ni Hr) as [E _]. rewrite E. reflexivity. }
  rewrite E3. reflexivity.
Qed.

Lemma filter_ascii (f : char -> bool) (s : str) :
  forallb is_ascii s = true -> forallb is_ascii (filter f s) = true.
Proof.
  induction s as [|c s IH]; simpl; [reflexivity|].
  rewrite andb_true_iff. intros [Hc Hs].
  destruct (f c); simpl; [rewrite Hc|]; auto.
Qed.

Lemma clean_numeric_ascii (v : cell) :
  forallb is_ascii (str_of v) = true ->
  @clean_numeric U1 v = @clean_numeric U2 v.
Proof.
  intros H. unfold clean_numeric.
  rewrite (@filter_keep_ascii U1 _ H), (@filter_keep_ascii U2 _ H).
  rewrite (py_float_ascii _ (filter_ascii spec_retained _ H)).
  reflexivity.
Qed.

End AsciiText.

(** C5, as amended: [clean_numeric] is total and never raises; for every
    input it returns a number, the integer 0 or a float, that is not NaN,
    and that is finite when at most 308 characters are retained; beyond
    that the float can be infinite. *)
Theorem clean_numeric_total (U : Unicode) (v : cell) :
  exists x,
    clean_numeric v = Ok x /\ isnan x = false /\
    (length (filter keep (str_of v)) <= 308 -> isfinite x = true).
Proof.
  destruct (clean_numeric_cases v) as [E | [f [E F]]].
  - exists IntZero. split; [exact E|]. split; reflexivity.
  - exists (Float f). split; [exact E|]. split.
    + unfold isnan. simpl. exact (py_float_not_nan _ F).
    + intros L. unfold isfinite. simpl. exact (py_float_finite _ F L).
Qed.

Lemma clean_numeric_total_witness :
  length (filter (@keep fragment) (str_of (Text (lit "-12.5kg")))) <= 308 /\
  exists x, @clean_numeric fragment (Text (lit "-12.5kg")) = Ok x /\
            isfinite x = true.
Proof.
  assert (L : length (filter (@keep fragment) (str_of (Text (lit "-12.5kg")))) <= 308)
    by (vm_compute; repeat constructor).
  split; [exact L|].
  destruct (@clean_numeric_total fragment (Text (lit "-12.5kg"))) as [x [E [_ F]]].
  exists x. split; [exact E | exact (F L)].
Defined.

(** C5, as stated, fails: a text whose retained digits are a one followed
    by 309 zeros is turned into the float infinity, which is not finite. *)
Lemma clean_numeric_overflows :
  exists x,
    @clean_numeric fragment (Text (one_and_zeros_kg 309)) = Ok x /\
    isfinite x = false.
Proof.
  exists (Float (S754_infinity false)). split; vm_compute; reflexivity.
Qed.

(** C6, as amended: on a missing value [clean_numeric] returns 0; otherwise
    it retains the characters that [str.isdigit] accepts, ASCII or not, the
    point and the minus sign, returns 0 when nothing is retained or the
    retained text does not parse, and the parsed float otherwise.  On ASCII
    text this is the algorithm of the specification, up to the integer 0
    standing for 0.0; the four examples hold, the last one through the
    fallback 0. *)
Theorem clean_numeric_algorithm (U : Unicode) (v : cell) :
  (isna v = true -> clean_numeric v = Ok IntZero) /\
  (isna v = false ->
   (filter retained (str_of v) = [] -> clean_numeric v = Ok IntZero) /\
   (forall e, py_float (filter retained (str_of v)) = Raise e ->
              clean_numeric v = Ok IntZero) /\
   (forall f, filter retained (str_of v) <> [] ->
              py_float (filter retained (str_of v)) = Ok f ->
              clean_numeric v = Ok (Float f))) /\
  (forallb is_ascii (str_of v) = true ->
   exists x, clean_numeric v = Ok x /\
             num_eqb x (spec_clean_numeric v) = true) /\
  (forall m, clean_numeric (Missing m) = Ok IntZero) /\
  clean_numeric (Text (lit "-12.5kg")) = Ok (Float minus_12_5) /\
  clean_numeric (Text (lit "")) = Ok IntZero /\
  clean_numeric (Text (lit "abc")) = Ok IntZero /\
  clean_numeric (Text (lit "1.234.5")) = Ok IntZero.
Proof.
  assert (K : forall s, filter keep s = filter retained s).
  { intros s. apply filter_ext. intros c. unfold keep, retained. cbn.
    unfold char_eqb.
    destruct (isdigit c), (c =? 46)%N, (c =? 45)%N; reflexivity. }
  split; [|split; [|split; [|split; [reflexivity|]]]].
  - intros H. unfold clean_numeric. rewrite H. reflexivity.
  - intros H. unfold clean_numeric. rewrite H, K.
    split; [intros ->; reflexivity|]. split.
    + intros e E. destruct (filter retained (str_of v)); [reflexivity|].
      rewrite E. reflexivity.
    + intros f N E. destruct (filter retained (str_of v)) as [|c r];
        [exfalso; apply N; reflexivity|].
      rewrite E. reflexivity.
  - intros H. unfold clean_numeric, spec_clean_numeric.
    destruct (isna v); [exists IntZero; split; reflexivity|].
    rewrite (filter_keep_ascii _ H).
    destruct (filter spec_retained (str_of v)) as [|c r];
      [exists IntZero; split; reflexivity|].
    destruct (py_float (c :: r)) as [f|e] eqn:F; simpl.
    + exists (Float f). split; [reflexivity|].
      apply num_eqb_refl. exact (py_float_not_nan _ F).
    + exists IntZero. split; reflexivity.
  - repeat split;
      rewrite (clean_numeric_ascii U fragment) by reflexivity;
      vm_compute; reflexivity.
Qed.

Lemma clean_numeric_algorithm_witness :
  isna (Text [1635%N]) = false /\
  filter (@retained fragment) (str_of (Text [1635%N])) <> [] /\
  @py_float fragment (filter (@retained fragment) (str_of (Text [1635%N]))) =
    Ok (float_of_Z 3) /\
  @clean_numeric fragment (Text [1635%N]) = Ok (Float (float_of_Z 3)) /\
  forallb is_ascii (str_of (Text (lit "-12.5kg"))) = true /\
  exists x, @clean_numeric fragment (Text (lit "-12.5kg")) = Ok x /\
            num_eqb x (@spec_clean_numeric fragment (Text (lit "-12.5kg"))) = true.
Proof.
  assert (N : filter (@retained fragment) (str_of (Text [1635%N])) <> [])
    by discriminate.
  assert (F : @py_float fragment
                (filter (@retained fragment) (str_of (Text [1635%N]))) =
              Ok (float_of_Z 3)) by (vm_compute; reflexivity).
  split; [reflexivity|]. split; [exact N|]. split; [exact F|]. split.
  - exact (proj2 (proj2 (proj1 (proj2
             (@clean_numeric_algorithm fragment (Text [1635%N]))) eq_refl))
             _ N F).
  - split; [reflexivity|].
    exact (proj1 (proj2 (proj2
             (@clean_numeric_algorithm fragment (Text (lit "-12.5kg")))))
             eq_refl).
Defined.

(** C6, as stated, fails: the Arabic-Indic digit three, U+0663, is not an
    ASCII digit, yet it is kept and parsed, so the result is 3.0 where the
    algorithm of the specification gives 0.0. *)
Lemma clean_numeric_keeps_unicode_digits :
  exists x,
    @clean_numeric fragment (Text [1635%N]) = Ok x /\
    num_eqb x (@spec_clean_numeric fragment (Text [1635%N])) = false /\
    x = Float (float_of_Z 3).
Proof.
  exists (Float (float_of_Z 3)). repeat split; vm_compute; reflexivity.
Qed.

(* ================================================================== *)
(** * Labels and lookups *)

Lemma label_eqb_eq (a b : label) : label_eqb a b = true <-> a = b.
Proof.
  destruct a as [n|s], b as [m|t]; simpl.
  - rewrite Nat.eqb_eq. split; [intros ->; reflexivity | intros H; injection H; auto].
  - split; discriminate.
  - split; discriminate.
  - rewrite str_eqb_eq. split; [intros ->; reflexivity | intros H; injection H; auto].
Qed.

Lemma label_eqb_refl (a : label) : label_eqb a a = true.
Proof. apply label_eqb_eq. reflexivity. Qed.

Lemma occurrences_zero (k : label) (idx : list label) :
  occurrences k idx = 0 <-> ~ In k idx.
Proof.
  unfold occurrences. induction idx as [|l idx IH]; simpl.
  - split; [intros _ [] | reflexivity].
  - destruct (label_eqb k l) eqn:E; simpl.
    + apply label_eqb_eq in E. subst l. split; [discriminate|].
      intros H. exfalso. apply H. left. reflexivity.
    + rewrite IH. split.
      * intros H [-> | I]; [rewrite label_eqb_refl in E; discriminate | exact (H I)].
      * intros H I. apply H. right. exact I.
Qed.

Section LookupFacts.
Context {Pd : Pandas}.

Lemma entries_under_length (k : label) (idx : list label) (vals : list cell) :
  length vals = length idx ->
  length (entries_under k {| index := idx; values := vals |}) =
  occurrences k idx.
Proof.
  unfold entries_under, occurrences. cbn [index values].
  revert vals. induction idx as [|l idx IH]; intros [|v vals] H;
    try discriminate; [reflexivity|].
  simpl. destruct (label_eqb k l); simpl; rewrite IH by (simpl in H; lia);
    reflexivity.
Qed.

(** What a lookup gives is decided by the index alone. *)
Lemma getitem_fault (s : Series) (key : nat) :
  length (values s) = length (index s) ->
  match lookup_fault (index s) key true with
  | Some e =>
      getitem s key = Raise e \/
      (e = ambiguous /\ exists s', getitem s key = Ok (Several s'))
  | None => exists c, getitem s key = Ok (One c)
  end.
Proof.
  intros W. unfold lookup_fault, getitem.
  destruct (positional_fallback && negb (existsb is_int_label (index s))).
  - destruct (Nat.ltb_spec key (length (index s))) as [B | B].
    + destruct (nth_error (values s) key) as [c|] eqn:E;
        [exists c; reflexivity|].
      apply nth_error_None in E. lia.
    + left. rewrite W.
      destruct (nth_error (values s) key) as [c|] eqn:E; [|reflexivity].
      assert (N : nth_error (values s) key <> None) by (rewrite E; discriminate).
      apply nth_error_Some in N. lia.
  - pose proof (@entries_under_length (LInt key) (index s) (values s) W) as L.
    destruct s as [idx vals]. cbn [index values] in *.
    destruct (entries_under (LInt key) {| index := idx; values := vals |})
      as [|[l c] [|kv r]]; simpl in L; rewrite <- L.
    + left. reflexivity.
    + exists c. reflexivity.
    + right. split; [reflexivity|]. eexists. reflexivity.
Qed.

Lemma getitem_fault_any (s : Series) (key : nat) :
  length (values s) = length (index s) ->
  match lookup_fault (index s) key false with
  | Some e => getitem s key = Raise e
  | None => exists x, getitem s key = Ok x
  end.
Proof.
  intros W. pose proof (getitem_fault s key W) as G.
  unfold lookup_fault in *.
  destruct (positional_fallback && negb (existsb is_int_label (index s))).
  - destruct (key <? length (index s)).
    + destruct G as [c G]. exists (One c). exact G.
    + destruct G as [G | [A _]]; [exact G | discriminate A].
  - destruct (occurrences (LInt key) (index s)) as [|[|n]].
    + destruct G as [G | [A _]]; [exact G | discriminate A].
    + destruct G as [c G]. exists (One c). exact G.
    + destruct G as [G | [_ [s' G]]].
      * unfold getitem in G.
        destruct (positional_fallback && negb (existsb is_int_label (index s)));
          [destruct (nth_error (values s) key); discriminate|].
        destruct (entries_under (LInt key) s) as [|[l c] [|kv r]];
          [discriminate G | discriminate G | discriminate G].
      * exists (Several s'). exact G.
Qed.

(** The lookups of a Series whose index is the positions [0 .. n-1]. *)
Lemma entries_under_range (vals : list cell) (a n i : nat) :
  length vals = n ->
  entries_under (LInt i) {| index := map LInt (seq a n); values := vals |} =
  if (a <=? i) && (i <? a + n)
  then match nth_error vals (i - a) with
       | Some c => [(LInt i, c)]
       | None => []
       end
  else [].
Proof.
  unfold entries_under. cbn [index values].
  revert vals a. induction n as [|n IH]; intros [|v vals] a H; try discriminate.
  - simpl. destruct ((a <=? i) && (i <? a + 0)); [destruct (i - a)|];
      reflexivity.
  - cbn [seq map combine]. cbn [filter]. cbn [fst].
    rewrite (IH vals (S a)) by (simpl in H; lia).
    change (label_eqb (LInt i) (LInt a)) with (i =? a).
    destruct (Nat.eqb_spec i a) as [-> | N].
    + rewrite Nat.sub_diag. cbn [nth_error].
      assert (E1 : (a <=? a) && (a <? a + S n) = true).
      { apply andb_true_iff. split; [apply Nat.leb_le | apply Nat.ltb_lt]; lia. }
      assert (E2 : (S a <=? a) && (a <? S a + n) = false).
      { apply andb_false_iff. left. apply Nat.leb_gt. lia. }
      rewrite E1, E2. reflexivity.
    + destruct (Nat.leb_spec (S a) i) as [B | B].
      * assert (E1 : (a <=? i) = true) by (apply Nat.leb_le; lia).
        rewrite E1. replace (S a + n) with (a + S n) by lia.
        destruct (i <? a + S n); cbn [andb]; [|reflexivity].
        replace (i - a) with (S (i - S a)) by lia. reflexivity.
      * assert (E1 : (a <=? i) = false) by (apply Nat.leb_gt; lia).
        rewrite E1. reflexivity.
Qed.

(** Without a header row the labels are the positions, and the cells are
    accessed positionally. *)
Lemma range_index_positional (n : nat) :
  accessed_positionally (map LInt (seq 0 n)).
Proof.
  intros vals i c W _ E. rewrite length_map, length_seq in W.
  unfold getitem. cbn [index values].
  assert (B : i < n).
  { assert (N : nth_error vals i <> None) by (rewrite E; discriminate).
    apply nth_error_Some in N. lia. }
  assert (X : existsb is_int_label (map LInt (seq 0 n)) = true).
  { destruct n; [lia | reflexivity]. }
  rewrite X, andb_false_r.
  rewrite (@entries_under_range vals 0 n i W).
  assert (T : (0 <=? i) && (i <? 0 + n) = true).
  { apply andb_true_iff. split; [apply Nat.leb_le | apply Nat.ltb_lt]; lia. }
  rewrite T, Nat.sub_0_r, E. reflexivity.
Qed.

(** Under a header row of texts the cells are accessed positionally by
    pandas before 3.0. *)
Lemma text_index_positional (idx : list label) :
  positional_fallback = true ->
  existsb is_int_label idx = false ->
  accessed_positionally idx.
Proof.
  intros F X vals i c _ _ E. unfold getitem. cbn [index values].
  rewrite F, X, E. reflexivity.
Qed.

Lemma iterrows_length (df : DataFrame) :
  length (iterrows df) = length (rows df).
Proof.
  unfold iterrows. rewrite length_map.
  pose proof (frame_values_isna df) as H.
  apply (f_equal (@length _)) in H. rewrite !length_map in H. exact H.
Qed.

(** The rows of a rectangular table are Series over its columns, with one
    value per column. *)
Lemma iterrows_shape (df : DataFrame) (row : Series) :
  rectangular df -> In row (iterrows df) ->
  index row = columns df /\ length (values row) = length (columns df).
Proof.
  intros R H. unfold iterrows in H. apply in_map_iff in H.
  destruct H as [v [<- Hv]]. split; [reflexivity|]. cbn [values].
  pose proof (frame_values_isna df) as E.
  apply (f_equal (map (@length _))) in E. rewrite !map_map in E.
  assert (I : In (length v) (map (fun x => length (map isna x)) (frame_values df))).
  { apply in_map_iff. exists v. split; [apply length_map | exact Hv]. }
  rewrite E in I. apply in_map_iff in I. destruct I as [r [L Hr]].
  rewrite length_map in L. rewrite <- L.
  unfold rectangular in R. rewrite Forall_forall in R. exact (R r Hr).
Qed.

(** A table that holds a text is iterated as it is stored. *)
Lemma iterrows_text (df : DataFrame) :
  holds_text (rows df) = true ->
  iterrows df = map (fun v => {| index := columns df; values := v |}) (rows df).
Proof. intros H. unfold iterrows. rewrite (frame_values_text df H). reflexivity. Qed.

End LookupFacts.

(* ================================================================== *)
(** * [process_data] *)

Section ProcessData.
Context {U : Unicode} {Pd : Pandas}.

(** A row whose four lookups give cells gives an item. *)
Lemma process_row_cells (row : Series) (c0 c1 c2 c3 : cell) :
  getitem row 0 = Ok (One c0) -> getitem row 1 = Ok (One c1) ->
  getitem row 2 = Ok (One c2) -> getitem row 3 = Ok (One c3) ->
  exists x,
    clean_numeric c3 = Ok x /\ isnan x = false /\
    process_row row =
    Ok {| localidade := if notna c0 then str_of c0 else lit "N/A";
          dimensao := if contains (lit "neg") (lower (str_of c1))
                      then lit "Negativo" else lit "Positivo";
          indicador := if notna c2 then str_of c2 else lit "N/A";
          valor := x |}.
Proof.
  intros G0 G1 G2 G3.
  destruct (clean_numeric_returns c3) as [x [E N]].
  exists x. split; [exact E|]. split; [exact N|].
  unfold process_row. rewrite G3, G0, G1, G2. simpl. rewrite E. reflexivity.
Qed.

(** The item of a row has one of the two categories and a value that is
    not NaN. *)
Lemma process_row_item (row : Series) (it : item) :
  process_row row = Ok it ->
  (dimensao it = lit "Negativo" \/ dimensao it = lit "Positivo") /\
  isnan (valor it) = false.
Proof.
  unfold process_row.
  destruct (getitem row 3) as [[c3|s3]|e3]; simpl; try discriminate.
  destruct (clean_numeric_returns c3) as [x [E N]]. rewrite E. simpl.
  destruct (getitem row 0) as [[c0|s0]|e0]; simpl; try discriminate.
  destruct (getitem row 1) as [x1|e1]; simpl; try discriminate.
  destruct (getitem row 2) as [[c2|s2]|e2]; simpl; try discriminate.
  intros H. injection H as <-. simpl. split; [|exact N].
  destruct (contains (lit "neg") (lower (str_of_selection x1)));
    [left | right]; reflexivity.
Qed.

(** Whether a row gives an item, and the error if not, is decided by the
    index. *)
Lemma process_row_fault (row : Series) :
  length (values row) = length (index row) ->
  match row_fault (index row) with
  | Some e => process_row row = Raise e
  | None => exists it, process_row row = Ok it
  end.
Proof.
  intros W. unfold row_fault, process_row.
  pose proof (getitem_fault row 3 W) as G3.
  destruct (lookup_fault (index row) 3 true) as [e3|].
  { destruct G3 as [-> | [-> [s' ->]]]; reflexivity. }
  destruct G3 as [c3 ->]. simpl.
  destruct (clean_numeric_returns c3) as [x [-> _]]. simpl.
  pose proof (getitem_fault row 0 W) as G0.
  destruct (lookup_fault (index row) 0 true) as [e0|].
  { destruct G0 as [-> | [-> [s' ->]]]; reflexivity. }
  destruct G0 as [c0 ->]. simpl.
  pose proof (getitem_fault_any row 1 W) as G1.
  destruct (lookup_fault (index row) 1 false) as [e1|].
  { rewrite G1. reflexivity. }
  destruct G1 as [x1 ->]. simpl.
  pose proof (getitem_fault row 2 W) as G2.
  destruct (lookup_fault (index row) 2 true) as [e2|].
  { destruct G2 as [-> | [-> [s' ->]]]; reflexivity. }
  destruct G2 as [c2 ->]. simpl. eexists. reflexivity.
Qed.

(** The errors of a row over an index of at least 4 labels: a label that
    is missing, or a label that several columns carry. *)
Lemma row_fault_cases (idx : list label) (e : exn) :
  4 <= length idx ->
  row_fault idx = Some e ->
  e = ambiguous \/ exists k, k < 4 /\ e = KeyError k /\ ~ In (LInt k) idx.
Proof.
  intros W.
  assert (G : forall key b e', key < 4 ->
              lookup_fault idx key b = Some e' ->
              e' = ambiguous \/
              exists k, k < 4 /\ e' = KeyError k /\ ~ In (LInt k) idx).
  { intros key b e' B. unfold lookup_fault.
    destruct (positional_fallback && negb (existsb is_int_label idx)).
    - destruct (Nat.ltb_spec key (length idx)); [discriminate | lia].
    - destruct (occurrences (LInt key) idx) as [|[|n]] eqn:O.
      + intros H. injection H as <-. right. exists key.
        split; [exact B|]. split; [reflexivity|].
        apply occurrences_zero. exact O.
      + discriminate.
      + destruct b; [|discriminate]. intros H. injection H as <-.
        left. reflexivity. }
  unfold row_fault.
  destruct (lookup_fault idx 3 true) eqn:E3.
  { intros H. injection H as <-. apply (G 3 true); [lia | exact E3]. }
  destruct (lookup_fault idx 0 true) eqn:E0.
  { intros H. injection H as <-. apply (G 0 true); [lia | exact E0]. }
  destruct (lookup_fault idx 1 false) eqn:E1.
  { intros H. injection H as <-. apply (G 1 false); [lia | exact E1]. }
  intros H. apply (G 2 true); [lia | exact H].
Qed.

Lemma for_rows_spec (rs : list Series) (processed : list item)
    (out : list log_entry) :
  for_rows rs processed out = (processed ++ normalized rs, out ++ skipped rs).
Proof.
  revert processed out. induction rs as [|row rs IH]; intros processed out; simpl.
  - rewrite !app_nil_r. reflexivity.
  - destruct (process_row row) as [it|e]; rewrite IH; simpl;
      rewrite <- ?app_assoc; reflexivity.
Qed.

Lemma normalized_length (rs : list Series) :
  length (normalized rs) + length (skipped rs) = length rs.
Proof.
  induction rs as [|row rs IH]; simpl; [reflexivity|].
  rewrite !length_app. destruct (process_row row); simpl; lia.
Qed.

Lemma skipped_nil_iff (rs : list Series) :
  skipped rs = [] <-> forall row, In row rs -> exists it, process_row row = Ok it.
Proof.
  induction rs as [|row rs IH]; simpl.
  - split; [intros _ row [] | reflexivity].
  - destruct (process_row row) as [it|e] eqn:E; simpl.
    + rewrite IH. split.
      * intros H r [<- | Hr]; [exists it; exact E | apply H, Hr].
      * intros H r Hr. apply H. right. exact Hr.
    + split; [discriminate|].
      intros H. destruct (H row (or_introl eq_refl)) as [it Hit].
      rewrite E in Hit. discriminate.
Qed.

(** Rows that all raise the same error give no item and one line each. *)
Lemma all_skipped (rs : list Series) (e : exn) :
  (forall row, In row rs -> process_row row = Raise e) ->
  normalized rs = [] /\ skipped rs = map (fun row => RowErrorLog row e) rs.
Proof.
  induction rs as [|row rs IH]; intros H; [split; reflexivity|].
  destruct IH as [N S]; [intros r Hr; apply H; right; exact Hr|].
  unfold normalized, skipped in *. simpl.
  rewrite (H row (or_introl eq_refl)), N, S. split; reflexivity.
Qed.

Lemma process_data_wide (df : DataFrame) :
  4 <= length (columns df) ->
  process_data df = (Ok (normalized (iterrows df)), skipped (iterrows df)).
Proof.
  intros H. unfold process_data.
  destruct (Nat.ltb_spec (length (columns df)) 4); [lia|].
  rewrite for_rows_spec. reflexivity.
Qed.

Lemma process_data_narrow (df : DataFrame) :
  length (columns df) < 4 ->
  process_data df = (Raise (ValueError schema_message), []).
Proof.
  intros H. unfold process_data.
  destruct (Nat.ltb_spec (length (columns df)) 4); [reflexivity | lia].
Qed.

(** In a rectangular table whose cells are accessed positionally, a row
    gives the item of its first four values. *)
Lemma process_row_positional (df : DataFrame) (row : Series) :
  rectangular df -> 4 <= length (columns df) ->
  accessed_positionally (columns df) ->
  In row (iterrows df) ->
  exists c0 c1 c2 c3 rest x,
    values row = c0 :: c1 :: c2 :: c3 :: rest /\
    clean_numeric c3 = Ok x /\
    process_row row =
    Ok {| localidade := if notna c0 then str_of c0 else lit "N/A";
          dimensao := if contains (lit "neg") (lower (str_of c1))
                      then lit "Negativo" else lit "Positivo";
          indicador := if notna c2 then str_of c2 else lit "N/A";
          valor := x |}.
Proof.
  intros R W A H. destruct (@iterrows_shape _ df row R H) as [I L].
  destruct row as [idx vals]. cbn [index values] in *. subst idx.
  destruct vals as [|c0 [|c1 [|c2 [|c3 rest]]]]; simpl in L; try lia.
  assert (G : forall i c, i < 4 ->
              nth_error (c0 :: c1 :: c2 :: c3 :: rest) i = Some c ->
              getitem {| index := columns df;
                         values := c0 :: c1 :: c2 :: c3 :: rest |} i =
              Ok (One c)).
  { intros i c B E. apply A; [simpl; lia | exact B | exact E]. }
  destruct (@process_row_cells _ c0 c1 c2 c3
              (G 0 c0 ltac:(lia) eq_refl) (G 1 c1 ltac:(lia) eq_refl)
              (G 2 c2 ltac:(lia) eq_refl) (G 3 c3 ltac:(lia) eq_refl))
    as [x [E [_ P]]].
  exists c0, c1, c2, c3, rest, x. split; [reflexivity|].
  split; [exact E | exact P].
Qed.

End ProcessData.

(* ================================================================== *)
(** * [upload_file]: the schema check, the row count, the categories *)

Section UploadFacts.
Context {U : Unicode} {Pd : Pandas} {Py : Interpreter} {P : Plotter}.

Lemma upload_file_wide (df : DataFrame) :
  4 <= length (columns df) ->
  upload_file df =
  (Response200 {| preview := preview_of df;
                  total_records := length (rows df);
                  analysis := normalized (iterrows df);
                  charts := fst (generate_charts (normalized (iterrows df))) |},
   skipped (iterrows df) ++ snd (generate_charts (normalized (iterrows df)))).
Proof.
  intros H. unfold upload_file. rewrite (process_data_wide df H).
  destruct (generate_charts (normalized (iterrows df))) as [c o]. reflexivity.
Qed.

Lemma upload_file_narrow (df : DataFrame) :
  length (columns df) < 4 ->
  upload_file df =
  (Response500 (lit "Erro ao processar arquivo: " ++ schema_message), []).
Proof.
  intros H. unfold upload_file. rewrite (process_data_narrow df H). reflexivity.
Qed.

End UploadFacts.

(** C3: with fewer than 4 columns [process_data] raises the schema error
    having processed no row (nothing is printed, no item is built),
    whatever the rows are, and the request fails with that error and no
    payload; with at least 4 columns [process_data] returns and the request
    gives a payload. *)
Theorem schema_check (U : Unicode) (Pd : Pandas) (Py : Interpreter)
    (P : Plotter) (df : DataFrame) :
  (length (columns df) < 4 ->
   process_data df = (Raise (ValueError schema_message), []) /\
   upload_file df =
   (Response500 (lit "Erro ao processar arquivo: " ++ schema_message), [])) /\
  (4 <= length (columns df) ->
   (exists items out, process_data df = (Ok items, out)) /\
   (exists body out, upload_file df = (Response200 body, out))).
Proof.
  split; intros H.
  - split; [apply process_data_narrow | apply upload_file_narrow]; exact H.
  - split.
    + eexists _, _. apply process_data_wide, H.
    + eexists _, _. apply upload_file_wide, H.
Qed.

Lemma schema_check_witness :
  (length (columns three_columns) < 4 /\
   process_data (U := fragment) (Pd := pandas_3) three_columns =
   (Raise (ValueError schema_message), [])) /\
  (4 <= length (columns four_columns) /\
   exists body out,
     upload_file (U := fragment) (Pd := pandas_3) (Py := cpython_312)
       (P := both_drawn) four_columns = (Response200 body, out)).
Proof.
  split.
  - assert (H : length (columns three_columns) < 4) by (simpl; lia).
    split; [exact H|].
    exact (proj1 (proj1 (@schema_check fragment pandas_3 cpython_312 both_drawn
                           three_columns) H)).
  - assert (H : 4 <= length (columns four_columns)) by (simpl; lia).
    split; [exact H|].
    exact (proj2 (proj2 (@schema_check fragment pandas_3 cpython_312 both_drawn
                           four_columns) H)).
Defined.

(** C4: the category of a record is always one of the two.  For a row
    whose lookups give cells, it is "Negativo" exactly when "neg" occurs in
    the lowercased text of cell 1 and "Positivo" exactly when it does not;
    "NEGATIVO" gives "Negativo", "positivo" and the empty text give
    "Positivo", and so does a missing cell. *)
Theorem category_of_cell_1 (U : Unicode) (Pd : Pandas) (row : Series) :
  (forall it, process_row row = Ok it ->
     dimensao it = lit "Negativo" \/ dimensao it = lit "Positivo") /\
  forall c0 c1 c2 c3 : cell,
    getitem row 0 = Ok (One c0) -> getitem row 1 = Ok (One c1) ->
    getitem row 2 = Ok (One c2) -> getitem row 3 = Ok (One c3) ->
    exists it,
      process_row row = Ok it /\
      (dimensao it = lit "Negativo" <->
       occurs (lit "neg") (lower (str_of c1))) /\
      (dimensao it = lit "Positivo" <->
       ~ occurs (lit "neg") (lower (str_of c1))) /\
      (dimensao it = lit "Negativo" \/ dimensao it = lit "Positivo") /\
      (c1 = Text (lit "NEGATIVO") -> dimensao it = lit "Negativo") /\
      (c1 = Text (lit "positivo") -> dimensao it = lit "Positivo") /\
      (c1 = Text (lit "") -> dimensao it = lit "Positivo") /\
      (forall m, c1 = Missing m -> dimensao it = lit "Positivo").
Proof.
  split; [intros it H; exact (proj1 (process_row_item row H))|].
  intros c0 c1 c2 c3 G0 G1 G2 G3.
  destruct (@process_row_cells _ _ row c0 c1 c2 c3 G0 G1 G2 G3) as [x [_ [_ E]]].
  eexists. split; [exact E|]. cbn [dimensao].
  rewrite <- contains_spec.
  split; [|split; [|split; [|split; [|split; [|split]]]]].
  - destruct (contains (lit "neg") (lower (str_of c1)));
      split; try discriminate; reflexivity.
  - destruct (contains (lit "neg") (lower (str_of c1))).
    + split; [discriminate | intros H; exfalso; apply H; reflexivity].
    + split; [intros _; discriminate | reflexivity].
  - destruct (contains (lit "neg") (lower (str_of c1)));
      [left | right]; reflexivity.
  - intros ->. cbn [str_of]. rewrite lower_ascii by reflexivity. reflexivity.
  - intros ->. cbn [str_of]. rewrite lower_ascii by reflexivity. reflexivity.
  - intros ->. cbn [str_of]. rewrite lower_ascii by reflexivity. reflexivity.
  - intros m ->. rewrite lower_ascii by (destruct m; reflexivity).
    destruct m; reflexivity.
Qed.

Lemma category_of_cell_1_witness :
  getitem (Pd := pandas_3) first_row 1 = Ok (One (Text (lit "Negativo"))) /\
  exists it,
    process_row (U := fragment) (Pd := pandas_3) first_row = Ok it /\
    (dimensao it = lit "Negativo" <->
     occurs (lit "neg") (lower (Unicode := fragment) (lit "Negativo"))).
Proof.
  split; [reflexivity|].
  destruct (proj2 (@category_of_cell_1 fragment pandas_3 first_row)
              (Text (lit "SP")) (Text (lit "Negativo")) (Text (lit "IDH"))
              (Text (lit "-12.5")) eq_refl eq_refl eq_refl eq_refl)
    as [it [E [N _]]].
  exists it. split; [exact E | exact N].
Defined.

(** C7: with at least 4 columns the request gives a payload whose
    [total_records] is the number of rows of the table and whose
    [analysis] is no longer than that, of that very length exactly when
    no row raises. *)
Theorem total_records_counts_rows (U : Unicode) (Pd : Pandas)
    (Py : Interpreter) (P : Plotter) (df : DataFrame) :
  4 <= length (columns df) ->
  exists body out,
    upload_file df = (Response200 body, out) /\
    total_records body = length (rows df) /\
    length (analysis body) <= total_records body /\
    (length (analysis body) = total_records body <->
     forall row, In row (iterrows df) -> exists it, process_row row = Ok it).
Proof.
  intros H. eexists _, _. split; [apply upload_file_wide, H|]. simpl.
  pose proof (normalized_length (iterrows df)) as L.
  rewrite iterrows_length in L.
  split; [reflexivity|]. split; [lia|].
  rewrite <- skipped_nil_iff. split.
  - intros E. apply length_zero_iff_nil. lia.
  - intros E. rewrite E in L. simpl in L. lia.
Qed.

(** The row under the header cells 5, 6, 7 and 8 is counted and gives no
    record: no column carries the label 3. *)
Lemma total_records_counts_rows_witness :
  4 <= length (columns numbered_from_5) /\
  exists body out,
    upload_file (U := fragment) (Pd := pandas_2) (Py := cpython_311)
      (P := both_drawn) numbered_from_5 = (Response200 body, out) /\
    total_records body = 1 /\ length (analysis body) = 0.
Proof.
  assert (H : 4 <= length (columns numbered_from_5)) by (simpl; lia).
  split; [exact H|].
  destruct (@total_records_counts_rows fragment pandas_2 cpython_311 both_drawn
              numbered_from_5 H) as [body [out [E [T _]]]].
  exists body, out. split; [exact E|].
  vm_compute in E. injection E as <- _. split; reflexivity.
Defined.

(** C10: in a table of at least 4 columns, each row having one cell per
    column, whose cells are accessed positionally, no row raises: nothing
    is printed, nothing is skipped, and there are as many items as rows. *)
Theorem rows_never_skipped (U : Unicode) (Pd : Pandas) (df : DataFrame) :
  rectangular df ->
  4 <= length (columns df) ->
  accessed_positionally (columns df) ->
  (forall row, In row (iterrows df) -> exists it, process_row row = Ok it) /\
  exists items,
    process_data df = (Ok items, []) /\ length items = length (rows df).
Proof.
  intros R H A.
  assert (G : forall row, In row (iterrows df) ->
              exists it, process_row row = Ok it).
  { intros row Hin.
    destruct (@process_row_positional _ _ df row R H A Hin)
      as [c0 [c1 [c2 [c3 [rest [x [_ [_ E]]]]]]]].
    eexists. exact E. }
  split; [exact G|].
  exists (normalized (iterrows df)).
  apply skipped_nil_iff in G.
  rewrite (process_data_wide df H), G. split; [reflexivity|].
  pose proof (normalized_length (iterrows df)) as L.
  rewrite G, iterrows_length in L. simpl in L. lia.
Qed.

Lemma rows_never_skipped_witness :
  rectangular four_columns /\
  4 <= length (columns four_columns) /\
  accessed_positionally (Pd := pandas_3) (columns four_columns) /\
  exists items,
    process_data (U := fragment) (Pd := pandas_3) four_columns = (Ok items, []) /\
    length items = 2.
Proof.
  assert (R : rectangular four_columns).
  { unfold rectangular. simpl. repeat constructor. }
  assert (H : 4 <= length (columns four_columns)) by (simpl; lia).
  assert (A : accessed_positionally (Pd := pandas_3) (columns four_columns))
    by exact (range_index_positional (Pd := pandas_3) 4).
  split; [exact R|]. split; [exact H|]. split; [exact A|].
  exact (proj2 (@rows_never_skipped fragment pandas_3 four_columns R H A)).
Defined.

(* ================================================================== *)
(** * The order of floats *)

Lemma SFcompare_rank (x y : float) :
  is_nan x = false -> is_nan y = false ->
  SFcompare x y = Some (lex (rank x) (rank y)).
Proof.
  destruct x as [sx|sx| |sx mx ex], y as [sy|sy| |sy my ey]; simpl;
    try discriminate; intros _ _;
    try (destruct sx; reflexivity); try (destruct sy; reflexivity);
    try (destruct sx, sy; reflexivity).
  destruct sx, sy; simpl; try reflexivity;
    rewrite ?Z.compare_opp, ?(Z.compare_antisym ex ey);
    destruct (ex ?= ey)%Z; reflexivity.
Qed.

Lemma lex_Lt (a b : Z * Z * Z) : lex a b = Lt <-> lt3 a b.
Proof.
  destruct a as [[a1 a2] a3], b as [[b1 b2] b3]. unfold lex, lt3.
  destruct (Z.compare_spec a1 b1); [|split; [lia | reflexivity]|split; [discriminate | lia]].
  destruct (Z.compare_spec a2 b2); [|split; [lia | reflexivity]|split; [discriminate | lia]].
  destruct (Z.compare_spec a3 b3); split; try discriminate; try reflexivity; lia.
Qed.

Lemma lex_Eq (a b : Z * Z * Z) : lex a b = Eq <-> a = b.
Proof.
  destruct a as [[a1 a2] a3], b as [[b1 b2] b3]. unfold lex.
  destruct (Z.compare_spec a1 b1);
    [|split; [discriminate | intros E; inversion E; lia]
     |split; [discriminate | intros E; inversion E; lia]].
  destruct (Z.compare_spec a2 b2);
    [|split; [discriminate | intros E; inversion E; lia]
     |split; [discriminate | intros E; inversion E; lia]].
  destruct (Z.compare_spec a3 b3); subst;
    split; try discriminate; try reflexivity; intros E; inversion E; lia.
Qed.

Lemma lt3_trans (a b c : Z * Z * Z) : lt3 a b -> lt3 b c -> lt3 a c.
Proof.
  destruct a as [[a1 a2] a3], b as [[b1 b2] b3], c as [[c1 c2] c3].
  unfold lt3. lia.
Qed.

Lemma lt3_total (a b : Z * Z * Z) : lt3 a b \/ a = b \/ lt3 b a.
Proof.
  destruct a as [[a1 a2] a3], b as [[b1 b2] b3]. unfold lt3.
  destruct (Z.lt_total a1 b1) as [|[|]]; try lia.
  destruct (Z.lt_total a2 b2) as [|[|]]; try lia.
  destruct (Z.lt_total a3 b3) as [|[|]]; try lia.
  subst. right. left. reflexivity.
Qed.

Lemma lt3_irrefl (a : Z * Z * Z) : ~ lt3 a a.
Proof. destruct a as [[a1 a2] a3]. unfold lt3. lia. Qed.

Lemma num_gtb_rank (x y : number) :
  isnan x = false -> isnan y = false ->
  (num_gtb x y = true <-> lt3 (rk y) (rk x)).
Proof.
  intros Hx Hy. unfold num_gtb, SFltb, rk.
  rewrite (SFcompare_rank _ _ Hy Hx), <- lex_Lt.
  destruct (lex (rank (to_float y)) (rank (to_float x)));
    split; try discriminate; reflexivity.
Qed.

Lemma num_eqb_rank (x y : number) :
  isnan x = false -> isnan y = false ->
  (num_eqb x y = true <-> rk x = rk y).
Proof.
  intros Hx Hy. unfold num_eqb, SFeqb, rk.
  rewrite (SFcompare_rank _ _ Hx Hy), <- lex_Eq.
  destruct (lex (rank (to_float x)) (rank (to_float y)));
    split; try discriminate; reflexivity.
Qed.

Lemma max_loop_greatest (l : list number) (x : number) :
  (forall y, In y (x :: l) -> isnan y = false) ->
  greatest (fold_left (fun m y => if num_gtb y m then y else m) l x) (x :: l).
Proof.
  revert x. induction l as [|z l IH]; intros x N; simpl.
  - split; [left; reflexivity|]. intros y [<- | []]. apply lt3_irrefl.
  - assert (Nx : isnan x = false) by (apply N; left; reflexivity).
    assert (Nz : isnan z = false) by (apply N; right; left; reflexivity).
    assert (Nl : forall y, In y l -> isnan y = false)
      by (intros y Hy; apply N; right; right; exact Hy).
    pose proof (num_gtb_rank z x Nz Nx) as G.
    destruct (num_gtb z x) eqn:E.
    + assert (L : lt3 (rk x) (rk z)) by (apply G; reflexivity).
      destruct (IH z) as [I B].
      { intros y [<- | Hy]; auto. }
      split.
      * destruct I as [<- | I]; [right; left; reflexivity | right; right; exact I].
      * intros y [<- | [<- | Hy]].
        -- intros C. apply (B z (or_introl eq_refl)).
           exact (lt3_trans _ _ _ C L).
        -- apply B. left. reflexivity.
        -- apply B. right. exact Hy.
    + assert (L : ~ lt3 (rk x) (rk z)) by (intros C; apply G in C; discriminate).
      destruct (IH x) as [I B].
      { intros y [<- | Hy]; auto. }
      split.
      * destruct I as [<- | I]; [left; reflexivity | right; right; exact I].
      * intros y [<- | [<- | Hy]].
        -- apply B. left. reflexivity.
        -- intros C. destruct (lt3_total (rk x) (rk z)) as [T | [T | T]].
           ++ exact (L T).
           ++ apply (B x (or_introl eq_refl)). rewrite T. exact C.
           ++ apply (B x (or_introl eq_refl)). exact (lt3_trans _ _ _ C T).
        -- apply B. right. exact Hy.
Qed.

Lemma greatest_unique (r r' : number) (l l' : list number) :
  Permutation l l' -> greatest r l -> greatest r' l' -> rk r = rk r'.
Proof.
  intros Hp [I B] [I' B'].
  assert (J : In r l') by (apply (Permutation_in _ Hp), I).
  assert (J' : In r' l) by (apply (Permutation_in _ (Permutation_sym Hp)), I').
  destruct (lt3_total (rk r) (rk r')) as [T | [T | T]].
  - exfalso. exact (B r' J' T).
  - exact T.
  - exfalso. exact (B' r J T).
Qed.

Lemma maximum_permutation (l l' : list number) :
  Permutation l l' ->
  (forall y, In y l -> isnan y = false) ->
  exists m m', maximum l = Ok m /\ maximum l' = Ok m' /\ num_eqb m m' = true.
Proof.
  intros Hp N.
  assert (N' : forall y, In y l' -> isnan y = false).
  { intros y Hy. apply N, (Permutation_in _ (Permutation_sym Hp)), Hy. }
  destruct l as [|x l], l' as [|x' l'].
  - exists IntZero, IntZero. repeat split.
  - apply Permutation_nil in Hp. discriminate.
  - apply Permutation_sym, Permutation_nil in Hp. discriminate.
  - pose proof (max_loop_greatest N) as G.
    pose proof (max_loop_greatest N') as G'.
    eexists _, _. split; [reflexivity|]. split; [reflexivity|].
    apply num_eqb_rank.
    + apply N, G.
    + apply N', G'.
    + exact (greatest_unique Hp G G').
Qed.

(* ================================================================== *)
(** * Aggregation *)

Lemma Permutation_filter (A : Type) (f : A -> bool) (l l' : list A) :
  Permutation l l' -> Permutation (filter f l) (filter f l').
Proof.
  induction 1 as [|x l l' _ IH|x y l|l l' l'' _ IH1 _ IH2]; simpl.
  - constructor.
  - destruct (f x); [constructor|]; exact IH.
  - destruct (f x), (f y); try apply Permutation_refl. constructor.
  - exact (Permutation_trans IH1 IH2).
Qed.

Lemma Counter_filter (data : list item) (k : str) :
  dimension_counts data k =
  length (filter (fun it => str_eqb (dimensao it) k) data).
Proof.
  unfold dimension_counts, Counter.
  induction data as [|it data IH]; simpl; [reflexivity|].
  rewrite (str_eqb_sym k (dimensao it)).
  destruct (str_eqb (dimensao it) k); simpl; rewrite IH; reflexivity.
Qed.

Lemma average_returns (Py : Interpreter) (values : list number) :
  exists x, average values = Ok x.
Proof.
  destruct values as [|v values]; simpl; eexists; reflexivity.
Qed.

Lemma maximum_returns (values : list number) : exists x, maximum values = Ok x.
Proof.
  destruct values as [|v values]; simpl; eexists; reflexivity.
Qed.

Lemma py_abs_isnan (x : number) : isnan (py_abs x) = isnan x.
Proof. destruct x as [|[s|s| |s m e]]; reflexivity. Qed.

Lemma positive_values_permutation (data data' : list item) :
  Permutation data data' ->
  Permutation (positive_values data) (positive_values data').
Proof. intros H. apply Permutation_map, Permutation_filter, H. Qed.

Lemma negative_values_permutation (data data' : list item) :
  Permutation data data' ->
  Permutation (negative_values data) (negative_values data').
Proof. intros H. apply Permutation_map, Permutation_filter, H. Qed.

Section Normalized.
Context {U : Unicode} {Pd : Pandas}.

Lemma normalized_permutation (rs rs' : list Series) :
  Permutation rs rs' -> Permutation (normalized rs) (normalized rs').
Proof.
  unfold normalized.
  induction 1 as [|x l l' _ IH|x y l|l l' l'' _ IH1 _ IH2]; simpl.
  - constructor.
  - apply Permutation_app_head, IH.
  - rewrite !app_assoc. apply Permutation_app_tail, Permutation_app_comm.
  - exact (Permutation_trans IH1 IH2).
Qed.

Lemma normalized_item (rs : list Series) (it : item) :
  In it (normalized rs) -> exists row, In row rs /\ process_row row = Ok it.
Proof.
  unfold normalized. rewrite in_flat_map. intros [row [I H]].
  exists row. split; [exact I|].
  destruct (process_row row) as [it'|e]; [|contradiction].
  destruct H as [<- | []]. reflexivity.
Qed.

Lemma normalized_not_nan (rs : list Series) (it : item) :
  In it (normalized rs) -> isnan (valor it) = false.
Proof.
  intros H. destruct (normalized_item rs it H) as [row [_ E]].
  exact (proj2 (process_row_item row E)).
Qed.

(** The rows of the two ledgers, as any pandas iterates them. *)
Lemma ledger_permutation :
  Permutation (iterrows ledger) (iterrows ledger_reordered).
Proof.
  rewrite !iterrows_text by reflexivity.
  apply Permutation_map. unfold ledger, ledger_reordered, rows.
  apply perm_skip.
  apply (@Permutation_cons_app _ _ [_] [_; _]). simpl.
  apply (@Permutation_cons_app _ _ [_; _] []). simpl.
  apply perm_swap.
Qed.

End Normalized.

(** C8: a category without records has average 0 and maximum 0, the
    integer 0, and computing the averages and the maxima never raises. *)
Theorem empty_category_is_zero (Py : Interpreter) (data : list item) :
  (dimension_counts data (lit "Positivo") = 0 ->
   exists a m, avg_values data = Ok [IntZero; a] /\
               max_values data = Ok [IntZero; m]) /\
  (dimension_counts data (lit "Negativo") = 0 ->
   exists a m, avg_values data = Ok [a; IntZero] /\
               max_values data = Ok [m; IntZero]).
Proof.
  unfold avg_values, max_values.
  destruct (average_returns Py (positive_values data)) as [ap Eap].
  destruct (average_returns Py (negative_values data)) as [an Ean].
  destruct (maximum_returns (positive_values data)) as [mp Emp].
  destruct (maximum_returns (negative_values data)) as [mn Emn].
  split; intros H; rewrite Counter_filter in H;
    apply length_zero_iff_nil in H.
  - assert (E : positive_values data = []) by (unfold positive_values; rewrite H; reflexivity).
    rewrite E, Ean, Emn. simpl. eexists _, _. split; reflexivity.
  - assert (E : negative_values data = []) by (unfold negative_values; rewrite H; reflexivity).
    rewrite E, Eap, Emp. simpl. eexists _, _. split; reflexivity.
Qed.

Lemma empty_category_is_zero_witness :
  dimension_counts [positivo IntZero] (lit "Negativo") = 0 /\
  exists a m,
    avg_values (Py := cpython_312) [positivo IntZero] = Ok [a; IntZero] /\
    max_values [positivo IntZero] = Ok [m; IntZero].
Proof.
  split; [reflexivity|].
  exact (proj2 (empty_category_is_zero cpython_312 [positivo IntZero]) eq_refl).
Defined.

(** C9, as amended: the records of a permuted sequence have the same count
    in each category, and the same maximum in each category as numbers
    (equal under [==]), provided no value is NaN, which holds of the
    values [clean_numeric] gives.  The averages are left out: a sum of
    floats depends on the order of its terms. *)
Theorem aggregation_under_permutation (data data' : list item) :
  Permutation data data' ->
  (forall it, In it data -> isnan (valor it) = false) ->
  (forall k, dimension_counts data k = dimension_counts data' k) /\
  exists m m',
    max_values data = Ok m /\ max_values data' = Ok m' /\
    Forall2 (fun a b => num_eqb a b = true) m m'.
Proof.
  intros Hp N. split.
  - intros k. rewrite !Counter_filter.
    apply Permutation_length, Permutation_filter, Hp.
  - destruct (maximum_permutation (positive_values_permutation Hp))
      as [p [p' [Ep [Ep' Pp]]]].
    { unfold positive_values. intros y Hy. apply in_map_iff in Hy.
      destruct Hy as [it [<- Hit]]. apply filter_In in Hit. apply N, Hit. }
    destruct (maximum_permutation (negative_values_permutation Hp))
      as [n [n' [En [En' Pn]]]].
    { unfold negative_values. intros y Hy. apply in_map_iff in Hy.
      destruct Hy as [it [<- Hit]]. apply filter_In in Hit.
      rewrite py_abs_isnan. apply N, Hit. }
    exists [p; n], [p'; n']. unfold max_values.
    rewrite Ep, Ep', En, En'. simpl. repeat constructor; assumption.
Qed.

Lemma aggregation_under_permutation_witness :
  Permutation ledger_records ledger_reordered_records /\
  (forall k, dimension_counts ledger_records k =
             dimension_counts ledger_reordered_records k).
Proof.
  pose proof (@normalized_permutation fragment pandas_3 _ _
                (@ledger_permutation pandas_3)) as Hp.
  split; [exact Hp|].
  exact (proj1 (aggregation_under_permutation Hp
                  (@normalized_not_nan fragment pandas_3
                     (iterrows (Pd := pandas_3) ledger)))).
Defined.

(** C9, as stated, fails on the average: the records of [ledger] and those
    of [ledger_reordered] are permutations of each other, yet the average
    of the first is 0.0 (the 1 is lost beside 1e40 and 1e20) and the
    average of the second is 1/5, whether the interpreter sums with a
    compensation or without. *)
Lemma average_depends_on_order :
  Permutation ledger_records ledger_reordered_records /\
  avg_values (Py := cpython_311) ledger_records =
    Ok [Float (S754_zero false); IntZero] /\
  avg_values (Py := cpython_311) ledger_reordered_records =
    Ok [Float (fdiv (float_of_Z 1) (float_of_Z 5)); IntZero] /\
  avg_values (Py := cpython_312) ledger_records =
    Ok [Float (S754_zero false); IntZero] /\
  avg_values (Py := cpython_312) ledger_reordered_records =
    Ok [Float (fdiv (float_of_Z 1) (float_of_Z 5)); IntZero] /\
  num_eqb (Float (S754_zero false))
          (Float (fdiv (float_of_Z 1) (float_of_Z 5))) = false.
Proof.
  split; [exact (@normalized_permutation fragment pandas_3 _ _
                   (@ledger_permutation pandas_3))|].
  repeat split; vm_compute; reflexivity.
Qed.

(* ================================================================== *)
(** * Charts and preview *)

Lemma dict_get_set (V : Type) (k k' : label) (v : V) (d : dict V) :
  dict_get (dict_set k v d) k' =
  if label_eqb k' k then Some v else dict_get d k'.
Proof.
  induction d as [|[k0 v0] d IH]; simpl.
  - reflexivity.
  - destruct (label_eqb k k0) eqn:E; simpl.
    + apply label_eqb_eq in E. subst k0.
      destruct (label_eqb k' k); reflexivity.
    + rewrite IH. destruct (label_eqb k' k0) eqn:E0; [|reflexivity].
      apply label_eqb_eq in E0. subst k0.
      destruct (label_eqb k' k) eqn:E1; [|reflexivity].
      apply label_eqb_eq in E1. subst k'. rewrite label_eqb_refl in E.
      discriminate.
Qed.

Lemma dict_get_fold (V W : Type) (f : V -> W) (k : label)
    (kvs : list (label * V)) (d : dict W) :
  dict_get (fold_left (fun d kv => dict_set (fst kv) (f (snd kv)) d) kvs d) k =
  match lookup_last k kvs with
  | Some v => Some (f v)
  | None => dict_get d k
  end.
Proof.
  revert d. induction kvs as [|[k0 v0] kvs IH]; intros d; simpl.
  - reflexivity.
  - rewrite IH. destruct (lookup_last k kvs); [reflexivity|].
    rewrite dict_get_set. destruct (label_eqb k k0); reflexivity.
Qed.

Lemma lookup_last_map (V W : Type) (f : V -> W) (k : label)
    (cols : list label) (row : list V) :
  lookup_last k (combine cols (map f row)) =
  option_map f (lookup_last k (combine cols row)).
Proof.
  revert row. induction cols as [|k0 cols IH]; intros [|v row]; simpl;
    try reflexivity.
  rewrite IH. destruct (lookup_last k (combine cols row)); simpl;
    [reflexivity|]. destruct (label_eqb k k0); reflexivity.
Qed.

Lemma lookup_last_In (V : Type) (k : label) (cols : list label)
    (row : list V) (v : V) :
  lookup_last k (combine cols row) = Some v -> In k cols.
Proof.
  revert row v. induction cols as [|k0 cols IH]; intros [|v0 row] v; simpl;
    try discriminate.
  destruct (lookup_last k (combine cols row)) eqn:E.
  - intros _. right. exact (IH _ _ E).
  - destruct (label_eqb k k0) eqn:E0; [|discriminate].
    intros _. left. symmetry. apply label_eqb_eq. exact E0.
Qed.

Section ChartFacts.
Context {Py : Interpreter} {P : Plotter}.

Lemma draw_charts_cases (data : list item) :
  exists avg mx,
    avg_values data = Ok avg /\ max_values data = Ok mx /\
    draw_charts data =
    (png <- pie_png [dimension_counts data (lit "Positivo");
                     dimension_counts data (lit "Negativo")] ;;
     png' <- bar_png avg mx ;;
     Ok [(dimension_chart, png); (value_chart, png')]).
Proof.
  unfold draw_charts, avg_values, max_values.
  destruct (average_returns Py (positive_values data)) as [ap ->].
  destruct (average_returns Py (negative_values data)) as [an ->].
  destruct (maximum_returns (positive_values data)) as [mp ->].
  destruct (maximum_returns (negative_values data)) as [mn ->].
  simpl. eexists _, _. split; [reflexivity|]. split; reflexivity.
Qed.

End ChartFacts.

(** What an entry of the preview gives for a label. *)
Lemma preview_entry (df : DataFrame) (i : nat) (d : dict pyval) :
  nth_error (preview_of df) i = Some d ->
  exists row,
    i < 5 /\ nth_error (rows df) i = Some row /\
    d = to_record (columns df) (map nan_to_none row) /\
    forall k, dict_get d k =
              option_map shown (lookup_last k (combine (columns df) row)).
Proof.
  unfold preview_of. intros H.
  rewrite nth_error_map in H.
  destruct (nth_error (firstn 5 (rows df)) i) as [row|] eqn:E; [|discriminate].
  injection H as <-.
  assert (I : i < 5).
  { assert (S : nth_error (firstn 5 (rows df)) i <> None) by (rewrite E; discriminate).
    apply nth_error_Some in S. rewrite length_firstn in S. lia. }
  assert (R : nth_error (rows df) i = Some row).
  { rewrite nth_error_firstn in E. destruct (Nat.ltb_spec i 5); [exact E | lia]. }
  exists row. split; [exact I|]. split; [exact R|]. split; [reflexivity|].
  intros k. unfold to_record. rewrite dict_get_fold, lookup_last_map.
  destruct (lookup_last k (combine (columns df) row)) as [[[]| |]|]; reflexivity.
Qed.

(** C1, as amended: the request gives its preview, its count and its
    records whatever the plotting library does; when both charts are drawn
    the payload carries both images; when drawing the pie raises, or
    drawing the bars raises after the pie was drawn, both images of the
    payload are the empty string and the error is printed. *)
Theorem chart_failure_blanks_both (U : Unicode) (Pd : Pandas)
    (Py : Interpreter) (P : Plotter) (df : DataFrame) :
  4 <= length (columns df) ->
  exists body out avg mx,
    upload_file df = (Response200 body, out) /\
    preview body = preview_of df /\
    total_records body = length (rows df) /\
    analysis body = normalized (iterrows df) /\
    avg_values (analysis body) = Ok avg /\
    max_values (analysis body) = Ok mx /\
    let counts := [dimension_counts (analysis body) (lit "Positivo");
                   dimension_counts (analysis body) (lit "Negativo")] in
    (forall png png', pie_png counts = Ok png -> bar_png avg mx = Ok png' ->
       charts body = [(dimension_chart, png); (value_chart, png')] /\
       out = skipped (iterrows df)) /\
    (forall e, pie_png counts = Raise e ->
       charts body = blank_charts /\
       out = skipped (iterrows df) ++ [ChartErrorLog e]) /\
    (forall png e, pie_png counts = Ok png -> bar_png avg mx = Raise e ->
       charts body = blank_charts /\
       out = skipped (iterrows df) ++ [ChartErrorLog e]).
Proof.
  intros H.
  destruct (draw_charts_cases (normalized (iterrows df))) as [avg [mx [Ea [Em Ed]]]].
  eexists _, _, avg, mx. split; [apply upload_file_wide, H|]. simpl.
  do 5 (split; [reflexivity || assumption|]).
  unfold generate_charts. rewrite Ed. split; [|split].
  - intros png png' E1 E2. rewrite E1. simpl. rewrite E2. simpl.
    split; [reflexivity | apply app_nil_r].
  - intros e E1. rewrite E1. simpl. split; reflexivity.
  - intros png e E1 E2. rewrite E1. simpl. rewrite E2. simpl. split; reflexivity.
Qed.

Lemma chart_failure_blanks_both_witness :
  4 <= length (columns four_columns) /\
  exists body out,
    upload_file (U := fragment) (Pd := pandas_3) (Py := cpython_312)
      (P := bars_fail) four_columns = (Response200 body, out) /\
    charts body = blank_charts.
Proof.
  assert (H : 4 <= length (columns four_columns)) by (simpl; lia).
  split; [exact H|].
  destruct (@chart_failure_blanks_both fragment pandas_3 cpython_312 bars_fail
              four_columns H)
    as [body [out [avg [mx [E [_ [_ [_ [_ [_ [_ [_ F]]]]]]]]]]]].
  exists body, out. split; [exact E|].
  exact (proj1 (F _ _ eq_refl eq_refl)).
Defined.

(** C1, as stated, fails: the pie of the two example rows is drawn, the
    bars raise, and the payload carries the empty string in place of the
    image of the pie. *)
Lemma drawn_pie_is_discarded :
  exists png body out,
    @pie_png bars_fail [1; 1] = Ok png /\
    upload_file (U := fragment) (Pd := pandas_3) (Py := cpython_312)
      (P := bars_fail) four_columns = (Response200 body, out) /\
    dimension_counts (analysis body) (lit "Positivo") = 1 /\
    dimension_counts (analysis body) (lit "Negativo") = 1 /\
    dict_get (charts body) dimension_chart = Some [] /\
    png <> [].
Proof.
  eexists _, _, _. split; [reflexivity|]. split; [vm_compute; reflexivity|].
  repeat split; try (vm_compute; reflexivity). discriminate.
Qed.

(** C2, as amended: with at least 4 columns the [preview] of the payload
    is made from the table itself, not from the records: it has 5 entries
    or as many as the table has rows; entry [i] gives, for a label, the
    stored cell of row [i] in the last column that carries the label, a
    missing cell (NaN, NaT or None) shown as None, and nothing for a label
    that is no column; so it holds neither NaN nor NaT. *)
Theorem preview_is_raw_head (U : Unicode) (Pd : Pandas) (Py : Interpreter)
    (P : Plotter) (df : DataFrame) :
  4 <= length (columns df) ->
  exists body out,
    upload_file df = (Response200 body, out) /\
    length (preview body) = Nat.min 5 (length (rows df)) /\
    (forall i d, nth_error (preview body) i = Some d ->
       exists row,
         nth_error (rows df) i = Some row /\
         forall k, dict_get d k =
                   option_map shown (lookup_last k (combine (columns df) row))) /\
    (forall d k v, In d (preview body) -> dict_get d k = Some v ->
                   v <> OfCell (Missing NaN) /\ v <> OfCell (Missing NaT)).
Proof.
  intros H. eexists _, _. split; [apply upload_file_wide, H|]. simpl.
  split; [|split].
  - unfold preview_of. rewrite length_map, length_firstn. reflexivity.
  - intros i d Hd. destruct (preview_entry df i Hd) as [row [_ [R [_ G]]]].
    exists row. split; [exact R | exact G].
  - intros d k v Hd Hv. apply In_nth_error in Hd. destruct Hd as [i Hd].
    destruct (preview_entry df i Hd) as [row [_ [_ [_ G]]]].
    rewrite G in Hv.
    destruct (lookup_last k (combine (columns df) row)) as [c|]; [|discriminate].
    injection Hv as <-. unfold shown.
    destruct c as [[]| |]; split; discriminate.
Qed.

Lemma preview_is_raw_head_witness :
  4 <= length (columns four_columns) /\
  exists body out,
    upload_file (U := fragment) (Pd := pandas_3) (Py := cpython_312)
      (P := both_drawn) four_columns = (Response200 body, out) /\
    length (preview body) = 2.
Proof.
  assert (H : 4 <= length (columns four_columns)) by (simpl; lia).
  split; [exact H|].
  destruct (@preview_is_raw_head fragment pandas_3 cpython_312 both_drawn
              four_columns H)
    as [body [out [E [L _]]]].
  exists body, out. split; [exact E | exact L].
Defined.

(** C2, as stated, fails: for the two example rows the preview holds the
    cells under the column labels 0 to 3, the value still the text
    "-12.5", while the records of [analysis] hold the fields
    "localidade", "dimensao", "indicador" and "valor". *)
Lemma preview_is_not_analysis :
  exists body out,
    upload_file (U := fragment) (Pd := pandas_3) (Py := cpython_312)
      (P := both_drawn) four_columns = (Response200 body, out) /\
    preview body <> map item_dict (firstn 5 (analysis body)).
Proof.
  eexists _, _. split; [vm_compute; reflexivity|].
  vm_compute. discriminate.
Qed.

(* ================================================================== *)
(** * [clean_numeric]: the texts that parse *)

Section Parsing.
Context {U : Unicode}.

Lemma is_decimal_ascii (c : char) :
  is_ascii c = true -> is_decimal c = ascii_isdigit c.
Proof.
  intros H. unfold is_decimal. rewrite (todecimal_ascii c H).
  destruct (ascii_isdigit c); reflexivity.
Qed.

(** The value of digits read after an accumulator. *)
Lemma read_digits_app (ds rest : str) (acc : N) (n : nat) :
  forallb is_decimal ds = true ->
  read_digits (ds ++ rest) acc n =
  read_digits rest
    (fold_left (fun a c => (10 * a + match todecimal c with
                                     | Some d => d
                                     | None => 0
                                     end)%N) ds acc)
    (n + length ds).
Proof.
  revert acc n. induction ds as [|c ds IH]; intros acc n H.
  - simpl. rewrite Nat.add_0_r. reflexivity.
  - simpl in H. apply andb_true_iff in H as [Hc Hds].
    unfold is_decimal in Hc. cbn [app read_digits fold_left length].
    destruct (todecimal c) as [d|]; [|discriminate].
    rewrite (IH _ _ Hds). f_equal. lia.
Qed.

Lemma read_digits_stop (rest : str) (acc : N) (n : nat) :
  match rest with [] => true | c :: _ => negb (is_decimal c) end = true ->
  read_digits rest acc n = (acc, n, rest).
Proof.
  destruct rest as [|c r]; [reflexivity|]. unfold is_decimal. cbn [read_digits].
  destruct (todecimal c); [discriminate | reflexivity].
Qed.

(** What the digits read are. *)
Lemma read_digits_shape (s : str) (acc : N) (n : nat) (m : N) (n' : nat)
    (rest : str) :
  read_digits s acc n = (m, n', rest) ->
  exists ds,
    s = ds ++ rest /\ forallb is_decimal ds = true /\
    n' = n + length ds /\
    m = fold_left (fun a c => (10 * a + match todecimal c with
                                        | Some d => d
                                        | None => 0
                                        end)%N) ds acc /\
    match rest with [] => true | c :: _ => negb (is_decimal c) end = true.
Proof.
  revert acc n. induction s as [|c s IH]; intros acc n R; cbn [read_digits] in R.
  - injection R as <- <- <-. exists []. repeat split. simpl. lia.
  - destruct (todecimal c) as [d|] eqn:E.
    + destruct (IH _ _ R) as [ds [-> [D [-> [-> S]]]]].
      exists (c :: ds). cbn [app forallb fold_left length]. unfold is_decimal at 1.
      rewrite E. repeat split; try assumption. lia.
    + injection R as <- <- <-. exists []. repeat split; [simpl; lia|].
      unfold is_decimal. rewrite E. reflexivity.
Qed.

Lemma keep_minus : keep 45%N = true.
Proof. unfold keep. apply orb_true_r. Qed.

Lemma keep_point : keep 46%N = true.
Proof. unfold keep. apply orb_true_iff. right. reflexivity. Qed.

Lemma keep_plus : keep 43%N = false.
Proof. unfold keep. rewrite isdigit_ascii by reflexivity. reflexivity. Qed.

Lemma filter_keep_In (s : str) (c : char) :
  In c (filter keep s) -> keep c = true.
Proof. intros H. apply filter_In in H. apply H. Qed.

(** The sign of a kept text: a minus sign or nothing. *)
Lemma read_sign_kept (t : str) :
  (forall c, In c t -> keep c = true) ->
  read_sign t = match t with
                | c :: r => if char_eqb c 45%N then (true, r) else (false, t)
                | [] => (false, t)
                end.
Proof.
  intros K. unfold read_sign. destruct t as [|c r]; [reflexivity|].
  destruct (char_eqb c 45%N); [reflexivity|].
  destruct (char_eqb c 43%N) eqn:E; [|reflexivity].
  apply N.eqb_eq in E. subst c.
  pose proof keep_plus as Kp. rewrite (K 43%N (or_introl eq_refl)) in Kp.
  discriminate Kp.
Qed.

Lemma float_of_decimal_opp (m : N) (k : nat) :
  float_of_decimal true m k = SFopp (float_of_decimal false m k).
Proof.
  unfold float_of_decimal. destruct m as [|p]; [reflexivity|].
  destruct (SFdiv_core_binary prec emax (Z.pos p) 0 (10 ^ Z.of_nat k) 0)
    as [[q e] l].
  unfold binary_round_aux.
  destruct (shr_fexp prec emax q e l) as [mrs' e'].
  destruct (shr_fexp prec emax _ e' loc_Exact) as [mrs'' e''].
  destruct (shr_m mrs''); try reflexivity.
  destruct (_ <=? _)%Z; reflexivity.
Qed.

End Parsing.

Section Grammar.
Context {U : Unicode}.

Lemma digits_value_app (ds1 ds2 : str) :
  fold_left (fun a c => (10 * a + match todecimal c with
                                  | Some d => d
                                  | None => 0
                                  end)%N) ds2 (digits_value ds1) =
  digits_value (ds1 ++ ds2).
Proof. unfold digits_value. rewrite fold_left_app. reflexivity. Qed.

Lemma is_decimal_not_sign (c : char) :
  is_decimal c = true -> char_eqb c 45%N = false /\ char_eqb c 43%N = false.
Proof.
  intros H. unfold char_eqb. split.
  - destruct (N.eqb_spec c 45); [|reflexivity]. subst c.
    rewrite is_decimal_ascii in H by reflexivity. discriminate.
  - destruct (N.eqb_spec c 43); [|reflexivity]. subst c.
    rewrite is_decimal_ascii in H by reflexivity. discriminate.
Qed.

Lemma is_decimal_point : is_decimal 46%N = false.
Proof. rewrite is_decimal_ascii by reflexivity. reflexivity. Qed.

(** The digits and the point, once the sign is read. *)
Lemma unsigned_accepts (neg pt : bool) (ds1 ds2 : str) :
  forallb is_decimal ds1 = true -> forallb is_decimal ds2 = true ->
  (pt = false -> ds2 = []) -> ds1 ++ ds2 <> [] ->
  (let '(ip, ni, s2) := read_digits (ds1 ++ point_text pt ++ ds2) 0%N 0 in
   let '(m, nf, s3) := read_fraction s2 ip ni in
   match s3, (ni + nf)%nat with
   | [], S _ => Ok (float_of_decimal neg m nf)
   | _, _ => Raise (ValueError (lit "could not convert string to float"))
   end) =
  Ok (float_of_decimal neg (digits_value (ds1 ++ ds2)) (length ds2)).
Proof.
  intros D1 D2 Hp Hne.
  rewrite (read_digits_app _ _ _ _ D1). simpl Nat.add.
  fold (digits_value ds1).
  destruct pt.
  - cbn [point_text app]. rewrite read_digits_stop
      by (rewrite is_decimal_point; reflexivity).
    cbn [read_fraction]. unfold char_eqb. rewrite N.eqb_refl.
    rewrite <- (app_nil_r ds2) at 1.
    rewrite (read_digits_app _ _ _ _ D2). cbn [read_digits].
    rewrite digits_value_app.
    replace (length ds1 + length ds2 - length ds1) with (length ds2) by lia.
    destruct (length ds1 + length ds2) eqn:E; [|reflexivity].
    exfalso. apply Hne. apply length_zero_iff_nil. rewrite length_app. exact E.
  - rewrite (Hp eq_refl) in *. cbn [point_text app read_digits read_fraction].
    rewrite app_nil_r in *. simpl length. rewrite Nat.add_0_r.
    destruct (length ds1) eqn:E; [|reflexivity].
    exfalso. apply Hne. apply length_zero_iff_nil. exact E.
Qed.

Lemma py_float_accepts (neg pt : bool) (ds1 ds2 : str) :
  forallb is_decimal ds1 = true -> forallb is_decimal ds2 = true ->
  (pt = false -> ds2 = []) -> ds1 ++ ds2 <> [] ->
  py_float (sign_text neg ++ ds1 ++ point_text pt ++ ds2) =
  Ok (float_of_decimal neg (digits_value (ds1 ++ ds2)) (length ds2)).
Proof.
  intros D1 D2 Hp Hne. unfold py_float.
  assert (S : read_sign (sign_text neg ++ ds1 ++ point_text pt ++ ds2) =
              (neg, ds1 ++ point_text pt ++ ds2)).
  { destruct neg; [reflexivity|]. cbn [sign_text app]. unfold read_sign.
    destruct ds1 as [|c ds1].
    - destruct pt; [reflexivity|]. rewrite (Hp eq_refl) in Hne.
      exfalso. apply Hne. reflexivity.
    - simpl in D1. apply andb_true_iff in D1 as [Dc _]. cbn [app].
      destruct (is_decimal_not_sign c Dc) as [-> ->]. reflexivity. }
  rewrite S. apply unsigned_accepts; assumption.
Qed.

Lemma py_float_shape (t : str) (f : float) :
  (forall c, In c t -> keep c = true) ->
  py_float t = Ok f ->
  exists neg pt ds1 ds2,
    t = sign_text neg ++ ds1 ++ point_text pt ++ ds2 /\
    forallb is_decimal ds1 = true /\ forallb is_decimal ds2 = true /\
    (pt = false -> ds2 = []) /\ ds1 ++ ds2 <> [] /\
    f = float_of_decimal neg (digits_value (ds1 ++ ds2)) (length ds2).
Proof.
  intros K. unfold py_float. rewrite (read_sign_kept t K).
  assert (G : forall neg s1,
             t = sign_text neg ++ s1 ->
             (let '(ip, ni, s2) := read_digits s1 0%N 0 in
              let '(m, nf, s3) := read_fraction s2 ip ni in
              match s3, (ni + nf)%nat with
              | [], S _ => Ok (float_of_decimal neg m nf)
              | _, _ => Raise (ValueError (lit "could not convert string to float"))
              end) = Ok f ->
             exists neg pt ds1 ds2,
               t = sign_text neg ++ ds1 ++ point_text pt ++ ds2 /\
               forallb is_decimal ds1 = true /\ forallb is_decimal ds2 = true /\
               (pt = false -> ds2 = []) /\ ds1 ++ ds2 <> [] /\
               f = float_of_decimal neg (digits_value (ds1 ++ ds2)) (length ds2)).
  { intros neg s1 Et.
    destruct (read_digits s1 0%N 0) as [[ip ni] s2] eqn:R1.
    destruct (read_digits_shape _ _ _ R1) as [ds1 [E1 [D1 [N1 [M1 _]]]]].
    simpl in N1. fold (digits_value ds1) in M1. subst ip ni s1.
    unfold read_fraction. destruct s2 as [|c r].
    - destruct (length ds1 + 0) eqn:E; [discriminate|].
      intros F. injection F as <-. exists neg, false, ds1, [].
      rewrite !app_nil_r. cbn [point_text app]. rewrite app_nil_r in Et.
      repeat split; try assumption.
      intros Z. subst ds1. simpl in E. discriminate.
    - destruct (char_eqb c 46%N) eqn:Ec.
      + apply N.eqb_eq in Ec. subst c.
        destruct (read_digits r (digits_value ds1) (length ds1))
          as [[m n'] r'] eqn:R2.
        destruct (read_digits_shape _ _ _ R2) as [ds2 [E2 [D2 [N2 [M2 _]]]]].
        rewrite digits_value_app in M2. subst m n' r.
        destruct r' as [|x r']; [|discriminate].
        replace (length ds1 + length ds2 - length ds1) with (length ds2) by lia.
        destruct (length ds1 + length ds2) eqn:E; [discriminate|].
        intros F. injection F as <-. exists neg, true, ds1, ds2.
        rewrite app_nil_r in Et. cbn [point_text app].
        repeat split; try assumption; try discriminate.
        intros Z. apply (f_equal (@length _)) in Z. rewrite length_app in Z.
        simpl in Z. lia.
      + discriminate. }
  destruct t as [|c r].
  - apply (G false []). reflexivity.
  - destruct (char_eqb c 45%N) eqn:Ec.
    + apply N.eqb_eq in Ec. subst c. apply (G true r). reflexivity.
    + apply (G false (c :: r)). reflexivity.
Qed.

End Grammar.

Section CleanNumericShape.
Context {U : Unicode}.

Lemma decimal_no_minus (ds : str) :
  forallb is_decimal ds = true -> ~ In 45%N ds.
Proof.
  intros D H. rewrite forallb_forall in D. specialize (D _ H).
  rewrite is_decimal_ascii in D by reflexivity. discriminate.
Qed.

Lemma decimal_no_point (ds : str) :
  forallb is_decimal ds = true -> count_occ N.eq_dec ds 46%N = 0.
Proof.
  intros D. apply count_occ_not_In. intros H.
  rewrite forallb_forall in D. specialize (D _ H).
  rewrite is_decimal_point in D. discriminate.
Qed.

End CleanNumericShape.

Section CleanNumericGrammar.
Context {U : Unicode}.

Lemma filter_keep_retained (s : str) : filter keep s = filter retained s.
Proof.
  apply filter_ext. intros c. unfold keep, retained. cbn. unfold char_eqb.
  destruct (isdigit c), (c =? 46)%N, (c =? 45)%N; reflexivity.
Qed.

(** The float [clean_numeric] returns and the text it is read from. *)
Lemma clean_numeric_float_value (v : cell) (f : float) :
  clean_numeric v = Ok (Float f) <->
  isna v = false /\
  exists neg pt ds1 ds2,
    filter keep (str_of v) = sign_text neg ++ ds1 ++ point_text pt ++ ds2 /\
    forallb is_decimal ds1 = true /\ forallb is_decimal ds2 = true /\
    (pt = false -> ds2 = []) /\ ds1 ++ ds2 <> [] /\
    f = float_of_decimal neg (digits_value (ds1 ++ ds2)) (length ds2).
Proof.
  unfold clean_numeric. split.
  - destruct (isna v); [discriminate|]. intros H. split; [reflexivity|].
    destruct (filter keep (str_of v)) as [|c r] eqn:E; [discriminate|].
    destruct (py_float (c :: r)) as [g|e] eqn:F; simpl in H; [|discriminate].
    injection H as ->. apply py_float_shape; [|exact F].
    rewrite <- E. apply filter_keep_In.
  - intros [Hn [neg [pt [ds1 [ds2 [E [D1 [D2 [Hp [Hne ->]]]]]]]]]].
    rewrite Hn, E.
    rewrite (@py_float_accepts U neg pt ds1 ds2 D1 D2 Hp Hne).
    destruct (sign_text neg ++ ds1 ++ point_text pt ++ ds2) eqn:T; [|reflexivity].
    exfalso. destruct neg; [discriminate|]. simpl in T.
    apply app_eq_nil in T as [-> T]. apply app_eq_nil in T as [_ ->].
    apply Hne. reflexivity.
Qed.

End CleanNumericGrammar.

(** X1: [clean_numeric] returns a float exactly when the value is not
    missing and the characters it retains are an optional minus sign,
    decimal digits, and optionally a point followed by decimal digits, with
    at least one digit; in every other case it returns the integer 0. *)
Theorem clean_numeric_float_iff (U : Unicode) (v : cell) :
  ((exists f, clean_numeric v = Ok (Float f)) <->
   isna v = false /\
   exists neg pt ds1 ds2,
     filter retained (str_of v) =
       sign_text neg ++ ds1 ++ point_text pt ++ ds2 /\
     forallb is_decimal ds1 = true /\ forallb is_decimal ds2 = true /\
     (pt = false -> ds2 = []) /\ ds1 ++ ds2 <> []) /\
  ((forall f, clean_numeric v <> Ok (Float f)) -> clean_numeric v = Ok IntZero).
Proof.
  split; [split|].
  - intros [f H]. apply clean_numeric_float_value in H.
    destruct H as [Hn [neg [pt [ds1 [ds2 [E [D1 [D2 [Hp [Hne _]]]]]]]]]].
    split; [exact Hn|]. exists neg, pt, ds1, ds2.
    rewrite <- filter_keep_retained. repeat split; assumption.
  - intros [Hn [neg [pt [ds1 [ds2 [E [D1 [D2 [Hp Hne]]]]]]]]].
    eexists. apply clean_numeric_float_value. split; [exact Hn|].
    exists neg, pt, ds1, ds2. rewrite filter_keep_retained.
    repeat split; assumption.
  - intros H. destruct (clean_numeric_cases v) as [Z | [f [E _]]]; [exact Z|].
    exfalso. exact (H f E).
Qed.

Lemma clean_numeric_float_iff_witness :
  (forall f, @clean_numeric fragment (Text (lit "1.234.5")) <> Ok (Float f)) /\
  @clean_numeric fragment (Text (lit "1.234.5")) = Ok IntZero /\
  exists f, @clean_numeric fragment (Text (lit "-12.5kg")) = Ok (Float f).
Proof.
  assert (N : forall f,
            @clean_numeric fragment (Text (lit "1.234.5")) <> Ok (Float f))
    by (intros f; vm_compute; discriminate).
  split; [exact N|]. split.
  - exact (proj2 (@clean_numeric_float_iff fragment (Text (lit "1.234.5"))) N).
  - apply (proj1 (@clean_numeric_float_iff fragment (Text (lit "-12.5kg")))).
    split; [reflexivity|].
    exists true, true, (lit "12"), (lit "5").
    repeat split; try reflexivity; discriminate.
Defined.

(** X2: a minus sign that is kept anywhere but in the first place makes
    [clean_numeric] return 0: dates such as 2020-01-15 and ranges such as
    10-20 are read as 0. *)
Theorem interior_minus_gives_zero (U : Unicode) (v : cell) (a b : str) :
  filter keep (str_of v) = a ++ [45%N] ++ b -> a <> [] ->
  clean_numeric v = Ok IntZero.
Proof.
  intros E Ha. destruct (clean_numeric_cases v) as [Z | [f [_ F]]]; [exact Z|].
  exfalso.
  destruct (py_float_shape _ (filter_keep_In (str_of v)) F)
    as [neg [pt [ds1 [ds2 [T [D1 [D2 _]]]]]]].
  assert (R : ~ In 45%N (ds1 ++ point_text pt ++ ds2)).
  { intros H. apply in_app_or in H as [H | H]; [exact (decimal_no_minus _ D1 H)|].
    apply in_app_or in H as [H | H]; [|exact (decimal_no_minus _ D2 H)].
    destruct pt; simpl in H; [destruct H as [H | []]; discriminate | exact H]. }
  rewrite E in T. destruct neg; cbn [sign_text app] in T.
  - destruct a as [|x a]; [apply Ha; reflexivity|].
    injection T as _ T. apply R. rewrite <- T. apply in_or_app. right. left.
    reflexivity.
  - apply R. rewrite <- T. apply in_or_app. right. left. reflexivity.
Qed.

Lemma interior_minus_gives_zero_witness :
  filter (@keep fragment) (str_of (Text (lit "2020-01-15"))) =
    lit "2020" ++ [45%N] ++ lit "01-15" /\
  @clean_numeric fragment (Text (lit "2020-01-15")) = Ok IntZero.
Proof.
  assert (E : filter (@keep fragment) (str_of (Text (lit "2020-01-15"))) =
              lit "2020" ++ [45%N] ++ lit "01-15") by reflexivity.
  split; [exact E|].
  apply (@interior_minus_gives_zero fragment (Text (lit "2020-01-15")) _ _ E).
  discriminate.
Defined.

(** X3: two points among the kept characters make [clean_numeric] return
    0, whatever stands around them. *)
Theorem two_points_give_zero (U : Unicode) (v : cell) (a b c : str) :
  filter keep (str_of v) = a ++ [46%N] ++ b ++ [46%N] ++ c ->
  clean_numeric v = Ok IntZero.
Proof.
  intros E. destruct (clean_numeric_cases v) as [Z | [f [_ F]]]; [exact Z|].
  exfalso.
  destruct (py_float_shape _ (filter_keep_In (str_of v)) F)
    as [neg [pt [ds1 [ds2 [T [D1 [D2 _]]]]]]].
  apply (f_equal (fun t => count_occ N.eq_dec t 46%N)) in T.
  cbv beta in T. rewrite E, !count_occ_app in T. unfold char in T.
  rewrite (decimal_no_point _ D1), (decimal_no_point _ D2) in T.
  destruct neg, pt; simpl in T; lia.
Qed.

Lemma two_points_give_zero_witness :
  filter (@keep fragment) (str_of (Text (lit "R$ 1.234.500"))) =
    lit "1" ++ [46%N] ++ lit "234" ++ [46%N] ++ lit "500" /\
  @clean_numeric fragment (Text (lit "R$ 1.234.500")) = Ok IntZero.
Proof.
  assert (E : filter (@keep fragment) (str_of (Text (lit "R$ 1.234.500"))) =
              lit "1" ++ [46%N] ++ lit "234" ++ [46%N] ++ lit "500")
    by reflexivity.
  split; [exact E|].
  exact (@two_points_give_zero fragment (Text (lit "R$ 1.234.500")) _ _ _ E).
Defined.

(** X4: a minus sign put before a text whose kept characters do not start
    with one negates the result: the parsed float changes sign, and 0 stays
    0. *)
Theorem leading_minus_negates (U : Unicode) (s : str) :
  (forall r, filter keep s <> 45%N :: r) ->
  clean_numeric (Text (45%N :: s)) =
  (x <- clean_numeric (Text s) ;; Ok (py_neg x)).
Proof.
  intros H. unfold clean_numeric. cbn [isna str_of filter].
  rewrite keep_minus.
  pose proof (filter_keep_In s) as K.
  destruct (filter keep s) as [|c r] eqn:E; [reflexivity|].
  unfold py_float at 1. cbn [read_sign]. unfold char_eqb at 1.
  rewrite N.eqb_refl.
  unfold py_float. rewrite (read_sign_kept (c :: r) K).
  destruct (char_eqb c 45%N) eqn:Ec.
  { apply N.eqb_eq in Ec. subst c. exfalso. exact (H r eq_refl). }
  destruct (read_digits (c :: r) 0%N 0) as [[ip ni] s2].
  destruct (read_fraction s2 ip ni) as [[m nf] s3].
  destruct s3; [|reflexivity]. destruct (ni + nf); [reflexivity|].
  simpl. rewrite float_of_decimal_opp. reflexivity.
Qed.

Lemma leading_minus_negates_witness :
  (forall r, filter (@keep fragment) (lit "12.5kg") <> 45%N :: r) /\
  @clean_numeric fragment (Text (45%N :: lit "12.5kg")) =
  Ok (Float minus_12_5).
Proof.
  assert (H : forall r, filter (@keep fragment) (lit "12.5kg") <> 45%N :: r)
    by (intros r; discriminate).
  split; [exact H|].
  rewrite (@leading_minus_negates fragment (lit "12.5kg") H). reflexivity.
Defined.

(** X5: characters that are not kept change nothing wherever they stand:
    units, currency signs, spaces and commas are ignored, so that a decimal
    comma is lost and "1,5" is read as 15. *)
Theorem unkept_characters_are_ignored (U : Unicode) (a junk b : str) :
  (forall c, In c junk -> keep c = false) ->
  clean_numeric (Text (a ++ junk ++ b)) = clean_numeric (Text (a ++ b)) /\
  clean_numeric (Scalar (a ++ junk ++ b)) = clean_numeric (Scalar (a ++ b)).
Proof.
  intros H.
  assert (J : filter keep junk = []).
  { induction junk as [|c junk IH]; [reflexivity|]. simpl.
    rewrite (H c (or_introl eq_refl)). apply IH.
    intros x Hx. apply H. right. exact Hx. }
  unfold clean_numeric. cbn [isna str_of].
  rewrite !filter_app, J. split; reflexivity.
Qed.

Lemma unkept_characters_are_ignored_witness :
  (forall c, In c (lit ",") -> @keep fragment c = false) /\
  @clean_numeric fragment (Text (lit "1" ++ lit "," ++ lit "5")) =
  @clean_numeric fragment (Text (lit "15")).
Proof.
  assert (H : forall c, In c (lit ",") -> @keep fragment c = false)
    by (intros c [<- | []]; reflexivity).
  split; [exact H|].
  exact (proj1 (@unkept_characters_are_ignored fragment (lit "1") (lit ",") (lit "5") H)).
Defined.

(* ================================================================== *)
(** * [process_data]: rows and records *)

Section RowsAndRecords.
Context {U : Unicode} {Pd : Pandas}.

Lemma normalized_cons_ok (row : Series) (rs : list Series) (it : item) :
  process_row row = Ok it -> normalized (row :: rs) = it :: normalized rs.
Proof. intros E. unfold normalized. simpl. rewrite E. reflexivity. Qed.

Lemma normalized_nth (rs : list Series) (i : nat) (row : Series) :
  (forall r, In r rs -> exists it, process_row r = Ok it) ->
  nth_error rs i = Some row ->
  exists it, process_row row = Ok it /\ nth_error (normalized rs) i = Some it.
Proof.
  revert i. induction rs as [|r rs IH]; intros i W H.
  - destruct i; discriminate.
  - destruct (W r (or_introl eq_refl)) as [it0 E0].
    rewrite (@normalized_cons_ok r rs it0 E0).
    destruct i as [|i]; simpl in H.
    + injection H as <-. exists it0. split; [exact E0 | reflexivity].
    + apply IH; [|exact H]. intros x Hx. apply W. right. exact Hx.
Qed.

Lemma normalized_app (a b : list Series) :
  normalized (a ++ b) = normalized a ++ normalized b.
Proof. unfold normalized. apply flat_map_app. Qed.

Lemma skipped_app (a b : list Series) :
  skipped (a ++ b) = skipped a ++ skipped b.
Proof. unfold skipped. apply flat_map_app. Qed.

Lemma normalized_dimensao (rs : list Series) (it : item) :
  In it (normalized rs) ->
  dimensao it = lit "Negativo" \/ dimensao it = lit "Positivo".
Proof.
  intros H. destruct (normalized_item rs it H) as [row [_ E]].
  exact (proj1 (process_row_item row E)).
Qed.

Lemma iterrows_nil (cols : list label) :
  iterrows {| columns := cols; rows := [] |} = [].
Proof.
  apply length_zero_iff_nil. rewrite iterrows_length. reflexivity.
Qed.

Lemma holds_text_app (a b : list (list cell)) :
  holds_text a = true -> holds_text (a ++ b) = true.
Proof.
  unfold holds_text. rewrite existsb_app. intros ->. reflexivity.
Qed.

End RowsAndRecords.

(** X6: in a table of at least 4 columns with one cell per column, whose
    cells are accessed positionally, the record at each position is built
    from the row at that position: the locality and the indicator are the
    texts of values 0 and 2, or "N/A" where the value is missing, and the
    value is [clean_numeric] of value 3.  The values are the stored cells
    when the table holds a text. *)
Theorem records_follow_rows (U : Unicode) (Pd : Pandas) (df : DataFrame) :
  rectangular df ->
  4 <= length (columns df) ->
  accessed_positionally (columns df) ->
  exists items,
    process_data df = (Ok items, []) /\
    (forall i row,
       nth_error (iterrows df) i = Some row ->
       exists it c0 c1 c2 c3 rest,
         nth_error items i = Some it /\
         values row = c0 :: c1 :: c2 :: c3 :: rest /\
         localidade it = (if isna c0 then lit "N/A" else str_of c0) /\
         indicador it = (if isna c2 then lit "N/A" else str_of c2) /\
         clean_numeric c3 = Ok (valor it)) /\
    (holds_text (rows df) = true -> map values (iterrows df) = rows df).
Proof.
  intros R H A.
  assert (G : forall row, In row (iterrows df) ->
              exists it, process_row row = Ok it).
  { intros row Hin.
    destruct (@process_row_positional _ _ df row R H A Hin)
      as [c0 [c1 [c2 [c3 [rest [x [_ [_ E]]]]]]]].
    eexists. exact E. }
  exists (normalized (iterrows df)). split; [|split].
  - rewrite (process_data_wide df H). f_equal.
    apply skipped_nil_iff. exact G.
  - intros i row Hi.
    destruct (@normalized_nth _ _ _ i row G Hi) as [it [E N]].
    destruct (@process_row_positional _ _ df row R H A (nth_error_In _ _ Hi))
      as [c0 [c1 [c2 [c3 [rest [x [V [C P]]]]]]]].
    rewrite P in E. injection E as <-.
    eexists _, c0, c1, c2, c3, rest. split; [exact N|]. split; [exact V|].
    simpl. unfold notna. destruct (isna c0), (isna c2); simpl;
      repeat split; exact C.
  - intros T. rewrite (iterrows_text df T), map_map. simpl. apply map_id.
Qed.

Lemma records_follow_rows_witness :
  rectangular headed /\
  4 <= length (columns headed) /\
  accessed_positionally (Pd := pandas_2) (columns headed) /\
  exists items,
    process_data (U := fragment) (Pd := pandas_2) headed = (Ok items, []).
Proof.
  assert (R : rectangular headed).
  { unfold rectangular. simpl. repeat constructor. }
  assert (H : 4 <= length (columns headed)) by (simpl; lia).
  assert (A : accessed_positionally (Pd := pandas_2) (columns headed))
    by exact (@text_index_positional pandas_2 (columns headed) eq_refl eq_refl).
  split; [exact R|]. split; [exact H|]. split; [exact A|].
  destruct (@records_follow_rows fragment pandas_2 headed R H A) as [items [E _]].
  exists items. exact E.
Defined.

(** X8: rows are processed one by one and in order: the loop over the rows
    of one table followed by those of another gives the records and the
    output of the first followed by those of the second.  When both tables
    hold a text, these are the rows of the table that holds the rows of
    both; a table of numbers alone is iterated in the common type of its
    columns, which the rows of another table can change. *)
Theorem process_data_app (U : Unicode) (Pd : Pandas) (cols : list label)
    (a b : list (list cell)) :
  4 <= length cols ->
  exists ia oa ib ob,
    process_data {| columns := cols; rows := a |} = (Ok ia, oa) /\
    process_data {| columns := cols; rows := b |} = (Ok ib, ob) /\
    for_rows (iterrows {| columns := cols; rows := a |} ++
              iterrows {| columns := cols; rows := b |}) [] [] =
    (ia ++ ib, oa ++ ob) /\
    (holds_text a = true -> holds_text b = true ->
     process_data {| columns := cols; rows := a ++ b |} =
     (Ok (ia ++ ib), oa ++ ob)).
Proof.
  intros H.
  exists (normalized (iterrows {| columns := cols; rows := a |})),
         (skipped (iterrows {| columns := cols; rows := a |})),
         (normalized (iterrows {| columns := cols; rows := b |})),
         (skipped (iterrows {| columns := cols; rows := b |})).
  rewrite !process_data_wide by exact H.
  split; [reflexivity|]. split; [reflexivity|]. split.
  - rewrite for_rows_spec, normalized_app, skipped_app. reflexivity.
  - intros Ta Tb.
    assert (Tab : holds_text (a ++ b) = true) by (apply holds_text_app, Ta).
    rewrite (iterrows_text {| columns := cols; rows := a |} Ta).
    rewrite (iterrows_text {| columns := cols; rows := b |} Tb).
    rewrite (iterrows_text {| columns := cols; rows := a ++ b |} Tab).
    cbn [columns rows]. rewrite map_app, normalized_app, skipped_app.
    reflexivity.
Qed.

Lemma process_data_app_witness :
  4 <= length (columns four_columns) /\
  exists ia oa ib ob,
    process_data (U := fragment) (Pd := pandas_3)
      {| columns := columns four_columns; rows := rows four_columns |} =
    (Ok ia, oa) /\
    process_data (U := fragment) (Pd := pandas_3)
      {| columns := columns four_columns; rows := rows ledger |} =
    (Ok ib, ob) /\
    process_data (U := fragment) (Pd := pandas_3)
      {| columns := columns four_columns;
         rows := rows four_columns ++ rows ledger |} =
    (Ok (ia ++ ib), oa ++ ob).
Proof.
  assert (H : 4 <= length (columns four_columns)) by (simpl; lia).
  split; [exact H|].
  destruct (@process_data_app fragment pandas_3 (columns four_columns)
              (rows four_columns) (rows ledger) H)
    as [ia [oa [ib [ob [Ea [Eb [_ Eab]]]]]]].
  exists ia, oa, ib, ob. split; [exact Ea|]. split; [exact Eb|].
  exact (Eab eq_refl eq_refl).
Defined.

(** X9: in ASCII text the letters "neg" are found in any case and
    anywhere: a cell 1 such as "Nao NEGativo" or "non-negative" is
    classified "Negativo". *)
Theorem neg_in_any_case (U : Unicode) (Pd : Pandas) (row : Series)
    (c0 c2 c3 : cell) (a w b : str) :
  getitem row 0 = Ok (One c0) ->
  getitem row 1 = Ok (One (Text (a ++ w ++ b))) ->
  getitem row 2 = Ok (One c2) ->
  getitem row 3 = Ok (One c3) ->
  forallb is_ascii (a ++ w ++ b) = true ->
  map ascii_lower w = lit "neg" ->
  exists it,
    process_row row = Ok it /\
    dimensao it = lit "Negativo".
Proof.
  intros G0 G1 G2 G3 A W.
  destruct (@process_row_cells _ _ row c0 (Text (a ++ w ++ b)) c2 c3
              G0 G1 G2 G3) as [x [_ [_ E]]].
  eexists. split; [exact E|]. simpl.
  rewrite (lower_ascii _ A), !map_app, W.
  assert (C : contains (lit "neg")
                (map ascii_lower a ++ lit "neg" ++ map ascii_lower b) = true).
  { apply contains_spec. exists (map ascii_lower a), (map ascii_lower b).
    reflexivity. }
  rewrite C. reflexivity.
Qed.

Lemma neg_in_any_case_witness :
  forallb is_ascii (lit "non-" ++ lit "NEG" ++ lit "ative") = true /\
  map ascii_lower (lit "NEG") = lit "neg" /\
  exists it,
    process_row (U := fragment) (Pd := pandas_3)
      {| index := [LInt 0; LInt 1; LInt 2; LInt 3];
         values := [Text (lit "SP");
                    Text (lit "non-" ++ lit "NEG" ++ lit "ative");
                    Text (lit "IDH"); Text (lit "1")] |} = Ok it /\
    dimensao it = lit "Negativo".
Proof.
  split; [reflexivity|]. split; [reflexivity|].
  exact (@neg_in_any_case fragment pandas_3
           {| index := [LInt 0; LInt 1; LInt 2; LInt 3];
              values := [Text (lit "SP");
                         Text (lit "non-" ++ lit "NEG" ++ lit "ative");
                         Text (lit "IDH"); Text (lit "1")] |}
           (Text (lit "SP")) (Text (lit "IDH")) (Text (lit "1"))
           (lit "non-") (lit "NEG") (lit "ative")
           eq_refl eq_refl eq_refl eq_refl eq_refl eq_refl).
Defined.

(* ================================================================== *)
(** * [generate_charts]: the numbers behind the charts *)

Lemma filter_complement_length (A : Type) (p q : A -> bool) (l : list A) :
  (forall x, In x l -> p x = negb (q x)) ->
  length (filter p l) + length (filter q l) = length l.
Proof.
  induction l as [|x l IH]; intros H; [reflexivity|]. simpl.
  rewrite (H x (or_introl eq_refl)).
  destruct (q x); simpl; rewrite <- IH by (intros y Hy; apply H; right; exact Hy);
    lia.
Qed.

Lemma max_loop_In (l : list number) (x : number) :
  In (fold_left (fun m y => if num_gtb y m then y else m) l x) (x :: l).
Proof.
  revert x. induction l as [|z l IH]; intros x; simpl.
  - left. reflexivity.
  - destruct (IH (if num_gtb z x then z else x)) as [E | I].
    + rewrite <- E. destruct (num_gtb z x); [right; left | left]; reflexivity.
    + right. right. exact I.
Qed.

Lemma py_abs_not_negative (x : number) : num_gtb IntZero (py_abs x) = false.
Proof.
  destruct x as [|[s|s| |s m e]]; reflexivity.
Qed.

(** X10: the two slices of the pie account for every record of
    [process_data]: the counts of "Positivo" and "Negativo" add up to the
    number of records, and each count is the number of values of its
    category. *)
Theorem counts_cover_the_records (U : Unicode) (Pd : Pandas)
    (rs : list Series) :
  let data := normalized rs in
  dimension_counts data (lit "Positivo") +
  dimension_counts data (lit "Negativo") = length data /\
  length (positive_values data) = dimension_counts data (lit "Positivo") /\
  length (negative_values data) = dimension_counts data (lit "Negativo").
Proof.
  intros data. rewrite !Counter_filter. split.
  - apply filter_complement_length. intros it Hit.
    destruct (normalized_dimensao rs it Hit) as [-> | ->]; reflexivity.
  - unfold positive_values, negative_values. rewrite !length_map.
    split; reflexivity.
Qed.

Lemma py_abs_magnitude (x : number) :
  isnan x = false ->
  num_gtb IntZero (py_abs x) = false /\
  (num_eqb (py_abs x) x = true \/ num_eqb (py_abs x) (py_neg x) = true).
Proof.
  intros N. split; [apply py_abs_not_negative|].
  destruct x as [|[s|s| |s m e]]; try discriminate N.
  - left. reflexivity.
  - left. destruct s; reflexivity.
  - destruct s; [right | left]; reflexivity.
  - destruct s; [right | left]; apply num_eqb_refl; reflexivity.
Qed.

(** X11: the values of the category "Negativo" enter the bar chart as
    absolute values: there is one for each record of the category, in
    order, it is not below 0, and it equals the value of the record or its
    opposite; their maximum is not below 0 either. *)
Theorem negative_values_are_magnitudes (data : list item) :
  (forall it, In it data -> isnan (valor it) = false) ->
  Forall2 (fun it x =>
             num_gtb IntZero x = false /\
             (num_eqb x (valor it) = true \/
              num_eqb x (py_neg (valor it)) = true))
          (filter (fun it => str_eqb (dimensao it) (lit "Negativo")) data)
          (negative_values data) /\
  exists m, maximum (negative_values data) = Ok m /\
            num_gtb IntZero m = false.
Proof.
  intros N. split.
  - unfold negative_values.
    assert (M : forall it,
              In it (filter (fun it => str_eqb (dimensao it) (lit "Negativo")) data) ->
              isnan (valor it) = false).
    { intros it H. apply filter_In in H. apply N, H. }
    induction (filter (fun it => str_eqb (dimensao it) (lit "Negativo")) data)
      as [|it l IH]; simpl; constructor.
    + apply py_abs_magnitude, M. left. reflexivity.
    + apply IH. intros x Hx. apply M. right. exact Hx.
  - assert (A : forall x, In x (negative_values data) -> num_gtb IntZero x = false).
    { unfold negative_values. intros x Hx. apply in_map_iff in Hx.
      destruct Hx as [it [<- _]]. apply py_abs_not_negative. }
    destruct (negative_values data) as [|v vs] eqn:E.
    + exists IntZero. split; reflexivity.
    + eexists. split; [reflexivity|]. apply A. apply max_loop_In.
Qed.

Lemma negative_values_are_magnitudes_witness :
  (forall it, In it [negativo (Float minus_12_5); positivo IntZero] ->
              isnan (valor it) = false) /\
  negative_values [negativo (Float minus_12_5); positivo IntZero] =
    [Float (SFopp minus_12_5)] /\
  Forall2 (fun it x =>
             num_gtb IntZero x = false /\
             (num_eqb x (valor it) = true \/
              num_eqb x (py_neg (valor it)) = true))
          [negativo (Float minus_12_5)] [Float (SFopp minus_12_5)].
Proof.
  assert (N : forall it,
            In it [negativo (Float minus_12_5); positivo IntZero] ->
            isnan (valor it) = false)
    by (intros it [<- | [<- | []]]; reflexivity).
  split; [exact N|]. split; [reflexivity|].
  exact (proj1 (@negative_values_are_magnitudes
                  [negativo (Float minus_12_5); positivo IntZero] N)).
Defined.

(** X12: the maximum of values none of which is NaN is one of the values
    and no value is greater; of no value at all it is the integer 0. *)
Theorem maximum_is_greatest (values : list number) :
  (forall y, In y values -> isnan y = false) ->
  exists m,
    maximum values = Ok m /\
    (values = [] -> m = IntZero) /\
    (values <> [] ->
     In m values /\ forall y, In y values -> num_gtb y m = false).
Proof.
  intros N. destruct values as [|x l].
  - exists IntZero. split; [reflexivity|]. split; [reflexivity|].
    intros H. exfalso. apply H. reflexivity.
  - destruct (max_loop_greatest N) as [I B].
    eexists. split; [reflexivity|]. split; [discriminate|].
    intros _. split; [exact I|]. intros y Hy.
    destruct (num_gtb y _) eqn:G; [|reflexivity].
    exfalso. apply (B y Hy). apply (num_gtb_rank y _ (N y Hy) (N _ I)).
    exact G.
Qed.

Lemma maximum_is_greatest_witness :
  (forall y, In y [Float minus_12_5; IntZero] -> isnan y = false) /\
  exists m,
    maximum [Float minus_12_5; IntZero] = Ok m /\
    In m [Float minus_12_5; IntZero].
Proof.
  assert (N : forall y, In y [Float minus_12_5; IntZero] -> isnan y = false)
    by (intros y [<- | [<- | []]]; reflexivity).
  split; [exact N|].
  destruct (@maximum_is_greatest [Float minus_12_5; IntZero] N)
    as [m [E [_ G]]].
  exists m. split; [exact E|]. apply G. discriminate.
Defined.

(** X13: [generate_charts] always returns the two keys, 'dimension_chart'
    then 'value_chart', and prints nothing unless it returns both images
    empty. *)
Theorem charts_have_both_keys (Py : Interpreter) (P : Plotter)
    (data : list item) :
  exists a b,
    fst (generate_charts data) = [(dimension_chart, a); (value_chart, b)] /\
    (snd (generate_charts data) = [] \/
     (a = [] /\ b = [] /\ exists e, snd (generate_charts data) = [ChartErrorLog e])).
Proof.
  destruct (draw_charts_cases data) as [avg [mx [_ [_ E]]]].
  unfold generate_charts. rewrite E.
  destruct (pie_png _) as [png|e]; simpl.
  - destruct (bar_png avg mx) as [png'|e]; simpl.
    + exists png, png'. split; [reflexivity | left; reflexivity].
    + exists [], []. split; [reflexivity|]. right. repeat split.
      exists e. reflexivity.
  - exists [], []. split; [reflexivity|]. right. repeat split.
    exists e. reflexivity.
Qed.

(** X14: a table of at least 4 columns and no row gives the answer 200
    with an empty preview, 0 records and an empty analysis; the pie is
    asked for the counts 0 and 0 and the bars for averages and maxima 0,
    and the charts are what the plotting library makes of them. *)
Theorem empty_table (U : Unicode) (Pd : Pandas) (Py : Interpreter)
    (P : Plotter) (cols : list label) :
  4 <= length cols ->
  exists charts out,
    upload_file {| columns := cols; rows := [] |} =
    (Response200 {| preview := []; total_records := 0; analysis := [];
                    charts := charts |}, out) /\
    (charts, out) =
    match (png <- pie_png [0; 0] ;;
           png' <- bar_png [IntZero; IntZero] [IntZero; IntZero] ;;
           Ok [(dimension_chart, png); (value_chart, png')]) with
    | Ok c => (c, [])
    | Raise e => (blank_charts, [ChartErrorLog e])
    end.
Proof.
  intros H. eexists _, _. split.
  - rewrite upload_file_wide by exact H. rewrite iterrows_nil. reflexivity.
  - cbn [rows normalized flat_map skipped app].
    unfold generate_charts, draw_charts. cbn.
    destruct (pie_png [0; 0]) as [png|e]; cbn; [|reflexivity].
    destruct (bar_png [IntZero; IntZero] [IntZero; IntZero]) as [png'|e]; reflexivity.
Qed.

Lemma empty_table_witness :
  4 <= length (columns four_columns) /\
  exists charts out,
    upload_file (U := fragment) (Pd := pandas_3) (Py := cpython_312)
      (P := bars_fail)
      {| columns := columns four_columns; rows := [] |} =
    (Response200 {| preview := []; total_records := 0; analysis := [];
                    charts := charts |}, out).
Proof.
  assert (H : 4 <= length (columns four_columns)) by (simpl; lia).
  split; [exact H|].
  destruct (@empty_table fragment pandas_3 cpython_312 bars_fail
              (columns four_columns) H)
    as [c [o [E _]]].
  exists c, o. exact E.
Defined.

(* ================================================================== *)
(** * The route: which requests are answered how *)

Lemma prefixb_app (p q : str) : prefixb p (p ++ q) = true.
Proof. apply prefixb_spec. exists q. reflexivity. Qed.

Lemma prefixb_app_short (p s t : str) :
  length p <= length s -> prefixb p (s ++ t) = prefixb p s.
Proof.
  revert s. induction p as [|x p IH]; intros s H; [reflexivity|].
  destruct s as [|y s]; simpl in H; [lia|]. simpl.
  rewrite IH by lia. reflexivity.
Qed.

Lemma endswith_app (a b : str) : endswith (a ++ b) b = true.
Proof. unfold endswith. rewrite rev_app_distr. apply prefixb_app. Qed.

Lemma endswith_app_short (a b c : str) :
  length c <= length b -> endswith (a ++ b) c = endswith b c.
Proof.
  intros H. unfold endswith. rewrite rev_app_distr.
  apply prefixb_app_short. rewrite !length_rev. exact H.
Qed.

Section RouteFacts.
Context {U : Unicode} {Pd : Pandas} {Py : Interpreter} {P : Plotter}
        {L : Libraries}.

Lemma respond_status (read : result DataFrame) :
  snd (fst (respond read)) = 200 \/ snd (fst (respond read)) = 500.
Proof.
  unfold respond. destruct read as [df|e]; [|right; reflexivity].
  destruct (upload_file df) as [[data|error] out]; [|right; reflexivity].
  destruct (dumps data); [left | right]; reflexivity.
Qed.

Lemma respond_200 (read : result DataFrame) :
  snd (fst (respond read)) = 200 ->
  exists df data text,
    read = Ok df /\ 4 <= length (columns df) /\
    dumps data = Ok text /\
    respond read = ((Dumped text, 200), snd (upload_file df)) /\
    fst (upload_file df) = Response200 data.
Proof.
  unfold respond. destruct read as [df|e]; [|discriminate].
  destruct (Nat.lt_ge_cases (length (columns df)) 4) as [N | W].
  - rewrite (upload_file_narrow df N). discriminate.
  - destruct (upload_file df) as [[data|error] out] eqn:E; [|discriminate].
    destruct (dumps data) as [text|e] eqn:D; [|discriminate].
    intros _. exists df, data, text.
    rewrite ?E.
    split; [reflexivity|]. split; [exact W|]. split; [exact D|].
    split; reflexivity.
Qed.

End RouteFacts.

(** X15: the answer is 200, 400 or 500.  It is 400 exactly when the
    request has no file, or the file has an empty name, or the lowercased
    name ends in none of ".csv", ".xls" and ".xlsx"; then nothing is
    printed and no library is called: the answer is the same whatever
    pandas, the interpreter, the readers, the encoder and the plotting
    library are. *)
Theorem upload_rejections (U : Unicode) (Pd : Pandas) (Py : Interpreter)
    (P : Plotter) (L : Libraries) (request : Request) :
  let status := snd (fst (upload request)) in
  (status = 200 \/ status = 400 \/ status = 500) /\
  (status = 400 <->
   match files request with
   | None => True
   | Some file =>
       filename file = [] \/
       (endswith (lower (filename file)) (lit ".csv") = false /\
        endswith (lower (filename file)) (lit ".xls") = false /\
        endswith (lower (filename file)) (lit ".xlsx") = false)
   end) /\
  (status = 400 ->
   snd (upload request) = [] /\
   forall (Pd' : Pandas) (Py' : Interpreter) (P' : Plotter) (L' : Libraries),
     @upload U Pd' Py' P' L' request = @upload U Pd Py P L request).
Proof.
  unfold upload. destruct (files request) as [file|].
  2: { cbn. repeat split; auto. }
  destruct (str_eqb (filename file) []) eqn:En.
  { apply str_eqb_eq in En. cbn. rewrite En. cbn. repeat split; auto. }
  assert (Ne : filename file <> []).
  { intros Z. rewrite Z in En. discriminate. }
  destruct (endswith (lower (filename file)) (lit ".csv")) eqn:C.
  { cbn zeta.
    pose proof (respond_status (read_csv (stream file)
       (if match hasHeaders request with
           | Some v => str_eqb v (lit "true")
           | None => false
           end then Some 0 else None))) as S.
    set (status := snd (fst (respond _))) in *.
    assert (N4 : status <> 400) by (destruct S as [S | S]; rewrite S; discriminate).
    split; [destruct S; auto|]. split.
    - split; [intros Z; contradiction|].
      intros [Z | [Z _]]; [contradiction | discriminate].
    - intros Z; contradiction. }
  destruct (endswith (lower (filename file)) (lit ".xls") ||
            endswith (lower (filename file)) (lit ".xlsx")) eqn:X.
  { cbn zeta.
    pose proof (respond_status (read_excel (stream file)
       (if match hasHeaders request with
           | Some v => str_eqb v (lit "true")
           | None => false
           end then Some 0 else None))) as S.
    set (status := snd (fst (respond _))) in *.
    assert (N4 : status <> 400) by (destruct S as [S | S]; rewrite S; discriminate).
    split; [destruct S; auto|]. split.
    - split; [intros Z; contradiction|].
      intros [Z | [_ [Z1 Z2]]]; [contradiction|].
      rewrite Z1, Z2 in X. discriminate.
    - intros Z; contradiction. }
  apply orb_false_iff in X as [X1 X2].
  cbn. repeat split; auto.
Qed.

Lemma upload_rejections_witness :
  snd (fst (@upload fragment pandas_2 cpython_311 both_drawn csv_only
              pdf_request)) = 400 /\
  @upload fragment pandas_3 cpython_312 bars_fail all_fail pdf_request =
  @upload fragment pandas_2 cpython_311 both_drawn csv_only pdf_request.
Proof.
  assert (S : snd (fst (@upload fragment pandas_2 cpython_311 both_drawn
                          csv_only pdf_request)) = 400)
    by reflexivity.
  split; [exact S|].
  exact (proj2 (proj2 (proj2 (@upload_rejections fragment pandas_2 cpython_311
                                 both_drawn csv_only pdf_request)) S)
           pandas_3 cpython_312 bars_fail all_fail).
Defined.

(** X16: an answer 200 carries the dump of a payload: a reader returned a
    table of at least 4 columns, the payload was built from that table
    with [total_records] its number of rows and [analysis] the records of
    its rows, and [json.dumps] returned the body. *)
Theorem upload_success (U : Unicode) (Pd : Pandas) (Py : Interpreter)
    (P : Plotter) (L : Libraries) (request : Request) :
  snd (fst (upload request)) = 200 ->
  exists file df data text,
    files request = Some file /\
    (read_csv (stream file) (header_of request) = Ok df \/
     read_excel (stream file) (header_of request) = Ok df) /\
    4 <= length (columns df) /\
    fst (upload_file df) = Response200 data /\
    total_records data = length (rows df) /\
    analysis data = normalized (iterrows df) /\
    dumps data = Ok text /\
    fst (fst (upload request)) = Dumped text.
Proof.
  unfold upload, header_of. destruct (files request) as [file|]; [|discriminate].
  destruct (str_eqb (filename file) []); [discriminate|].
  assert (H : (if match hasHeaders request with
                  | Some v => str_eqb v (lit "true")
                  | None => false
                  end then Some 0 else None) =
              match hasHeaders request with
              | Some v => if str_eqb v (lit "true") then Some 0 else None
              | None => None
              end).
  { destruct (hasHeaders request); reflexivity. }
  cbn zeta. rewrite H.
  assert (G : forall df data, 4 <= length (columns df) ->
              fst (upload_file df) = Response200 data ->
              total_records data = length (rows df) /\
              analysis data = normalized (iterrows df)).
  { intros df data W E. rewrite (upload_file_wide df W) in E.
    injection E as <-. split; reflexivity. }
  destruct (endswith (lower (filename file)) (lit ".csv")).
  - intros S. destruct (respond_200 _ S) as [df [data [text [R [W [D [E F]]]]]]].
    destruct (G df data W F) as [T A].
    exists file, df, data, text. rewrite E.
    repeat split; auto.
  - destruct (endswith (lower (filename file)) (lit ".xls") ||
              endswith (lower (filename file)) (lit ".xlsx")); [|discriminate].
    intros S. destruct (respond_200 _ S) as [df [data [text [R [W [D [E F]]]]]]].
    destruct (G df data W F) as [T A].
    exists file, df, data, text. rewrite E.
    repeat split; auto.
Qed.

Lemma upload_success_witness :
  snd (fst (@upload fragment pandas_2 cpython_311 both_drawn csv_only
              csv_request)) = 200 /\
  exists data text,
    total_records data = 2 /\
    @dumps csv_only data = Ok text /\
    fst (fst (@upload fragment pandas_2 cpython_311 both_drawn csv_only
                csv_request)) = Dumped text.
Proof.
  assert (S : snd (fst (@upload fragment pandas_2 cpython_311 both_drawn
                          csv_only csv_request)) = 200)
    by reflexivity.
  split; [exact S|].
  destruct (@upload_success fragment pandas_2 cpython_311 both_drawn csv_only
              csv_request S)
    as [file [df [data [text [_ [[R | R] [_ [_ [T [_ [D B]]]]]]]]]]].
  - exists data, text. injection R as <-. repeat split; assumption.
  - discriminate R.
Defined.

(** X17: the kind of the file is read off the end of its name, whatever
    the case of its ASCII letters: a name ending in ".csv" goes to
    [read_csv], one ending in ".xls" or ".xlsx" goes to [read_excel], and
    the reader is told of a header row exactly when the form field is the
    text "true". *)
Theorem upload_dispatch (U : Unicode) (Pd : Pandas) (Py : Interpreter)
    (P : Plotter) (L : Libraries)
    (request : Request) (file : FileStorage) (base ext : str) :
  files request = Some file ->
  filename file = base ++ ext ->
  forallb is_ascii (base ++ ext) = true ->
  (map ascii_lower ext = lit ".csv" ->
   upload request = respond (read_csv (stream file) (header_of request))) /\
  (map ascii_lower ext = lit ".xls" \/ map ascii_lower ext = lit ".xlsx" ->
   upload request = respond (read_excel (stream file) (header_of request))).
Proof.
  intros F N A.
  assert (Hh : (if match hasHeaders request with
                   | Some v => str_eqb v (lit "true")
                   | None => false
                   end then Some 0 else None) = header_of request).
  { unfold header_of. destruct (hasHeaders request); reflexivity. }
  assert (Lw : lower (filename file) = map ascii_lower base ++ map ascii_lower ext).
  { rewrite N, (lower_ascii _ A), map_app. reflexivity. }
  assert (Ne : forall e, map ascii_lower ext = e -> e <> [] ->
               str_eqb (filename file) [] = false).
  { intros e E He. destruct (str_eqb (filename file) []) eqn:S; [|reflexivity].
    apply str_eqb_eq in S. rewrite N in S. apply app_eq_nil in S as [_ S].
    subst ext. exfalso. apply He. symmetry. exact E. }
  unfold upload. rewrite F. cbn zeta. rewrite Hh, Lw. split.
  - intros E. rewrite (Ne _ E) by discriminate. rewrite E, endswith_app.
    reflexivity.
  - intros [E | E]; rewrite (Ne _ E) by discriminate; rewrite E.
    + rewrite (endswith_app_short _ (lit ".xls") (lit ".csv")) by (simpl; lia).
      rewrite endswith_app. reflexivity.
    + rewrite (endswith_app_short _ (lit ".xlsx") (lit ".csv")) by (simpl; lia).
      rewrite (endswith_app _ (lit ".xlsx")), orb_true_r. reflexivity.
Qed.

Lemma upload_dispatch_witness :
  files csv_request = Some {| filename := lit "Dados.CSV"; stream := [] |} /\
  forallb is_ascii (lit "Dados" ++ lit ".CSV") = true /\
  map ascii_lower (lit ".CSV") = lit ".csv" /\
  @upload fragment pandas_2 cpython_311 both_drawn csv_only csv_request =
  @respond fragment pandas_2 cpython_311 both_drawn csv_only (Ok headed).
Proof.
  split; [reflexivity|]. split; [reflexivity|]. split; [reflexivity|].
  exact (proj1 (@upload_dispatch fragment pandas_2 cpython_311 both_drawn
                  csv_only csv_request
                  {| filename := lit "Dados.CSV"; stream := [] |}
                  (lit "Dados") (lit ".CSV") eq_refl eq_refl eq_refl) eq_refl).
Defined.

(* ================================================================== *)
(** * The preview: what a record gives for a column label *)

Lemma dict_set_fresh (V : Type) (k : label) (v : V) (d : dict V) :
  ~ In k (map fst d) -> dict_set k v d = d ++ [(k, v)].
Proof.
  induction d as [|[k' v'] d IH]; simpl; intros H; [reflexivity|].
  destruct (label_eqb k k') eqn:E.
  - apply label_eqb_eq in E. exfalso. apply H. left. symmetry. exact E.
  - rewrite IH; [reflexivity|]. intros I. apply H. right. exact I.
Qed.

(** Under labels that are all different a record is the row zipped with
    the labels. *)
Lemma to_record_unique (cols : list label) (row : list cell) :
  NoDup cols -> length row = length cols ->
  map fst (to_record cols row) = cols /\
  map snd (to_record cols row) = map OfCell row.
Proof.
  intros N L. unfold to_record.
  assert (G : forall (cs : list label) (r : list cell) (d : dict pyval),
             length r = length cs -> NoDup (map fst d ++ cs) ->
             fold_left (fun d kv => dict_set (fst kv) (OfCell (snd kv)) d)
                       (combine cs r) d =
             d ++ combine cs (map OfCell r)).
  { induction cs as [|k cs IH]; intros [|c r] d Hl Hn; try discriminate;
      simpl; [rewrite app_nil_r; reflexivity|].
    rewrite dict_set_fresh.
    - rewrite IH.
      + rewrite <- app_assoc. reflexivity.
      + simpl in Hl. lia.
      + rewrite map_app, <- app_assoc. exact Hn.
    - intros I. apply NoDup_remove_2 in Hn. apply Hn.
      apply in_or_app. left. exact I. }
  rewrite (G cols row [] L N). simpl.
  assert (Lm : length (map OfCell row) = length cols)
    by (rewrite length_map; exact L).
  clear G N L. revert Lm. generalize (map OfCell row). intros vs.
  revert vs. induction cols as [|k cols IH]; intros [|v vs] Lm;
    try discriminate; [split; reflexivity|].
  simpl. destruct (IH vs) as [E1 E2]; [simpl in Lm; lia|].
  rewrite E1, E2. split; reflexivity.
Qed.

Lemma shown_nan_to_none (c : cell) : OfCell (nan_to_none c) = shown c.
Proof. destruct c as [[]| |]; reflexivity. Qed.

Lemma lookup_last_NoDup (V : Type) (cols : list label) (row : list V)
    (j : nat) (k : label) (v : V) :
  NoDup cols -> nth_error cols j = Some k -> nth_error row j = Some v ->
  lookup_last k (combine cols row) = Some v.
Proof.
  intros N. revert row j. induction N as [|k0 cols Hn N IH];
    intros row j Hk Hv.
  - destruct j; discriminate.
  - destruct row as [|v0 row]; [destruct j; discriminate|].
    destruct j as [|j]; simpl in *.
    + injection Hk as ->. injection Hv as ->.
      destruct (lookup_last k (combine cols row)) eqn:E.
      * exfalso. apply Hn. exact (lookup_last_In _ _ _ E).
      * rewrite label_eqb_refl. reflexivity.
    + rewrite (IH row j Hk Hv). reflexivity.
Qed.


(** X18: in a table of one cell per column whose labels are all different,
    entry [i] of the preview exists only for [i < 5] and is row [i] of the
    table under the column labels: its keys are the labels in the order of
    the columns, its values the stored cells of the row in that order, a
    missing cell (NaN, NaT or None) shown as None, and looked up by the
    label of column [j] it gives cell [j]. *)
Theorem preview_lookup (df : DataFrame) (i : nat) (d : dict pyval) :
  NoDup (columns df) ->
  rectangular df ->
  nth_error (preview_of df) i = Some d ->
  exists row,
    i < 5 /\ nth_error (rows df) i = Some row /\
    map fst d = columns df /\
    map snd d = map shown row /\
    forall j k c,
      nth_error (columns df) j = Some k -> nth_error row j = Some c ->
      dict_get d k = Some (shown c).
Proof.
  intros N R H.
  destruct (preview_entry df i H) as [row [I [Hr [E G]]]].
  assert (L : length row = length (columns df)).
  { unfold rectangular in R. rewrite Forall_forall in R.
    exact (R row (nth_error_In _ _ Hr)). }
  exists row. split; [exact I|]. split; [exact Hr|].
  destruct (@to_record_unique (columns df) (map nan_to_none row) N)
    as [E1 E2]; [rewrite length_map; exact L|].
  split; [rewrite E; exact E1|]. split.
  - rewrite E, E2, map_map. apply map_ext. exact shown_nan_to_none.
  - intros j k c Hk Hc.
    rewrite G, (@lookup_last_NoDup _ _ _ _ _ _ N Hk Hc). reflexivity.
Qed.

Lemma preview_lookup_witness :
  NoDup (columns headed) /\ rectangular headed /\
  exists d,
    nth_error (preview_of headed) 1 = Some d /\
    map fst d = columns headed /\
    dict_get d (LStr (lit "valor")) = Some (OfCell (Text (lit "30.0"))).
Proof.
  assert (N : NoDup (columns headed)).
  { repeat constructor; simpl; intuition discriminate. }
  assert (R : rectangular headed).
  { unfold rectangular. simpl. repeat constructor. }
  split; [exact N|]. split; [exact R|].
  eexists. split; [reflexivity|].
  destruct (@preview_lookup headed 1 _ N R eq_refl)
    as [row [_ [Hr [K [_ G]]]]].
  split; [exact K|].
  injection Hr as <-.
  exact (G 3 (LStr (lit "valor")) (Text (lit "30.0")) eq_refl eq_refl).
Defined.

(* ================================================================== *)
(** * The route: the answers 500 *)

Section RouteFailures.
Context {U : Unicode} {Pd : Pandas} {Py : Interpreter} {P : Plotter}
        {L : Libraries}.

Lemma respond_500 (read : result DataFrame) :
  snd (fst (respond read)) = 500 ->
  exists e,
    fst (fst (respond read)) =
    ErrorJson (lit "Erro ao processar arquivo: " ++ exn_str e) /\
    (read = Raise e \/
     exists df,
       read = Ok df /\
       ((length (columns df) < 4 /\ e = ValueError schema_message) \/
        (4 <= length (columns df) /\
         exists data, fst (upload_file df) = Response200 data /\
                      dumps data = Raise e))).
Proof.
  unfold respond. destruct read as [df|e].
  2: { intros _. exists e. split; [reflexivity | left; reflexivity]. }
  destruct (Nat.lt_ge_cases (length (columns df)) 4) as [N | W].
  - rewrite (upload_file_narrow df N). intros _.
    exists (ValueError schema_message). split; [reflexivity|].
    right. exists df. split; [reflexivity|]. left. split; [exact N | reflexivity].
  - rewrite (upload_file_wide df W).
    destruct (dumps _) as [text|e] eqn:D; [discriminate|].
    intros _. exists e. split; [reflexivity|].
    right. exists df. split; [reflexivity|]. right. split; [exact W|].
    eexists. split; [rewrite (upload_file_wide df W); reflexivity | exact D].
Qed.

End RouteFailures.

(** X19: an answer 500 carries the message "Erro ao processar arquivo: "
    followed by the text of an exception, and that exception is one of
    three: the one the reader raised, the schema error of a table of fewer
    than 4 columns, or the one [json.dumps] raised on the payload.  A row
    that fails and a chart that fails never give 500. *)
Theorem upload_failure (U : Unicode) (Pd : Pandas) (Py : Interpreter)
    (P : Plotter) (L : Libraries) (request : Request) :
  snd (fst (upload request)) = 500 ->
  exists file e,
    files request = Some file /\
    fst (fst (upload request)) =
    ErrorJson (lit "Erro ao processar arquivo: " ++ exn_str e) /\
    let read :=
      if endswith (lower (filename file)) (lit ".csv")
      then read_csv (stream file) (header_of request)
      else read_excel (stream file) (header_of request) in
    (read = Raise e \/
     exists df,
       read = Ok df /\
       ((length (columns df) < 4 /\ e = ValueError schema_message) \/
        (4 <= length (columns df) /\
         exists data, fst (upload_file df) = Response200 data /\
                      dumps data = Raise e))).
Proof.
  unfold upload, header_of. destruct (files request) as [file|]; [|discriminate].
  destruct (str_eqb (filename file) []); [discriminate|].
  assert (H : (if match hasHeaders request with
                  | Some v => str_eqb v (lit "true")
                  | None => false
                  end then Some 0 else None) =
              match hasHeaders request with
              | Some v => if str_eqb v (lit "true") then Some 0 else None
              | None => None
              end).
  { destruct (hasHeaders request); reflexivity. }
  cbn zeta. rewrite H.
  destruct (endswith (lower (filename file)) (lit ".csv")) eqn:K.
  - intros S. destruct (respond_500 _ S) as [e [B C]].
    exists file, e. rewrite K.
    split; [reflexivity|]. split; [exact B | exact C].
  - destruct (endswith (lower (filename file)) (lit ".xls") ||
              endswith (lower (filename file)) (lit ".xlsx")); [|discriminate].
    intros S. destruct (respond_500 _ S) as [e [B C]].
    exists file, e. rewrite K.
    split; [reflexivity|]. split; [exact B | exact C].
Qed.

Lemma upload_failure_witness :
  snd (fst (@upload fragment pandas_3 cpython_312 both_drawn all_fail
              csv_request)) = 500 /\
  exists e,
    fst (fst (@upload fragment pandas_3 cpython_312 both_drawn all_fail
                csv_request)) =
    ErrorJson (lit "Erro ao processar arquivo: " ++ exn_str e).
Proof.
  assert (S : snd (fst (@upload fragment pandas_3 cpython_312 both_drawn
                          all_fail csv_request)) = 500)
    by reflexivity.
  split; [exact S|].
  destruct (@upload_failure fragment pandas_3 cpython_312 both_drawn all_fail
              csv_request S)
    as [file [e [_ [B _]]]].
  exists e. exact B.
Defined.


(* ================================================================== *)
(** * [process_data]: all the rows or none *)

Section AllOrNothing.
Context {U : Unicode} {Pd : Pandas}.

(** In a rectangular table every row gives an item or every row raises the
    same error, as the column labels decide. *)
Lemma process_data_by_fault (df : DataFrame) :
  rectangular df -> 4 <= length (columns df) ->
  match row_fault (columns df) with
  | None =>
      process_data df = (Ok (normalized (iterrows df)), []) /\
      length (normalized (iterrows df)) = length (rows df)
  | Some e =>
      process_data df =
      (Ok [], map (fun row => RowErrorLog row e) (iterrows df))
  end.
Proof.
  intros R H. rewrite (process_data_wide df H).
  assert (F : forall row, In row (iterrows df) ->
              match row_fault (columns df) with
              | Some e => process_row row = Raise e
              | None => exists it, process_row row = Ok it
              end).
  { intros row Hin. destruct (@iterrows_shape _ df row R Hin) as [I L].
    rewrite <- I. apply process_row_fault. rewrite I. exact L. }
  destruct (row_fault (columns df)) as [e|].
  - destruct (@all_skipped _ _ (iterrows df) e F) as [-> ->]. reflexivity.
  - apply skipped_nil_iff in F.
    pose proof (normalized_length (iterrows df)) as L.
    rewrite F, iterrows_length in L. simpl in L.
    rewrite F. split; [reflexivity | lia].
Qed.

End AllOrNothing.

(** X20: with at least 4 columns and one cell per column every row is
    accounted for, and the rows fare alike: either each row gives a record
    and nothing is printed, or no row gives a record and the same error is
    printed for each, the KeyError of one of the labels 0 to 3 that no
    column carries or the error of a label that several columns carry. *)
Theorem rows_are_accounted_for (U : Unicode) (Pd : Pandas) (df : DataFrame) :
  rectangular df ->
  4 <= length (columns df) ->
  exists items out,
    process_data df = (Ok items, out) /\
    length items + length out = length (rows df) /\
    ((out = [] /\ length items = length (rows df)) \/
     (items = [] /\
      exists e,
        out = map (fun row => RowErrorLog row e) (iterrows df) /\
        (e = ambiguous \/
         exists k, k < 4 /\ e = KeyError k /\ ~ In (LInt k) (columns df)))).
Proof.
  intros R H. pose proof (@process_data_by_fault _ _ df R H) as F.
  destruct (row_fault (columns df)) as [e|] eqn:E.
  - exists [], (map (fun row => RowErrorLog row e) (iterrows df)).
    split; [exact F|]. split; [rewrite length_map; apply iterrows_length|].
    right. split; [reflexivity|]. exists e. split; [reflexivity|].
    exact (@row_fault_cases _ (columns df) e H E).
  - destruct F as [F L]. exists (normalized (iterrows df)), [].
    split; [exact F|]. split; [simpl; lia|]. left. split; [reflexivity | exact L].
Qed.

Lemma rows_are_accounted_for_witness :
  rectangular numbered_from_5 /\
  4 <= length (columns numbered_from_5) /\
  exists out,
    process_data (U := fragment) (Pd := pandas_2) numbered_from_5 =
    (Ok [], out) /\
    length out = 1.
Proof.
  assert (R : rectangular numbered_from_5).
  { unfold rectangular. simpl. repeat constructor. }
  assert (H : 4 <= length (columns numbered_from_5)) by (simpl; lia).
  split; [exact R|]. split; [exact H|].
  destruct (@rows_are_accounted_for fragment pandas_2 numbered_from_5 R H)
    as [items [out [E [N _]]]].
  exists out.
  assert (I : items = []).
  { vm_compute in E. injection E as <- _. reflexivity. }
  subst items. split; [exact E | exact N].
Defined.

(** X21: under a header row of texts the pandas version decides: before
    3.0 the cells are accessed positionally and every row gives a record;
    from 3.0 on the integer 3 is looked up among the labels, and every row
    is skipped with the KeyError of 3. *)
Theorem header_of_texts (U : Unicode) (Pd : Pandas) (df : DataFrame) :
  rectangular df ->
  4 <= length (columns df) ->
  existsb is_int_label (columns df) = false ->
  (positional_fallback = true ->
   exists items,
     process_data df = (Ok items, []) /\ length items = length (rows df)) /\
  (positional_fallback = false ->
   process_data df =
   (Ok [], map (fun row => RowErrorLog row (KeyError 3)) (iterrows df))).
Proof.
  intros R H X. pose proof (@process_data_by_fault _ _ df R H) as F.
  assert (O : forall k, occurrences (LInt k) (columns df) = 0).
  { intros k. apply occurrences_zero. intros I.
    assert (T : existsb is_int_label (columns df) = true)
      by (apply existsb_exists; exists (LInt k); split; [exact I | reflexivity]).
    rewrite X in T. discriminate. }
  unfold row_fault, lookup_fault in F. rewrite X, !O in F.
  split; intros B; rewrite B in F; cbn [andb negb] in F.
  - assert (L : forall k, k < 4 -> (k <? length (columns df)) = true)
      by (intros k Hk; apply Nat.ltb_lt; lia).
    rewrite !L in F by lia. destruct F as [F N].
    eexists. split; [exact F | exact N].
  - exact F.
Qed.

Lemma header_of_texts_witness :
  rectangular headed /\
  4 <= length (columns headed) /\
  existsb is_int_label (columns headed) = false /\
  (exists items,
     process_data (U := fragment) (Pd := pandas_2) headed = (Ok items, []) /\
     length items = 2) /\
  exists out,
    process_data (U := fragment) (Pd := pandas_3) headed = (Ok [], out) /\
    length out = 2.
Proof.
  assert (R : rectangular headed).
  { unfold rectangular. simpl. repeat constructor. }
  assert (H : 4 <= length (columns headed)) by (simpl; lia).
  split; [exact R|]. split; [exact H|]. split; [reflexivity|]. split.
  - exact (proj1 (@header_of_texts fragment pandas_2 headed R H eq_refl) eq_refl).
  - eexists. split.
    + exact (proj2 (@header_of_texts fragment pandas_3 headed R H eq_refl) eq_refl).
    + reflexivity.
Defined.

(** X22: without a header row the labels are the positions, and whatever
    the pandas version no row is skipped: each row gives a record and
    nothing is printed. *)
Theorem positions_as_labels (U : Unicode) (Pd : Pandas) (df : DataFrame)
    (n : nat) :
  columns df = map LInt (seq 0 n) ->
  rectangular df ->
  4 <= n ->
  accessed_positionally (columns df) /\
  exists items,
    process_data df = (Ok items, []) /\ length items = length (rows df).
Proof.
  intros C R H.
  assert (W : 4 <= length (columns df))
    by (rewrite C, length_map, length_seq; exact H).
  assert (A : accessed_positionally (columns df))
    by (rewrite C; apply range_index_positional).
  split; [exact A|].
  assert (G : forall row, In row (iterrows df) ->
              exists it, process_row row = Ok it).
  { intros row Hin.
    destruct (@process_row_positional _ _ df row R W A Hin)
      as [c0 [c1 [c2 [c3 [rest [x [_ [_ E]]]]]]]].
    eexists. exact E. }
  exists (normalized (iterrows df)).
  apply skipped_nil_iff in G.
  rewrite (process_data_wide df W), G. split; [reflexivity|].
  pose proof (normalized_length (iterrows df)) as L.
  rewrite G, iterrows_length in L. simpl in L. lia.
Qed.

Lemma positions_as_labels_witness :
  columns ledger = map LInt (seq 0 4) /\
  rectangular ledger /\
  4 <= 4 /\
  exists items,
    process_data (U := fragment) (Pd := pandas_2) ledger = (Ok items, []) /\
    length items = 5.
Proof.
  assert (R : rectangular ledger).
  { unfold rectangular. simpl. repeat constructor. }
  split; [reflexivity|]. split; [exact R|]. split; [lia|].
  exact (proj2 (@positions_as_labels fragment pandas_2 ledger 4 eq_refl R
                  (le_n 4))).
Defined.
